(** * RCA Agent: the knowledge base pipeline of [backend/rca_agent.py]

    A shallow embedding of [AdvancedRCAKnowledgeBase]: the SQLite store
    (RCA documents, chat sessions, chat messages), the sync run over the
    bucket, the similarity search, the recommendation generator and the
    intent router.

    Conventions.
    - Python exceptions are the [Raise] branch of [result].
    - The outside world (bucket, language model, embedding service, vector
      index, clocks, engine faults) is a record of oracles; every call made
      to the model, the extractor or the embedding service is logged in a
      trace of [event]s, so that "no call is made" is a statement about
      that trace.
    - Index distances and similarity scores are Python floats. A finite
      double is the rational it denotes, and the arithmetic of the score
      is binary64: every operation returns the double nearest to the
      exact result ([PyFloat]).
    - SQLite text timestamps are strings, ordered as SQLite orders TEXT. *)

From Stdlib Require Import ZArith QArith Qround Qpower Lqa String Ascii List Lia Bool.
From Stdlib Require Import Sorted Permutation.
From stdpp Require Import base option list gmap strings pretty.

Local Open Scope Z_scope.
Local Open Scope string_scope.

(* ===================================================================== *)
(** ** Exceptions and the error monad                                     *)
(* ===================================================================== *)

Inductive exn : Type :=
  | IntegrityError     (* sqlite3: constraint violated *)
  | OperationalError   (* sqlite3: engine or I/O fault *)
  | ValueError
  | KeyError
  | IndexError
  | TypeError
  | ServiceError.      (* bucket, model, embedding or index call failed *)

Inductive result (A : Type) : Type :=
  | Ok (a : A)
  | Raise (e : exn).
Arguments Ok {A} a.
Arguments Raise {A} e.

Definition rbind {A B : Type} (m : result A) (k : A -> result B) : result B :=
  match m with
  | Ok a => k a
  | Raise e => Raise e
  end.

Notation "'let!' x ':=' m 'in' k" := (rbind m (fun x => k))
  (at level 10, x name, m at level 100, k at level 200).

Definition is_ok {A : Type} (m : result A) : bool :=
  match m with Ok _ => true | Raise _ => false end.

Fixpoint rmap_list {A B : Type} (f : A -> result B) (l : list A)
  : result (list B) :=
  match l with
  | [] => Ok []
  | a :: l' => let! b := f a in let! bs := rmap_list f l' in Ok (b :: bs)
  end.

(* ===================================================================== *)
(** ** Python string primitives used by the program                       *)
(* ===================================================================== *)

Module PyStr.

Definition dq : string := String (ascii_of_nat 34) EmptyString.
Definition nl : string := String (ascii_of_nat 10) EmptyString.

(** [c.lower()] on one ASCII character. *)
Definition lower_ascii (c : ascii) : ascii :=
  let n := nat_of_ascii c in
  if (Nat.leb 65 n && Nat.leb n 90)%bool then ascii_of_nat (n + 32) else c.

(** [s.lower()]. *)
Fixpoint lower (s : string) : string :=
  match s with
  | EmptyString => EmptyString
  | String c s' => String (lower_ascii c) (lower s')
  end.

(** [c.isspace()] on ASCII: tab, LF, VT, FF, CR, FS, GS, RS, US, space. *)
Definition isspace (c : ascii) : bool :=
  let n := nat_of_ascii c in
  ((Nat.leb 9 n && Nat.leb n 13) || (Nat.leb 28 n && Nat.leb n 32))%bool.

Fixpoint lstrip (s : string) : string :=
  match s with
  | EmptyString => EmptyString
  | String c s' => if isspace c then lstrip s' else s
  end.

(** [rstrip]: a character is dropped when it is a space and everything
    after it has been dropped. *)
Fixpoint rstrip (s : string) : string :=
  match s with
  | EmptyString => EmptyString
  | String c s' =>
      match rstrip s' with
      | EmptyString => if isspace c then EmptyString else String c EmptyString
      | t => String c t
      end
  end.

(** [s.strip()]. *)
Definition strip (s : string) : string := rstrip (lstrip s).

(** [s.startswith(p)]. *)
Fixpoint starts_with (p s : string) : bool :=
  match p, s with
  | EmptyString, _ => true
  | String a p', String b s' => if Ascii.eqb a b then starts_with p' s' else false
  | String _ _, EmptyString => false
  end.

(** [needle in hay]. *)
Fixpoint contains (needle hay : string) : bool :=
  if starts_with needle hay then true
  else match hay with
       | EmptyString => false
       | String _ hay' => contains needle hay'
       end.

(** [s[:n]]. *)
Fixpoint take (n : nat) (s : string) : string :=
  match n, s with
  | O, _ => EmptyString
  | S _, EmptyString => EmptyString
  | S n', String c s' => String c (take n' s')
  end.

(** [sep.join(l)]. *)
Definition join (sep : string) (l : list string) : string :=
  String.concat sep l.

(** [os.path.basename(p)]: what follows the last slash. *)
Fixpoint basename (p : string) : string :=
  match p with
  | EmptyString => EmptyString
  | String c p' =>
      if contains "/" p then basename p' else p
  end.

(** Position of the last dot of [s], if any ([s.rfind('.')]). *)
Fixpoint rfind_dot (s : string) : option nat :=
  match s with
  | EmptyString => None
  | String c s' =>
      match rfind_dot s' with
      | Some i => Some (S i)
      | None => if Ascii.eqb c "."%char then Some O else None
      end
  end.

Fixpoint drop (n : nat) (s : string) : string :=
  match n, s with
  | O, _ => s
  | S _, EmptyString => EmptyString
  | S n', String _ s' => drop n' s'
  end.

(** [Path(filename).suffix]: on the final path component [name], with
    [i = name.rfind('.')], the text [name[i:]] when [0 < i < len(name)-1],
    otherwise the empty string. *)
Definition path_suffix (filename : string) : string :=
  let name := basename filename in
  match rfind_dot name with
  | Some i =>
      if (Nat.ltb 0 i && Nat.ltb i (String.length name - 1))%bool
      then drop i name else EmptyString
  | None => EmptyString
  end.

End PyStr.

(* ===================================================================== *)
(** ** Data model: rows of the three tables, blobs, search results        *)
(* ===================================================================== *)

Definition timestamp : Type := string.


(** A bucket object: [blob.name] and [blob.md5_hash]. *)
Module Blob.
Record t : Type := mk { name : string; md5_hash : option string }.
End Blob.

(** The JSON object the extraction prompt asks the model for. *)
Module Extracted.
Record t : Type := mk {
  project_name : option string;
  problems : list string;
  solutions : list string;
  root_causes : list string;
  lessons_learned : list string
}.
End Extracted.

(** What [extract_rca_content_from_bytes] returns on success. *)
Module RcaData.
Record t : Type := mk {
  filename : string;
  full_content : string;
  extracted_data : Extracted.t
}.
End RcaData.

(** A row of [rca_documents]. *)
Module Doc.
Record t : Type := mk {
  id : Z;
  filename : string;
  gcs_path : string;
  project_name : option string;
  problems : option string;
  solutions : option string;
  root_causes : option string;
  lessons_learned : option string;
  full_content : option string;
  file_hash : option string;
  created_at : timestamp;
  updated_at : timestamp
}.
End Doc.

(** A row of [chat_sessions]. *)
Module Session.
Record t : Type := mk {
  id : string;
  title : string;
  created_at : timestamp;
  updated_at : timestamp
}.
Definition set_updated_at (now : timestamp) (s : t) : t :=
  mk (id s) (title s) (created_at s) now.
Definition set_title (new_title : string) (now : timestamp) (s : t) : t :=
  mk (id s) new_title (created_at s) now.
End Session.

(** A row of [chat_messages]. *)
Module Message.
Record t : Type := mk {
  id : Z;
  session_id : string;
  message_type : string;
  content : string;
  matched_rcas : option string;
  timestamp_ : timestamp
}.
End Message.

(** An element of the list [search_similar_problems] returns. *)
Module Sim.
Record t : Type := mk {
  rca_id : Z;
  filename : string;
  project_name : option string;
  problems : list string;
  solutions : list string;
  root_causes : list string;
  similarity_score : Q
}.
End Sim.

(** The interpreter primitives whose text encodings the program relies on
    but never inspects: [json.dumps]/[json.loads] on the list columns,
    [json.dumps] of a result list, [str]/[int] on document ids and the
    ['.2f'] number format. *)
Class PyRuntime : Type := {
  json_dumps : list string -> string;
  json_loads : option string -> result (list string);
  json_dumps_rcas : list Sim.t -> string;
  py_str : Z -> string;
  py_int : string -> result Z;
  fmt_2f : Q -> string
}.

(* ===================================================================== *)
(** ** The SQLite database                                                *)
(* ===================================================================== *)

(** The database file: the three tables of [init_database], in rowid
    order, with the AUTOINCREMENT counters of the two integer keys. *)
Record Db : Type := mkDb {
  rca_documents : list Doc.t;
  rca_documents_seq : Z;
  chat_sessions : list Session.t;
  chat_messages : list Message.t;
  chat_messages_seq : Z
}.

Definition empty_db : Db := mkDb [] 0 [] [] 0.

Module Sqlite.

(** A connection. SQLite parses [FOREIGN KEY ... ON DELETE CASCADE] in
    a schema but enforces it only on a connection where
    [PRAGMA foreign_keys = ON] was issued; a connection starts with the
    pragma off. *)
Record Conn : Type := mkConn { foreign_keys : bool }.

(** [sqlite3.connect(self.db_path)]. *)
Definition connect : Conn := mkConn false.

(** An engine fault (locked file, full disk, outage) on a statement. *)
Definition faulty (fault : bool) : result unit :=
  if fault then Raise OperationalError else Ok tt.

Definition has_session (db : Db) (sid : string) : bool :=
  existsb (fun s => String.eqb (Session.id s) sid) (chat_sessions db).

(** [INSERT INTO chat_sessions (id, title) VALUES (?, ?)]; both
    timestamps take [DEFAULT CURRENT_TIMESTAMP]. *)
Definition insert_session (current_timestamp : timestamp)
    (sid title : string) (db : Db) : result Db :=
  if has_session db sid then Raise IntegrityError
  else Ok (mkDb (rca_documents db) (rca_documents_seq db)
             (chat_sessions db ++ [Session.mk sid title current_timestamp current_timestamp])
             (chat_messages db) (chat_messages_seq db)).

(** [UPDATE chat_sessions SET updated_at = ? WHERE id = ?]. *)
Definition update_session_updated_at (now : timestamp) (sid : string)
    (db : Db) : Db :=
  mkDb (rca_documents db) (rca_documents_seq db)
    (map (fun s => if String.eqb (Session.id s) sid
                   then Session.set_updated_at now s else s)
         (chat_sessions db))
    (chat_messages db) (chat_messages_seq db).

(** [UPDATE chat_sessions SET title = ?, updated_at = ? WHERE id = ?]. *)
Definition update_session_title (new_title : string) (now : timestamp)
    (sid : string) (db : Db) : Db :=
  mkDb (rca_documents db) (rca_documents_seq db)
    (map (fun s => if String.eqb (Session.id s) sid
                   then Session.set_title new_title now s else s)
         (chat_sessions db))
    (chat_messages db) (chat_messages_seq db).

(** [CHECK(message_type IN ('user', 'assistant'))]. *)
Definition check_message_type (message_type : string) : bool :=
  (String.eqb message_type "user" || String.eqb message_type "assistant")%bool.

(** [INSERT INTO chat_messages (session_id, message_type, content,
    matched_rcas) VALUES (?, ?, ?, ?)]. The CHECK constraint is always
    enforced, the foreign key only when the connection enforces it. *)
Definition insert_message (conn : Conn) (current_timestamp : timestamp)
    (sid message_type content : string) (rcas_json : option string)
    (db : Db) : result Db :=
  if negb (check_message_type message_type) then Raise IntegrityError
  else if (foreign_keys conn && negb (has_session db sid))%bool
  then Raise IntegrityError
  else
    let new_id := chat_messages_seq db + 1 in
    Ok (mkDb (rca_documents db) (rca_documents_seq db) (chat_sessions db)
          (chat_messages db ++
             [Message.mk new_id sid message_type content rcas_json current_timestamp])
          new_id).

(** [DELETE FROM chat_sessions WHERE id = ?]; the cascade to
    [chat_messages] runs only when the connection enforces foreign
    keys. *)
Definition delete_session (conn : Conn) (sid : string) (db : Db) : Db :=
  mkDb (rca_documents db) (rca_documents_seq db)
    (List.filter (fun s => negb (String.eqb (Session.id s) sid)) (chat_sessions db))
    (if foreign_keys conn
     then List.filter (fun m => negb (String.eqb (Message.session_id m) sid))
                 (chat_messages db)
     else chat_messages db)
    (chat_messages_seq db).

Definition has_document (db : Db) (filename : string) : bool :=
  existsb (fun d => String.eqb (Doc.filename d) filename) (rca_documents db).

(** [INSERT INTO rca_documents (filename, gcs_path, project_name,
    problems, solutions, root_causes, lessons_learned, full_content,
    file_hash, created_at, updated_at) VALUES (...)
    ON CONFLICT(filename) DO UPDATE SET gcs_path, project_name,
    problems, solutions, root_causes, lessons_learned, full_content,
    file_hash, updated_at = excluded.*]. The statement is an INSERT on
    a table whose key is AUTOINCREMENT: SQLite draws the next id and
    records it in [sqlite_sequence] before it meets the conflict, so the
    counter advances in the update branch too, where no row takes the id
    drawn. *)
Definition upsert_document (filename gcs_path : string)
    (project_name problems solutions root_causes lessons_learned
       full_content file_hash : option string)
    (created_at updated_at : timestamp) (db : Db) : Db :=
  let new_id := rca_documents_seq db + 1 in
  if has_document db filename
  then
    mkDb (map (fun d =>
                 if String.eqb (Doc.filename d) filename
                 then Doc.mk (Doc.id d) (Doc.filename d) gcs_path project_name
                        problems solutions root_causes lessons_learned
                        full_content file_hash (Doc.created_at d) updated_at
                 else d)
              (rca_documents db))
      new_id
      (chat_sessions db) (chat_messages db) (chat_messages_seq db)
  else
    mkDb (rca_documents db ++
            [Doc.mk new_id filename gcs_path project_name problems solutions
               root_causes lessons_learned full_content file_hash
               created_at updated_at])
      new_id
      (chat_sessions db) (chat_messages db) (chat_messages_seq db).

(** The row [SELECT ... FROM rca_documents WHERE filename = ?] finds. *)
Definition select_document (db : Db) (filename : string) : option Doc.t :=
  List.find (fun d => String.eqb (Doc.filename d) filename) (rca_documents db).

(** [SELECT filename, file_hash FROM rca_documents] read into the
    dictionary [{row[0]: row[1] for row in cursor.fetchall()}]. *)
Definition select_existing_files (db : Db) : gmap string (option string) :=
  foldl (fun m d => <[Doc.filename d := Doc.file_hash d]> m) ∅
        (rca_documents db).

(** [SELECT ... FROM rca_documents WHERE id IN (?, ...)]. *)
Definition select_documents_in (ids : list Z) (db : Db) : list Doc.t :=
  List.filter (fun d => existsb (Z.eqb (Doc.id d)) ids) (rca_documents db).

(** [with sqlite3.connect(path) as conn: body]: the block's writes are
    committed when it returns and rolled back when it raises, and the
    exception goes on to the caller. The second component is the
    database afterwards. *)
Definition transaction {A : Type} (body : Db -> result (A * Db)) (db : Db)
  : result A * Db :=
  match body db with
  | Ok (a, db') => (Ok a, db')
  | Raise e => (Raise e, db)
  end.

End Sqlite.

(* ===================================================================== *)
(** ** Chat sessions and messages                                         *)
(* ===================================================================== *)

(** What one call of a chat method reads from outside: the generated
    uuid, SQLite's [CURRENT_TIMESTAMP], [datetime.now()] in its two
    renderings, and which of the call's statements (numbered from 0, the
    commit last) the engine fails. *)
Module ChatWorld.
Record t : Type := mk {
  uuid4 : string;
  current_timestamp : timestamp;
  now_isoformat : timestamp;
  now_strftime : string;
  fault : nat -> bool
}.
End ChatWorld.

Section Chat.
Context `{PyRuntime}.

(** [create_chat_session(title=None)]. *)
Definition create_chat_session (w : ChatWorld.t) (title : option string)
    (db : Db) : result string * Db :=
  let session_id := ChatWorld.uuid4 w in
  let title :=
    match title with
    | Some (String c t) => String c t
    | _ => "Chat Session " +:+ ChatWorld.now_strftime w
    end in
  Sqlite.transaction (fun db =>
    let! _ := Sqlite.faulty (ChatWorld.fault w 0) in
    let! db1 := Sqlite.insert_session (ChatWorld.current_timestamp w)
                  session_id title db in
    let! _ := Sqlite.faulty (ChatWorld.fault w 1) in
    Ok (session_id, db1)) db.

(** [update_session_title(session_id, new_title)]. *)
Definition update_session_title (w : ChatWorld.t)
    (session_id new_title : string) (db : Db) : result unit * Db :=
  Sqlite.transaction (fun db =>
    let! _ := Sqlite.faulty (ChatWorld.fault w 0) in
    let db1 := Sqlite.update_session_title new_title
                 (ChatWorld.now_isoformat w) session_id db in
    let! _ := Sqlite.faulty (ChatWorld.fault w 1) in
    Ok (tt, db1)) db.

(** [json.dumps(matched_rcas) if matched_rcas else None]. *)
Definition rcas_json_of (matched_rcas : option (list Sim.t)) : option string :=
  match matched_rcas with
  | Some (r :: rs) => Some (json_dumps_rcas (r :: rs))
  | _ => None
  end.

(** [add_chat_message(session_id, message_type, content,
    matched_rcas=None)]. *)
Definition add_chat_message (w : ChatWorld.t)
    (session_id message_type content : string)
    (matched_rcas : option (list Sim.t)) (db : Db) : result unit * Db :=
  Sqlite.transaction (fun db =>
    let conn := Sqlite.connect in
    let rcas_json := rcas_json_of matched_rcas in
    let! _ := Sqlite.faulty (ChatWorld.fault w 0) in
    let! db1 := Sqlite.insert_message conn (ChatWorld.current_timestamp w)
                  session_id message_type content rcas_json db in
    let! _ := Sqlite.faulty (ChatWorld.fault w 1) in
    let db2 := Sqlite.update_session_updated_at
                 (ChatWorld.now_isoformat w) session_id db1 in
    let! _ := Sqlite.faulty (ChatWorld.fault w 2) in
    Ok (tt, db2)) db.

(** [delete_chat_session(session_id)]. *)
Definition delete_chat_session (w : ChatWorld.t) (session_id : string)
    (db : Db) : result unit * Db :=
  Sqlite.transaction (fun db =>
    let conn := Sqlite.connect in
    let! _ := Sqlite.faulty (ChatWorld.fault w 0) in
    let db1 := Sqlite.delete_session conn session_id db in
    let! _ := Sqlite.faulty (ChatWorld.fault w 1) in
    Ok (tt, db1)) db.

(** The states of the chat tables the program can reach from the
    schema [init_database] creates on a fresh file. *)
Inductive reachable : Db -> Prop :=
  | reach_init : reachable empty_db
  | reach_create w title db :
      reachable db -> reachable (snd (create_chat_session w title db))
  | reach_rename w sid new_title db :
      reachable db -> reachable (snd (update_session_title w sid new_title db))
  | reach_add w sid message_type content matched db :
      reachable db ->
      reachable (snd (add_chat_message w sid message_type content matched db))
  | reach_delete w sid db :
      reachable db -> reachable (snd (delete_chat_session w sid db)).

(** Referential integrity of [chat_messages.session_id]. *)
Definition no_orphans (db : Db) : Prop :=
  forall m, In m (chat_messages db) ->
    Sqlite.has_session db (Message.session_id m) = true.

(** The session row with a given id. *)
Definition find_session (db : Db) (sid : string) : option Session.t :=
  List.find (fun s => String.eqb (Session.id s) sid) (chat_sessions db).

End Chat.

(* ===================================================================== *)
(** ** Document extraction and the sync run                               *)
(* ===================================================================== *)

(** An entry of the Chroma collection. *)
Module Entry.
Record t : Type := mk {
  embedding : list Q;
  filename : string;
  project_name : option string
}.
End Entry.

(** Calls that leave the process. *)
Inductive event : Type :=
  | EvDownload (blob : Blob.t)
  | EvExtract (filename : string)
  | EvGenerate (prompt : string)
  | EvEmbed (text : string)
  | EvIndexUpsert (doc_id : string)
  | EvIndexQuery (n_results : Z).

(** The [stats] dictionary. *)
Module Stats.
Record t : Type := mk { processed : Z; updated : Z; skipped : Z; errors : Z }.
Definition zero : t := mk 0 0 0 0.
Definition incr_processed (s : t) : t :=
  mk (processed s + 1) (updated s) (skipped s) (errors s).
Definition incr_updated (s : t) : t :=
  mk (processed s) (updated s + 1) (skipped s) (errors s).
Definition incr_skipped (s : t) : t :=
  mk (processed s) (updated s) (skipped s + 1) (errors s).
Definition incr_errors (s : t) : t :=
  mk (processed s) (updated s) (skipped s) (errors s + 1).
End Stats.

(** What the processing of one blob reads from outside: the download,
    the two file decoders, the model, the embedding service, the index
    write, the clock, and which of the three store statements of the
    iteration (0 the upsert, 1 the commit, 2 the id lookup) the engine
    fails. *)
Module DocWorld.
Record t : Type := mk {
  download_as_bytes : result string;
  decode_utf8 : string -> string;
  decode_docx : string -> result string;
  decode_pdf : string -> result string;
  generate_content : string -> result string;
  parse_json_object : string -> result Extracted.t;
  embed_content : string -> result (list Q);
  collection_upsert : result unit;
  now_isoformat : timestamp;
  fault : nat -> bool
}.
End DocWorld.

(** The state a sync run threads through its loop: the database as the
    open cursor sees it, the database as last committed, the collection,
    the counters and the log of outside calls. *)
Module Run.
Record t : Type := mk {
  pending : Db;
  committed : Db;
  collection : gmap string Entry.t;
  stats : Stats.t;
  trace : list event
}.
Definition set_pending (db : Db) (r : t) : t :=
  mk db (committed r) (collection r) (stats r) (trace r).
Definition commit (r : t) : t :=
  mk (pending r) (pending r) (collection r) (stats r) (trace r).
Definition set_collection (c : gmap string Entry.t) (r : t) : t :=
  mk (pending r) (committed r) c (stats r) (trace r).
Definition map_stats (f : Stats.t -> Stats.t) (r : t) : t :=
  mk (pending r) (committed r) (collection r) (f (stats r)) (trace r).
Definition log (e : event) (r : t) : t :=
  mk (pending r) (committed r) (collection r) (stats r) (trace r ++ [e]).
Definition logs (es : list event) (r : t) : t :=
  mk (pending r) (committed r) (collection r) (stats r) (trace r ++ es).
End Run.

(** Statements of a loop body: they change the run state and may raise;
    what was changed before the exception stays changed. *)
Definition M (A : Type) : Type := Run.t -> result A * Run.t.

Definition mret {A : Type} (a : A) : M A := fun r => (Ok a, r).

Definition mbind {A B : Type} (m : M A) (k : A -> M B) : M B :=
  fun r => match m r with
           | (Ok a, r') => k a r'
           | (Raise e, r') => (Raise e, r')
           end.

Notation "'do!' x ':=' m 'in' k" := (mbind m (fun x => k))
  (at level 10, x name, m at level 100, k at level 200).

Definition mlift {A : Type} (m : result A) : M A := fun r => (m, r).
Definition mmodify (f : Run.t -> Run.t) : M unit := fun r => (Ok tt, f r).
Definition mget : M Run.t := fun r => (Ok r, r).

Section Sync.
Context `{PyRuntime}.

Definition extraction_prompt (content : string) : string :=
  "
            Analyze the following RCA document content and extract structured information.
            Return ONLY a valid JSON object with the specified keys.

            Document Content:
            " +:+ PyStr.take (Z.to_nat 8000) content +:+ "  # Limit content to avoid token limits

            JSON format to extract:
            {
                " +:+ PyStr.dq +:+ "project_name" +:+ PyStr.dq +:+ ": "
    +:+ PyStr.dq +:+ "string" +:+ PyStr.dq +:+ ",
                " +:+ PyStr.dq +:+ "problems" +:+ PyStr.dq +:+ ": ["
    +:+ PyStr.dq +:+ "list of identified problems" +:+ PyStr.dq +:+ "],
                " +:+ PyStr.dq +:+ "solutions" +:+ PyStr.dq +:+ ": ["
    +:+ PyStr.dq +:+ "list of applied solutions" +:+ PyStr.dq +:+ "],
                " +:+ PyStr.dq +:+ "root_causes" +:+ PyStr.dq +:+ ": ["
    +:+ PyStr.dq +:+ "list of root causes" +:+ PyStr.dq +:+ "],
                " +:+ PyStr.dq +:+ "lessons_learned" +:+ PyStr.dq +:+ ": ["
    +:+ PyStr.dq +:+ "list of key lessons learned" +:+ PyStr.dq +:+ "]
            }
            ".

(** The decoding branch of [extract_rca_content_from_bytes]: [None] is
    the early [return None] of an unsupported extension. *)
Definition decode_by_extension (w : DocWorld.t) (file_content file_ext : string)
  : option (result string) :=
  if (String.eqb file_ext ".txt" || String.eqb file_ext ".md")%bool
  then Some (Ok (DocWorld.decode_utf8 w file_content))
  else if String.eqb file_ext ".docx"
  then Some (DocWorld.decode_docx w file_content)
  else if String.eqb file_ext ".pdf"
  then Some (DocWorld.decode_pdf w file_content)
  else None.

(** [extract_rca_content_from_bytes(file_content, filename)], with the
    calls it makes to the model: its own [except Exception] turns every
    failure into [None]. *)
Definition extract_rca_content_from_bytes (w : DocWorld.t)
    (file_content filename : string) : option RcaData.t * list event :=
  let file_ext := PyStr.lower (PyStr.path_suffix filename) in
  match decode_by_extension w file_content file_ext with
  | None => (None, [])
  | Some (Raise _) => (None, [])
  | Some (Ok content) =>
      let prompt := extraction_prompt content in
      match DocWorld.generate_content w prompt with
      | Raise _ => (None, [EvGenerate prompt])
      | Ok response_text =>
          match DocWorld.parse_json_object w response_text with
          | Raise _ => (None, [EvGenerate prompt])
          | Ok extracted_data =>
              (Some (RcaData.mk filename content extracted_data),
               [EvGenerate prompt])
          end
      end
  end.

(** [d.get(k)] on the filename-to-hash dictionary. *)
Definition dict_get (d : gmap string (option string)) (k : string)
  : option string :=
  match d !! k with
  | Some v => v
  | None => None
  end.

(** How an f-string renders an optional text. *)
Definition fmt_opt (o : option string) : string :=
  match o with Some s => s | None => "None" end.

Definition embedding_text_of (ext_data : Extracted.t) : string :=
  "Project: " +:+ fmt_opt (Extracted.project_name ext_data) +:+ PyStr.nl
  +:+ "Problems: " +:+ PyStr.join ", " (Extracted.problems ext_data) +:+ PyStr.nl
  +:+ "Root Causes: " +:+ PyStr.join ", " (Extracted.root_causes ext_data) +:+ PyStr.nl
  +:+ "Solutions: " +:+ PyStr.join ", " (Extracted.solutions ext_data).

(** The body of the [try] of one loop iteration. *)
Definition process_blob (existing_files : gmap string (option string))
    (blob : Blob.t) (w : DocWorld.t) (filename : string)
    (file_hash : option string) : M unit :=
  do! _ := mmodify (Run.log (EvDownload blob)) in
  do! file_content := mlift (DocWorld.download_as_bytes w) in
  do! _ := mmodify (Run.log (EvExtract filename)) in
  let extraction := extract_rca_content_from_bytes w file_content filename in
  do! _ := mmodify (Run.logs (snd extraction)) in
  match fst extraction with
  | None => mmodify (Run.map_stats Stats.incr_errors)
  | Some rca_data =>
      let ext_data := RcaData.extracted_data rca_data in
      let now_iso := DocWorld.now_isoformat w in
      do! _ := mlift (Sqlite.faulty (DocWorld.fault w 0)) in
      do! _ := mmodify (fun r =>
                 Run.set_pending
                   (Sqlite.upsert_document filename (Blob.name blob)
                      (Extracted.project_name ext_data)
                      (Some (json_dumps (Extracted.problems ext_data)))
                      (Some (json_dumps (Extracted.solutions ext_data)))
                      (Some (json_dumps (Extracted.root_causes ext_data)))
                      (Some (json_dumps (Extracted.lessons_learned ext_data)))
                      (Some (RcaData.full_content rca_data))
                      file_hash now_iso now_iso (Run.pending r)) r) in
      do! _ := mlift (Sqlite.faulty (DocWorld.fault w 1)) in
      do! _ := mmodify Run.commit in
      do! _ := mlift (Sqlite.faulty (DocWorld.fault w 2)) in
      do! r := mget in
      do! row := mlift (match Sqlite.select_document (Run.pending r) filename with
                        | Some d => Ok d
                        | None => Raise TypeError
                        end) in
      let doc_id := py_str (Doc.id row) in
      let embedding_text := embedding_text_of ext_data in
      do! _ := mmodify (Run.log (EvEmbed embedding_text)) in
      do! embedding := mlift (DocWorld.embed_content w embedding_text) in
      do! _ := mmodify (Run.log (EvIndexUpsert doc_id)) in
      do! _ := mlift (DocWorld.collection_upsert w) in
      do! _ := mmodify (fun r =>
                 Run.set_collection
                   (<[doc_id := Entry.mk embedding filename
                                  (Extracted.project_name ext_data)]>
                      (Run.collection r)) r) in
      if bool_decide (is_Some (existing_files !! filename))
      then mmodify (Run.map_stats Stats.incr_updated)
      else mmodify (Run.map_stats Stats.incr_processed)
  end.

(** Whether the loop skips a blob: [existing_files.get(filename) ==
    file_hash]. *)
Definition unchanged (existing_files : gmap string (option string))
    (blob : Blob.t) : bool :=
  bool_decide (dict_get existing_files (PyStr.basename (Blob.name blob))
               = Blob.md5_hash blob).

(** One iteration of [for blob in gcs_blobs]. *)
Definition sync_blob (existing_files : gmap string (option string))
    (r : Run.t) (bw : Blob.t * DocWorld.t) : Run.t :=
  let filename := PyStr.basename (Blob.name (fst bw)) in
  let file_hash := Blob.md5_hash (fst bw) in
  if unchanged existing_files (fst bw)
  then Run.map_stats Stats.incr_skipped r
  else
    match process_blob existing_files (fst bw) (snd bw) filename file_hash r with
    | (Ok _, r') => r'
    | (Raise _, r') => Run.map_stats Stats.incr_errors r'
    end.

(** What a whole run reads from outside: the blobs the bucket iterator
    yields, each with the world it is processed in, the exception with
    which the iterator may end, and whether the engine fails the first
    query. *)
Record SyncWorld : Type := mkSyncWorld {
  list_blobs : list (Blob.t * DocWorld.t);
  list_blobs_failure : option exn;
  load_fault : bool
}.

Definition start (db : Db) (collection : gmap string Entry.t) : Run.t :=
  Run.mk db db collection Stats.zero [].

(** [sync_gcs_files()]. *)
Definition sync_gcs_files (sw : SyncWorld) (db : Db)
    (collection : gmap string Entry.t) : result Stats.t * Run.t :=
  match Sqlite.faulty (load_fault sw) with
  | Raise e => (Raise e, start db collection)
  | Ok _ =>
      let existing_files := Sqlite.select_existing_files db in
      let r := foldl (sync_blob existing_files) (start db collection)
                     (list_blobs sw) in
      match list_blobs_failure sw with
      | Some e => (Raise e, r)
      | None => (Ok (Run.stats r), r)
      end
  end.

End Sync.

(* ===================================================================== *)
(** ** Similarity search                                                  *)
(* ===================================================================== *)

(** What [collection.query] hands back: the dictionary's ['ids'] and
    ['distances'] entries, one inner list per query embedding. A
    distance is a Python float, given by the rational it denotes. *)
Module QueryResult.
Record t : Type := mk {
  ids : option (list (list string));
  distances : option (list (list Q))
}.
End QueryResult.

(** What one search reads from outside: the embedding service, the
    answer of the collection ([None] for an empty answer), and whether
    the engine fails the row query. *)
Module SearchWorld.
Record t : Type := mk {
  embed_content : string -> result (list Q);
  collection_query : list Q -> Z -> result (option QueryResult.t);
  fault : bool
}.
End SearchWorld.

(** [max(0, x)]: the first argument stays unless the second is greater. *)
Definition py_max0 (x : Q) : Q := if Qle_bool x 0 then 0%Q else x.

(** Nearest integer, ties to the even one. *)
Definition round_half_even (x : Q) : Z :=
  let f := Qfloor x in
  match (x - inject_Z f ?= 1 # 2)%Q with
  | Lt => f
  | Gt => f + 1
  | Eq => if Z.even f then f else f + 1
  end.

(** Python's [float] is IEEE 754 binary64. A finite double is a rational
    number, and an arithmetic operation on doubles returns the double
    nearest to the exact result, ties going to the even significand.
    The doubles around [q], with [2^e <= |q| < 2^(e+1)], are the
    multiples of [2^(e-52)], and of [2^(-1074)] below the normal range.
    Results are kept in lowest terms. The largest double is not
    modelled: a result beyond it is an infinity in Python, which no
    computation on a distance [d >= 0] reaches. *)
Module PyFloat.

Definition pow2 (e : Z) : Q := Qpower 2 e.

(** The binary exponent [e] of [q > 0]: [2^e <= q < 2^(e+1)]. *)
Definition ilog2 (q : Q) : Z :=
  let e0 := (Z.log2 (Qnum q) - Z.log2 (Zpos (Qden q)))%Z in
  if Qle_bool (pow2 e0) q then e0 else (e0 - 1)%Z.

(** The exponent of the spacing of the doubles around [q > 0]. *)
Definition ulp_exponent (q : Q) : Z := Z.max (ilog2 q - 52) (-1074).

(** The multiple of [2^p] nearest to [q]. *)
Definition round_to_grid (p : Z) (q : Q) : Q :=
  (inject_Z (round_half_even (q / pow2 p)) * pow2 p)%Q.

Definition nearest_pos (q : Q) : Q := round_to_grid (ulp_exponent q) q.

(** The double nearest to [q]. *)
Definition nearest (q : Q) : Q :=
  match (q ?= 0)%Q with
  | Eq => 0%Q
  | Gt => Qred (nearest_pos q)
  | Lt => Qred (- nearest_pos (- q))%Q
  end.

(** [x - y] and [x * y] on doubles; an [int] operand is converted
    exactly. *)
Definition sub (x y : Q) : Q := nearest (x - y)%Q.
Definition mul (x y : Q) : Q := nearest (x * y)%Q.

End PyFloat.

(** [round(x, 2)] on a double: CPython rounds the exact value of [x] to
    two decimals, ties to even, and returns the double nearest to that
    decimal. *)
Definition py_round2 (x : Q) : Q :=
  PyFloat.nearest (inject_Z (round_half_even (x * 100)) / 100)%Q.

(** [round(max(0, (1 - distance)) * 100, 2)], on the double [distance]. *)
Definition similarity_score_of (distance : Q) : Q :=
  py_round2 (PyFloat.mul (py_max0 (PyFloat.sub 1 distance)) 100).

Section Search.
Context `{PyRuntime}.

(** [{row[0]: row for row in cursor.fetchall()}]. *)
Definition rca_map_of (rows : list Doc.t) : gmap Z Doc.t :=
  foldl (fun m row => <[Doc.id row := row]> m) ∅ rows.

(** [for i, doc_id in enumerate(matched_ids)], from position [i] on. *)
Fixpoint join_results (rca_map : gmap Z Doc.t) (distances : list Q)
    (i : nat) (matched_ids : list Z) : result (list Sim.t) :=
  match matched_ids with
  | [] => Ok []
  | doc_id :: rest =>
      match rca_map !! doc_id with
      | Some rca =>
          let! distance := match distances !! i with
                           | Some d => Ok d
                           | None => Raise IndexError
                           end in
          let! problems := json_loads (Doc.problems rca) in
          let! solutions := json_loads (Doc.solutions rca) in
          let! root_causes := json_loads (Doc.root_causes rca) in
          let! similar_rcas := join_results rca_map distances (S i) rest in
          Ok (Sim.mk (Doc.id rca) (Doc.filename rca) (Doc.project_name rca)
                problems solutions root_causes (similarity_score_of distance)
              :: similar_rcas)
      | None => join_results rca_map distances (S i) rest
      end
  end.

(** [search_similar_problems(current_problem, top_n=5)]. *)
Definition search_similar_problems (w : SearchWorld.t) (db : Db)
    (current_problem : string) (top_n : Z) : result (list Sim.t) :=
  let! query_embedding := SearchWorld.embed_content w current_problem in
  let! results := SearchWorld.collection_query w query_embedding top_n in
  match results with
  | None => Ok []
  | Some results =>
      match QueryResult.ids results with
      | None => Ok []
      | Some [] => Ok []
      | Some ([] :: _) => Ok []
      | Some ((id_str :: id_strs) :: _) =>
          let! matched_ids := rmap_list py_int (id_str :: id_strs) in
          let! distances := match QueryResult.distances results with
                            | Some (d :: _) => Ok d
                            | Some [] => Raise IndexError
                            | None => Raise KeyError
                            end in
          let! _ := Sqlite.faulty (SearchWorld.fault w) in
          let rca_map := rca_map_of (Sqlite.select_documents_in matched_ids db) in
          join_results rca_map distances 0 matched_ids
      end
  end.

End Search.

(* ===================================================================== *)
(** ** Recommendation generator and intent router                         *)
(* ===================================================================== *)

Definition no_similar_message : string :=
  "No similar problems were found in the knowledge base. The knowledge base may need to be synced or expanded.".

Definition technical_problem_solving : string := "technical_problem_solving".
Definition general_knowledge_query : string := "general_knowledge_query".

Section Generation.
Context `{PyRuntime}.

Definition recommendation_header (current_problem : string) : string :=
  "
        You are an expert Senior Site Reliability Engineer (SRE) and Root Cause Analysis specialist.
        Your task is to provide a comprehensive solution recommendation for a new problem based on historical RCA data.

        **Current Problem Description:**
        "
    +:+ PyStr.dq
    +:+ current_problem
    +:+ PyStr.dq
    +:+ "

        **Retrieved Similar Historical Incidents (ranked by relevance):**
        ".

Definition recommendation_incident (i : Z) (rca : Sim.t) : string :=
  "
        ---
        **Incident #"
    +:+ py_str i
    +:+ " (Similarity: "
    +:+ fmt_2f (Sim.similarity_score rca)
    +:+ "%)**
        - **File:** "
    +:+ Sim.filename rca
    +:+ "
        - **Project:** "
    +:+ fmt_opt (Sim.project_name rca)
    +:+ "
        - **Problem Summary:** "
    +:+ PyStr.join "; " (Sim.problems rca)
    +:+ "
        - **Identified Root Causes:** "
    +:+ PyStr.join "; " (Sim.root_causes rca)
    +:+ "
        - **Successful Solutions Applied:** "
    +:+ PyStr.join "; " (Sim.solutions rca)
    +:+ "
        ".

Definition recommendation_footer : string :=
  "
        ---
        **Your Analysis and Recommendations:**

        Based on your expert analysis of the current problem and the historical data provided, generate a structured response with the following sections:

        1.  **Problem Synopsis:** Briefly synthesize the user's current problem and explain *why* the retrieved incidents are relevant. Highlight the common themes.
        2.  **Top Recommended Solutions:** Provide a prioritized list of actionable solutions derived from the most successful historical data. For each solution, explain the reasoning behind its recommendation.
        3.  **Step-by-Step Implementation Plan:** For the #1 recommended solution, provide a clear, step-by-step guide for implementation.
        4.  **Potential Risks and Mitigation:** What are the potential risks of implementing the proposed solutions? Suggest ways to mitigate these risks.
        5.  **Further Investigation Questions:** What clarifying questions should be asked to get more context about the current problem? This will help refine the diagnosis.

        Format your response using Markdown for clarity and readability.
        ".

(** [for i, rca in enumerate(similar_rcas, 1): prompt += ...]. *)
Fixpoint recommendation_incidents (i : Z) (similar_rcas : list Sim.t) : string :=
  match similar_rcas with
  | [] => EmptyString
  | rca :: rest =>
      recommendation_incident i rca +:+ recommendation_incidents (i + 1) rest
  end.

Definition recommendation_prompt (current_problem : string)
    (similar_rcas : list Sim.t) : string :=
  recommendation_header current_problem
  +:+ recommendation_incidents 1 similar_rcas
  +:+ recommendation_footer.

(** [generate_solution_recommendation(current_problem, similar_rcas)],
    with the log of the calls it makes to the model. *)
Definition generate_solution_recommendation
    (generate_content : string -> result string)
    (current_problem : string) (similar_rcas : list Sim.t)
  : result string * list event :=
  match similar_rcas with
  | [] => (Ok no_similar_message, [])
  | _ :: _ =>
      let prompt := recommendation_prompt current_problem similar_rcas in
      (generate_content prompt, [EvGenerate prompt])
  end.

Definition intent_prompt (query : string) : string :=
  "
        You are a high-level query routing system. Your only job is to classify the user's request into one of two categories.

        Categories:
        1. "
    +:+ PyStr.dq
    +:+ "technical_problem_solving"
    +:+ PyStr.dq
    +:+ ": The user is describing a live, ongoing technical problem, an error, or a system failure and is looking for a solution. Examples: "
    +:+ PyStr.dq
    +:+ "The database is timing out again"
    +:+ PyStr.dq
    +:+ ", "
    +:+ PyStr.dq
    +:+ "I'm getting 500 errors on the checkout page"
    +:+ PyStr.dq
    +:+ ", "
    +:+ PyStr.dq
    +:+ "Our main VM just crashed"
    +:+ PyStr.dq
    +:+ ".
        2. "
    +:+ PyStr.dq
    +:+ "general_knowledge_query"
    +:+ PyStr.dq
    +:+ ": The user is asking a question *about* the knowledge base (e.g., "
    +:+ PyStr.dq
    +:+ "how many..."
    +:+ PyStr.dq
    +:+ ", "
    +:+ PyStr.dq
    +:+ "list..."
    +:+ PyStr.dq
    +:+ ", "
    +:+ PyStr.dq
    +:+ "tell me about..."
    +:+ PyStr.dq
    +:+ "), or is having a general conversation.

        User Query: "
    +:+ PyStr.dq
    +:+ query
    +:+ PyStr.dq
    +:+ "

        Analyze the query and respond with just the category name.
        Example response: general_knowledge_query
        ".

(** [get_query_intent(query)]: [generate_content] stands for the call
    and the reading of [response.text], both inside the [try]. *)
Definition get_query_intent (generate_content : string -> result string)
    (query : string) : string :=
  let prompt := intent_prompt query in
  match generate_content prompt with
  | Ok text =>
      let response_text := PyStr.strip (PyStr.lower text) in
      if PyStr.contains technical_problem_solving response_text
      then technical_problem_solving
      else general_knowledge_query
  | Raise _ => general_knowledge_query
  end.

End Generation.

(* ===================================================================== *)
(** ** A concrete interpreter for running the model                       *)
(* ===================================================================== *)

Fixpoint digits_value (acc : Z) (s : string) : result Z :=
  match s with
  | EmptyString => Ok acc
  | String c s' =>
      let n := Z.of_nat (nat_of_ascii c) in
      if ((48 <=? n)%Z && (n <=? 57)%Z)%bool
      then digits_value (10 * acc + (n - 48)) s'
      else Raise ValueError
  end.

(** Decimal renderings for ids, one-element lists for the list columns. *)
Definition plain_runtime : PyRuntime := {|
  json_dumps := String.concat ",";
  json_loads := fun o => match o with
                         | Some s => Ok [s]
                         | None => Raise TypeError
                         end;
  json_dumps_rcas := fun l => String.concat "," (map Sim.filename l);
  py_str := pretty;
  py_int := fun s => match s with
                     | EmptyString => Raise ValueError
                     | _ => digits_value 0 s
                     end;
  fmt_2f := fun q => pretty (Qfloor q)
|}.

(** A world in which nothing fails, for running the chat methods. *)
Definition calm_chat (uuid : string) (utc local : timestamp) : ChatWorld.t :=
  ChatWorld.mk uuid utc local "2024-03-05 10:15" (fun _ => false).

(** create a session, post one message, delete the session. *)
Definition after_create : Db :=
  snd (create_chat_session
         (calm_chat "s1" "2024-03-05 10:15:00" "2024-03-05T10:15:00.000001")
         None empty_db).
Definition after_message : Db :=
  snd (add_chat_message (H := plain_runtime)
         (calm_chat "" "2024-03-05 10:15:02" "2024-03-05T10:15:02.000001")
         "s1" "user" "checkout returns 500" None after_create).
Definition after_delete : Db :=
  snd (delete_chat_session
         (calm_chat "" "2024-03-05 10:15:09" "2024-03-05T10:15:09.000001")
         "s1" after_message).

(** Post a message to a session id that was never created. *)
Definition after_stray_message : Db :=
  snd (add_chat_message (H := plain_runtime)
         (calm_chat "" "2024-03-05 10:20:00" "2024-03-05T10:20:00.000001")
         "no-such-session" "user" "hello" None empty_db).


(** [filename TEXT NOT NULL UNIQUE]. *)
Definition unique_filenames (db : Db) : Prop :=
  NoDup (map Doc.filename (rca_documents db)).

(** How [ON CONFLICT(filename) DO UPDATE] may change a row [d] into [d']
    when the conflict is on [filename]. *)
Definition conflict_update (filename gcs_path : string)
    (project_name problems solutions root_causes lessons_learned
       full_content file_hash : option string) (updated_at : timestamp)
    (d d' : Doc.t) : Prop :=
  Doc.id d' = Doc.id d
  /\ Doc.filename d' = Doc.filename d
  /\ Doc.created_at d' = Doc.created_at d
  /\ (Doc.filename d <> filename -> d' = d)
  /\ (Doc.filename d = filename ->
      Doc.gcs_path d' = gcs_path
      /\ Doc.project_name d' = project_name
      /\ Doc.problems d' = problems
      /\ Doc.solutions d' = solutions
      /\ Doc.root_causes d' = root_causes
      /\ Doc.lessons_learned d' = lessons_learned
      /\ Doc.full_content d' = full_content
      /\ Doc.file_hash d' = file_hash
      /\ Doc.updated_at d' = updated_at).

(** A store holding one document, synced earlier from [rca/db-timeout.md]. *)
Definition stored_doc : Doc.t :=
  Doc.mk 1 "db-timeout.md" "rca/db-timeout.md" (Some "billing")
    (Some "pool exhausted") (Some "raise pool size") (Some "leak")
    (Some "add alerts") (Some "old text") (Some "hash-1")
    "2024-01-10T08:00:00.000000" "2024-01-10T08:00:00.000000".

Definition one_doc_db : Db := mkDb [stored_doc] 1 [] [] 0.

(** [stats['skipped']] raised by [n]. *)
Definition add_skipped (n : Z) (s : Stats.t) : Stats.t :=
  Stats.mk (Stats.processed s) (Stats.updated s) (Stats.skipped s + n)
    (Stats.errors s).

(** The same outside world with another listing of the bucket. *)
Definition with_blobs (sw : SyncWorld) (l : list (Blob.t * DocWorld.t))
  : SyncWorld :=
  mkSyncWorld l (list_blobs_failure sw) (load_fault sw).

(** The loop's test, on a listed blob with its world. *)
Definition is_unchanged (existing_files : gmap string (option string))
    (bw : Blob.t * DocWorld.t) : bool :=
  unchanged existing_files (fst bw).

(** [processed + updated + skipped + errors]. *)
Definition counted (s : Stats.t) : Z :=
  Stats.processed s + Stats.updated s + Stats.skipped s + Stats.errors s.

(** A world for one markdown or text blob: the download and all services
    answer; [faults] tells which store statements the engine fails. *)
Definition text_world (now : timestamp) (faults : nat -> bool) : DocWorld.t :=
  DocWorld.mk (Ok "raw bytes") (fun b => b)
    (fun _ => Raise ServiceError) (fun _ => Raise ServiceError)
    (fun _ => Ok "{...}")
    (fun _ => Ok (Extracted.mk (Some "payments") ["gateway 502"] ["restart"]
                    ["bad deploy"] ["use canaries"]))
    (fun _ => Ok [1 # 2; 1 # 3]) (Ok tt) now faults.

Definition no_fault : nat -> bool := fun _ => false.
Definition fault_on_upsert : nat -> bool := fun k => Nat.eqb k 0.

Definition same_blob : Blob.t := Blob.mk "rca/db-timeout.md" (Some "hash-1").
Definition changed_blob : Blob.t := Blob.mk "archive/db-timeout.md" (Some "hash-2").
Definition gateway_blob : Blob.t := Blob.mk "rca/gateway.txt" (Some "hash-9").
Definition cache_blob : Blob.t := Blob.mk "rca/cache.md" (Some "hash-7").

(** A bucket with an unchanged document and a new one. *)
Definition quiet_bucket : SyncWorld :=
  mkSyncWorld
    [(same_blob, text_world "2024-02-01T09:00:00.000000" no_fault);
     (gateway_blob, text_world "2024-02-01T09:00:01.000000" no_fault)]
    None false.

(** A bucket with two new documents; the store fails the upsert of the
    first. *)
Definition outage_bucket : SyncWorld :=
  mkSyncWorld
    [(gateway_blob, text_world "2024-02-01T09:00:00.000000" fault_on_upsert);
     (cache_blob, text_world "2024-02-01T09:00:01.000000" no_fault)]
    None false.

(** A bucket where the stored document has new content. *)
Definition update_bucket : SyncWorld :=
  mkSyncWorld
    [(changed_blob, text_world "2024-02-01T09:00:00.000000" no_fault)]
    None false.

(** The ranking the collection reported for the query: the first inner
    list of ['ids']. *)
Definition reported_ids (results : option QueryResult.t) : list string :=
  match results with
  | Some results =>
      match QueryResult.ids results with
      | Some (first :: _) => first
      | _ => []
      end
  | None => []
  end.

(** Whether [rca_documents] has a row with this id. *)
Definition stored_id (db : Db) (doc_id : Z) : bool :=
  existsb (fun d => Z.eqb (Doc.id d) doc_id) (rca_documents db).

(** A search world over [one_doc_db]: the index ranks the ids 7, 1, 9, of
    which only 1 is in the store. *)
Definition ranked_world : SearchWorld.t :=
  SearchWorld.mk (fun _ => Ok [1 # 2; 1 # 3])
    (fun _ _ => Ok (Some (QueryResult.mk (Some [["7"; "1"; "9"]])
                            (Some [[1 # 10; 1 # 4; 3 # 2]]))))
    false.

(* ===================================================================== *)
(** ** Read queries                                                       *)
(* ===================================================================== *)

(** Python truth of a TEXT column: neither [None] nor the empty string. *)
Definition truthy (o : option string) : bool :=
  match o with
  | Some (String _ _) => true
  | _ => false
  end.

(** A column of a returned dictionary: left as the database gave it, or
    replaced by its decoded JSON value. *)
Inductive column (A : Type) : Type :=
  | Kept (raw : option string)
  | Loaded (value : A).
Arguments Kept {A} raw.
Arguments Loaded {A} value.

(** [if d[key]: d[key] = json.loads(d[key])]. *)
Definition load_if_truthy {A : Type} (loads : option string -> result A)
    (o : option string) : result (column A) :=
  if truthy o then let! v := loads o in Ok (Loaded v) else Ok (Kept o).

(** [ORDER BY]: insertion into an ordered list, [before x y] telling that
    [x] may precede [y]; rows with equal keys stay in table order. *)
Fixpoint insert_by {A : Type} (before : A -> A -> bool) (x : A) (l : list A)
  : list A :=
  match l with
  | [] => [x]
  | y :: l' => if before x y then x :: y :: l' else y :: insert_by before x l'
  end.

Definition order_by {A : Type} (before : A -> A -> bool) (l : list A) : list A :=
  List.fold_right (insert_by before) [] l.

(** [ORDER BY updated_at DESC] on sessions and documents,
    [ORDER BY timestamp ASC] on messages. *)
Definition session_newer (a b : Session.t) : bool :=
  String.leb (Session.updated_at b) (Session.updated_at a).
Definition doc_newer (a b : Doc.t) : bool :=
  String.leb (Doc.updated_at b) (Doc.updated_at a).
Definition message_older (a b : Message.t) : bool :=
  String.leb (Message.timestamp_ a) (Message.timestamp_ b).

(** A message as [get_chat_messages] returns it. *)
Module MessageView.
Record t : Type := mk {
  id : Z;
  session_id : string;
  message_type : string;
  content : string;
  matched_rcas : column (list Sim.t);
  timestamp_ : timestamp
}.
End MessageView.

(** A document as [get_all_rcas] returns it. *)
Module RcaView.
Record t : Type := mk {
  id : Z;
  filename : string;
  gcs_path : string;
  project_name : option string;
  problems : column (list string);
  solutions : column (list string);
  root_causes : column (list string);
  lessons_learned : column (list string);
  full_content : option string;
  file_hash : option string;
  created_at : timestamp;
  updated_at : timestamp
}.
End RcaView.

(** [get_chat_sessions()]. *)
Definition get_chat_sessions (fault : bool) (db : Db) : result (list Session.t) :=
  let! _ := Sqlite.faulty fault in
  Ok (order_by session_newer (chat_sessions db)).

(** [SELECT * FROM chat_messages WHERE session_id = ? ORDER BY timestamp ASC]. *)
Definition select_messages (session_id : string) (db : Db) : list Message.t :=
  order_by message_older
    (List.filter (fun m => String.eqb (Message.session_id m) session_id)
       (chat_messages db)).

(** [get_chat_messages(session_id)]; [json_loads_rcas] is [json.loads] on
    the [matched_rcas] column. *)
Definition get_chat_messages (json_loads_rcas : option string -> result (list Sim.t))
    (fault : bool) (session_id : string) (db : Db)
  : result (list MessageView.t) :=
  let! _ := Sqlite.faulty fault in
  rmap_list
    (fun row =>
       let! matched := load_if_truthy json_loads_rcas (Message.matched_rcas row) in
       Ok (MessageView.mk (Message.id row) (Message.session_id row)
             (Message.message_type row) (Message.content row) matched
             (Message.timestamp_ row)))
    (select_messages session_id db).

(** [get_rca_count()]. *)
Definition get_rca_count (fault : bool) (db : Db) : result Z :=
  let! _ := Sqlite.faulty fault in
  Ok (Z.of_nat (length (rca_documents db))).

Section ReadDocuments.
Context `{PyRuntime}.

(** The body of the loop of [get_all_rcas]: the four list columns, in
    the order of the source. *)
Definition rca_view (row : Doc.t) : result RcaView.t :=
  let! problems := load_if_truthy json_loads (Doc.problems row) in
  let! solutions := load_if_truthy json_loads (Doc.solutions row) in
  let! root_causes := load_if_truthy json_loads (Doc.root_causes row) in
  let! lessons_learned := load_if_truthy json_loads (Doc.lessons_learned row) in
  Ok (RcaView.mk (Doc.id row) (Doc.filename row) (Doc.gcs_path row)
        (Doc.project_name row) problems solutions root_causes lessons_learned
        (Doc.full_content row) (Doc.file_hash row) (Doc.created_at row)
        (Doc.updated_at row)).

(** [get_all_rcas()]. *)
Definition get_all_rcas (fault : bool) (db : Db) : result (list RcaView.t) :=
  let! _ := Sqlite.faulty fault in
  rmap_list rca_view (order_by doc_newer (rca_documents db)).

End ReadDocuments.

(* ===================================================================== *)
(** ** General answers and the two chat endpoints                         *)
(* ===================================================================== *)

(** A streamed answer of the model, read to its end: the texts of the
    chunks that arrive and the exception, if any, that ends the
    iteration (raised by the iterator or by reading [chunk.text]). *)
Module Chunks.
Record t : Type := mk { texts : list string; failure : option exn }.
End Chunks.

(** The model object: [generate_content(prompt).text],
    [generate_content(prompt, stream=True)], and how an exception prints
    in an f-string. *)
Module Model.
Record t : Type := mk {
  generate_text : string -> result string;
  generate_stream : string -> result Chunks.t;
  str_exn : exn -> string
}.
End Model.

(** What [generate_general_response] returns: a text, or with
    [stream=True] the response object of the model. *)
Inductive general_response : Type :=
  | TextResponse (text : string)
  | StreamResponse (chunks : Chunks.t).

Definition empty_knowledge_base : string :=
  "The RCA knowledge base is currently empty.".

Definition general_apology (m : Model.t) (e : exn) : string :=
  "I encountered an issue while generating a response. The error was: "
  +:+ Model.str_exn m e.

(** The one-character strings a [str] yields when iterated. *)
Fixpoint chars_of (s : string) : list string :=
  match s with
  | EmptyString => []
  | String c s' => String c EmptyString :: chars_of s'
  end.

(** [", ".join(rca.get(key, []))] on a column of [get_all_rcas]: a list
    is joined, a text is joined character by character, [None] is a
    [TypeError]. *)
Definition join_column (c : column (list string)) : result string :=
  match c with
  | Loaded l => Ok (PyStr.join ", " l)
  | Kept (Some s) => Ok (PyStr.join ", " (chars_of s))
  | Kept None => Raise TypeError
  end.

Definition general_entry (rca : RcaView.t) : result string :=
  let! problems := join_column (RcaView.problems rca) in
  let! solutions := join_column (RcaView.solutions rca) in
  Ok ("--- Document: " +:+ RcaView.filename rca +:+ " ---" +:+ PyStr.nl
      +:+ "Project: " +:+ fmt_opt (RcaView.project_name rca) +:+ PyStr.nl
      +:+ "Problems: " +:+ problems +:+ PyStr.nl
      +:+ "Solutions: " +:+ solutions +:+ PyStr.nl +:+ PyStr.nl).

(** [for rca in all_rcas: context += ...]. *)
Fixpoint general_context_from (context : string) (all_rcas : list RcaView.t)
  : result string :=
  match all_rcas with
  | [] => Ok context
  | rca :: rest =>
      let! entry := general_entry rca in
      general_context_from (context +:+ entry) rest
  end.

Definition general_context_header : string :=
  "Here is a summary of all the RCA documents in the knowledge base:"
  +:+ PyStr.nl +:+ PyStr.nl.

Definition general_prompt_head : string :=
  "You are a helpful and knowledgeable RCA assistant. Your task is to answer the user's question accurately based ONLY on the context provided below from the knowledge base. If the answer is not contained within the provided context, state that you do not have that specific information. --- KNOWLEDGE BASE CONTEXT --- ".

Definition general_prompt (context query : string) : string :=
  general_prompt_head +:+ PyStr.take (Z.to_nat 25000) context
  +:+ " --- USER'S QUESTION --- " +:+ query +:+ " --- YOUR ANSWER ---".

(** An endpoint's answer: the body, or [HTTPException(500)]. *)
Inductive http (A : Type) : Type :=
  | Http200 (body : A)
  | Http500 (detail : exn).
Arguments Http200 {A} body.
Arguments Http500 {A} detail.

(** What one chat request reads from outside. *)
Module Request.
Record t : Type := mk {
  user_write : ChatWorld.t;
  model : Model.t;
  search : SearchWorld.t;
  read_fault : bool;
  assistant_write : ChatWorld.t
}.
End Request.

(** What a client that reads the stream to its end sees: the fragments,
    and the exception that cut the stream short, if any. *)
Module Streamed.
Record t : Type := mk { fragments : list string; aborted : option exn }.
End Streamed.

Section General.
Context `{PyRuntime}.

(** [generate_general_response(query, stream=False)], with the log of
    its calls to the model; [fault] is the engine fault of the query of
    [get_all_rcas]. *)
Definition generate_general_response (m : Model.t) (fault : bool) (db : Db)
    (query : string) (stream : bool) : result general_response * list event :=
  match get_all_rcas fault db with
  | Raise e => (Raise e, [])
  | Ok [] => (Ok (TextResponse empty_knowledge_base), [])
  | Ok (rca :: rest) =>
      match general_context_from general_context_header (rca :: rest) with
      | Raise e => (Raise e, [])
      | Ok context =>
          let prompt := general_prompt context query in
          (Ok (if stream
               then match Model.generate_stream m prompt with
                    | Ok response => StreamResponse response
                    | Raise e => TextResponse (general_apology m e)
                    end
               else match Model.generate_text m prompt with
                    | Ok text => TextResponse text
                    | Raise e => TextResponse (general_apology m e)
                    end),
           [EvGenerate prompt])
      end
  end.

(** Steps 2 and 3 of [handle_chat_simple]: the intent and the answer of
    the agent it selects, with the matched RCAs of the specialist. *)
Definition route_simple (w : Request.t) (problem_description : string) (db : Db)
  : result (string * option (list Sim.t)) :=
  let intent := get_query_intent (Model.generate_text (Request.model w))
                  problem_description in
  if String.eqb intent technical_problem_solving
  then
    let! similar_rcas := search_similar_problems (Request.search w) db
                           problem_description 5 in
    let! response_text := fst (generate_solution_recommendation
                                 (Model.generate_text (Request.model w))
                                 problem_description similar_rcas) in
    Ok (response_text, Some similar_rcas)
  else
    let! response := fst (generate_general_response (Request.model w)
                            (Request.read_fault w) db problem_description
                            false) in
    match response with
    | TextResponse response_text => Ok (response_text, None)
    | StreamResponse _ => Raise TypeError
    end.

(** [POST /chat-simple]. *)
Definition handle_chat_simple (w : Request.t)
    (session_id problem_description : string) (db : Db)
  : http (string * option (list Sim.t)) * Db :=
  match add_chat_message (Request.user_write w) session_id "user"
          problem_description None db with
  | (Raise e, db1) => (Http500 e, db1)
  | (Ok _, db1) =>
      match route_simple w problem_description db1 with
      | Raise e => (Http500 e, db1)
      | Ok (response_text, similar_rcas) =>
          match add_chat_message (Request.assistant_write w) session_id
                  "assistant" response_text similar_rcas db1 with
          | (Raise e, db2) => (Http500 e, db2)
          | (Ok _, db2) => (Http200 (response_text, similar_rcas), db2)
          end
      end
  end.

Definition stream_apology : string :=
  "Sorry, an error occurred while generating the response.".

(** The [try] of the general branch of [stream_generator], read to its
    end: the fragments yielded and the text accumulated for storage. A
    text instead of a stream is iterated character by character and has
    no [.text]. *)
Definition drain_general (response : general_response) : list string * string :=
  match response with
  | TextResponse EmptyString => ([], EmptyString)
  | TextResponse (String _ _) => ([stream_apology], EmptyString)
  | StreamResponse chunks =>
      match Chunks.failure chunks with
      | None => (Chunks.texts chunks, String.concat "" (Chunks.texts chunks))
      | Some _ =>
          ((Chunks.texts chunks ++ [stream_apology])%list,
           String.concat "" (Chunks.texts chunks))
      end
  end.

(** [stream_generator()] of [POST /chat], read to its end. *)
Definition stream_generator (w : Request.t) (intent : string)
    (session_id problem_description : string) (db : Db) : Streamed.t * Db :=
  if String.eqb intent technical_problem_solving
  then
    match search_similar_problems (Request.search w) db problem_description 5 with
    | Raise e => (Streamed.mk [] (Some e), db)
    | Ok similar_rcas =>
        match fst (generate_solution_recommendation
                     (Model.generate_text (Request.model w))
                     problem_description similar_rcas) with
        | Raise e => (Streamed.mk [] (Some e), db)
        | Ok response_text =>
            match add_chat_message (Request.assistant_write w) session_id
                    "assistant" response_text (Some similar_rcas) db with
            | (Raise e, db') => (Streamed.mk [response_text] (Some e), db')
            | (Ok _, db') => (Streamed.mk [response_text] None, db')
            end
        end
    end
  else
    match fst (generate_general_response (Request.model w)
                 (Request.read_fault w) db problem_description true) with
    | Raise e => (Streamed.mk [] (Some e), db)
    | Ok response_stream =>
        let drained := drain_general response_stream in
        match add_chat_message (Request.assistant_write w) session_id
                "assistant" (snd drained) None db with
        | (Raise e, db') => (Streamed.mk (fst drained) (Some e), db')
        | (Ok _, db') => (Streamed.mk (fst drained) None, db')
        end
    end.

(** [POST /chat], the stream read to its end. *)
Definition handle_chat_stream (w : Request.t)
    (session_id problem_description : string) (db : Db)
  : http Streamed.t * Db :=
  match add_chat_message (Request.user_write w) session_id "user"
          problem_description None db with
  | (Raise e, db1) => (Http500 e, db1)
  | (Ok _, db1) =>
      let intent := get_query_intent (Model.generate_text (Request.model w))
                      problem_description in
      let out := stream_generator w intent session_id problem_description db1 in
      (Http200 (fst out), snd out)
  end.

End General.

(** Keys of the chat tables: session ids are distinct, message ids grow
    along the table and stay within the AUTOINCREMENT counter. *)
Definition chat_keys_ok (db : Db) : Prop :=
  NoDup (map Session.id (chat_sessions db))
  /\ Sorted Z.lt (map Message.id (chat_messages db))
  /\ Forall (fun m => 0 < Message.id m <= chat_messages_seq db) (chat_messages db)
  /\ 0 <= chat_messages_seq db.

(** The title a new session gets. *)
Definition title_or_default (w : ChatWorld.t) (title : option string) : string :=
  match title with
  | Some (String c t) => String c t
  | _ => "Chat Session " +:+ ChatWorld.now_strftime w
  end.

(** A chat world in which the engine fails no statement. *)
Definition calm (w : ChatWorld.t) : Prop := forall k, ChatWorld.fault w k = false.

(** What [get_chat_messages] gives back for a [matched_rcas] argument of
    [add_chat_message]: a non-empty list decoded, otherwise [None]. *)
Definition matched_view (matched_rcas : option (list Sim.t)) : column (list Sim.t) :=
  match matched_rcas with
  | Some (r :: rs) => Loaded (r :: rs)
  | _ => Kept None
  end.

(** One retrieved incident, for the examples. *)
Definition timeout_incident : Sim.t :=
  Sim.mk 1 "db-timeout.md" (Some "billing") ["pool exhausted"]
    ["raise pool size"] ["leak"] (75 # 1).

(** The assistant's answer stored with its matched incident. *)
Definition after_answer : Db :=
  snd (add_chat_message (H := plain_runtime)
         (calm_chat "" "2024-03-05 10:15:05" "2024-03-05T10:15:05.000001")
         "s1" "assistant" "raise the pool size" (Some [timeout_incident])
         after_message).

(** [db] still has everything [db0] had: the chat tables are the same,
    every document of [db0] is there under its filename with the same id
    and creation stamp, and neither the number of documents nor the id
    counter went down. *)
Definition keeps_store (db0 db : Db) : Prop :=
  chat_sessions db = chat_sessions db0
  /\ chat_messages db = chat_messages db0
  /\ chat_messages_seq db = chat_messages_seq db0
  /\ (forall f d, Sqlite.select_document db0 f = Some d ->
        exists d', Sqlite.select_document db f = Some d'
                   /\ Doc.id d' = Doc.id d
                   /\ Doc.created_at d' = Doc.created_at d)
  /\ (length (rca_documents db0) <= length (rca_documents db))%nat
  /\ rca_documents_seq db0 <= rca_documents_seq db.

(** A composite bucket object: it has no MD5 hash. *)
Definition composite_blob : Blob.t := Blob.mk "rca/merged.md" None.

(** A world whose embedding service is down. *)
Definition no_embedding_world (now : timestamp) : DocWorld.t :=
  DocWorld.mk (Ok "raw bytes") (fun b => b)
    (fun _ => Raise ServiceError) (fun _ => Raise ServiceError)
    (fun _ => Ok "{...}")
    (fun _ => Ok (Extracted.mk (Some "payments") ["gateway 502"] ["restart"]
                    ["bad deploy"] ["use canaries"]))
    (fun _ => Raise ServiceError) (Ok tt) now no_fault.

(** A world whose download fails. *)
Definition no_download_world (now : timestamp) : DocWorld.t :=
  DocWorld.mk (Raise ServiceError) (fun b => b)
    (fun _ => Raise ServiceError) (fun _ => Raise ServiceError)
    (fun _ => Ok "{...}")
    (fun _ => Ok (Extracted.mk (Some "payments") ["gateway 502"] ["restart"]
                    ["bad deploy"] ["use canaries"]))
    (fun _ => Ok [1 # 2; 1 # 3]) (Ok tt) now no_fault.

(** The distances the collection reported for the query: the first inner
    list of ['distances']. *)
Definition reported_distances (results : option QueryResult.t) : list Q :=
  match results with
  | Some results =>
      match QueryResult.distances results with
      | Some (first :: _) => first
      | _ => []
      end
  | None => []
  end.

(** The extensions [extract_rca_content_from_bytes] handles. *)
Definition supported_extensions : list string := [".txt"; ".md"; ".docx"; ".pdf"].

(** A world whose model must not be reached: every service raises. *)
Definition silent_world : DocWorld.t :=
  DocWorld.mk (Raise ServiceError) (fun b => b)
    (fun _ => Raise ServiceError) (fun _ => Raise ServiceError)
    (fun _ => Raise ServiceError) (fun _ => Raise ServiceError)
    (fun _ => Raise ServiceError) (Raise ServiceError) "" no_fault.

(** A result of the search is the row of the table with its id, decoded,
    scored from the distance reported at the rank of that id. *)
Definition built_from `{PyRuntime} (db : Db) (matched_ids : list Z)
    (distances : list Q) (s : Sim.t) : Prop :=
  exists row rank distance,
    In row (rca_documents db)
    /\ Doc.id row = Sim.rca_id s
    /\ Sim.filename s = Doc.filename row
    /\ Sim.project_name s = Doc.project_name row
    /\ json_loads (Doc.problems row) = Ok (Sim.problems s)
    /\ json_loads (Doc.solutions row) = Ok (Sim.solutions s)
    /\ json_loads (Doc.root_causes row) = Ok (Sim.root_causes s)
    /\ matched_ids !! rank = Some (Sim.rca_id s)
    /\ distances !! rank = Some distance
    /\ Sim.similarity_score s = similarity_score_of distance.

(** A model whose every call fails. *)
Definition dead_model : Model.t :=
  Model.mk (fun _ => Raise ServiceError) (fun _ => Raise ServiceError)
    (fun _ => "503 unavailable").

(** A store whose one document has no [problems] column value. *)
Definition null_column_db : Db :=
  mkDb [Doc.mk 1 "legacy.md" "rca/legacy.md" None None (Some "s") (Some "c")
          (Some "l") (Some "text") (Some "hash-0")
          "2023-12-01T08:00:00.000000" "2023-12-01T08:00:00.000000"]
    1 [] [] 0.

(** The fixed text around context and question in [general_prompt]. *)
Definition general_prompt_overhead : nat :=
  String.length general_prompt_head
  + String.length " --- USER'S QUESTION --- "
  + String.length " --- YOUR ANSWER ---".

(** The row [add_chat_message] appends to a table whose counter is [seq]. *)
Definition posted (seq : Z) (w : ChatWorld.t) (session_id message_type
    content : string) (rcas_json : option string) : Message.t :=
  Message.mk (seq + 1) session_id message_type content rcas_json
    (ChatWorld.current_timestamp w).

(** The fragments a stream sends before what it accumulates is stored. *)
Definition fragments_of (chunks : Chunks.t) : list string :=
  match Chunks.failure chunks with
  | None => Chunks.texts chunks
  | Some _ => (Chunks.texts chunks ++ [stream_apology])%list
  end.

(** A model that answers every question with the general label and
    streams two fragments before its stream breaks. *)
Definition broken_stream_model : Model.t :=
  Model.mk (fun _ => Ok "general_knowledge_query")
    (fun _ => Ok (Chunks.mk ["There are "; "3 RCAs"] (Some ServiceError)))
    (fun _ => "stream reset").

(** A request whose writes succeed, on the model above. *)
Definition stream_request (m : Model.t) : Request.t :=
  Request.mk (calm_chat "" "2024-03-05 10:15:02" "2024-03-05T10:15:02.000001")
    m ranked_world false
    (calm_chat "" "2024-03-05 10:15:05" "2024-03-05T10:15:05.000001").

(** A model that answers every question with the technical label. *)
Definition technical_model : Model.t :=
  Model.mk (fun _ => Ok "technical_problem_solving")
    (fun _ => Raise ServiceError) (fun _ => "unavailable").

(** A search world whose collection reports nothing. *)
Definition empty_index_world : SearchWorld.t :=
  SearchWorld.mk (fun _ => Ok [1 # 2]) (fun _ _ => Ok None) false.

(** A request on the technical path whose search fails. *)
Definition failing_search_request : Request.t :=
  Request.mk (calm_chat "" "2024-03-05 10:15:02" "2024-03-05T10:15:02.000001")
    technical_model
    (SearchWorld.mk (fun _ => Raise ServiceError) (fun _ _ => Ok None) false)
    false
    (calm_chat "" "2024-03-05 10:15:05" "2024-03-05T10:15:05.000001").

(** A request on the technical path whose index is empty. *)
Definition no_match_request : Request.t :=
  Request.mk (calm_chat "" "2024-03-05 10:15:02" "2024-03-05T10:15:02.000001")
    technical_model empty_index_world false
    (calm_chat "" "2024-03-05 10:15:05" "2024-03-05T10:15:05.000001").

(* ===================================================================== *)
(** ** Facts about the string primitives                                  *)
(* ===================================================================== *)

Lemma append_cons (c : ascii) (s t : string) :
  String c s +:+ t = String c (s +:+ t).
Proof. reflexivity. Qed.

Lemma append_nil (t : string) : "" +:+ t = t.
Proof. reflexivity. Qed.

Lemma starts_with_iff (p s : string) :
  PyStr.starts_with p s = true <-> exists t, s = p +:+ t.
Proof.
  revert s. induction p as [|a p IH]; intros s; simpl.
  - split; [intros _; exists s; reflexivity | reflexivity].
  - destruct s as [|b s].
    + split; [discriminate | intros [t Ht]; discriminate].
    + destruct (Ascii.eqb_spec a b) as [->|Hab].
      * rewrite IH. split; intros [t Ht]; exists t;
          rewrite append_cons in *; congruence.
      * split; [discriminate | intros [t Ht]; rewrite append_cons in Ht; congruence].
Qed.

Lemma contains_iff (needle hay : string) :
  PyStr.contains needle hay = true <->
  exists pre post, hay = pre +:+ needle +:+ post.
Proof.
  induction hay as [|c hay IH].
  - simpl. destruct (PyStr.starts_with needle "") eqn:E.
    + apply starts_with_iff in E as [t Ht].
      split; [intros _; exists "", t; exact Ht | reflexivity].
    + split; [discriminate|].
      intros (pre & post & Hp). destruct pre; rewrite ?append_cons, ?append_nil in Hp.
      * assert (PyStr.starts_with needle "" = true) as E'
          by (apply starts_with_iff; exists post; exact Hp).
        congruence.
      * discriminate.
  - cbn [PyStr.contains].
    destruct (PyStr.starts_with needle (String c hay)) eqn:E.
    + apply starts_with_iff in E as [t Ht].
      split; [intros _; exists "", t; exact Ht | reflexivity].
    + rewrite IH. split.
      * intros (pre & post & ->). exists (String c pre), post. reflexivity.
      * intros (pre & post & Hp). destruct pre as [|c' pre];
          rewrite ?append_cons, ?append_nil in Hp.
        -- assert (PyStr.starts_with needle (String c hay) = true) as E'
             by (apply starts_with_iff; exists post; exact Hp).
           congruence.
        -- injection Hp as _ ->. exists pre, post. reflexivity.
Qed.

(* ===================================================================== *)
(** ** Intent router                                                      *)
(* ===================================================================== *)

Section IntentFacts.
Context `{PyRuntime}.

(** C8. [get_query_intent] answers "technical_problem_solving" exactly
    when the generation call returned a text whose lower-cased, trimmed
    form has that label as a substring; in every other case, and in
    particular when the call raises, it answers
    "general_knowledge_query". *)
Theorem get_query_intent_routes (generate_content : string -> result string)
    (query : string) :
  (get_query_intent generate_content query = technical_problem_solving <->
     exists text pre post,
       generate_content (intent_prompt query) = Ok text /\
       PyStr.strip (PyStr.lower text)
       = pre +:+ "technical_problem_solving" +:+ post)
  /\ (get_query_intent generate_content query <> technical_problem_solving <->
      get_query_intent generate_content query = general_knowledge_query)
  /\ (forall e, get_query_intent (fun _ => Raise e) query
                = general_knowledge_query).
Proof.
  unfold get_query_intent.
  split; [|split; [|reflexivity]].
  - destruct (generate_content (intent_prompt query)) as [text|e].
    + destruct (PyStr.contains technical_problem_solving
                  (PyStr.strip (PyStr.lower text))) eqn:E.
      * split; [intros _|reflexivity].
        apply contains_iff in E as (pre & post & Hp).
        exists text, pre, post. split; [reflexivity | exact Hp].
      * split; [discriminate|].
        intros (text' & pre & post & [= <-] & Hp).
        assert (PyStr.contains technical_problem_solving
                  (PyStr.strip (PyStr.lower text)) = true) as E'
          by (apply contains_iff; exists pre, post; exact Hp).
        congruence.
    + split; [discriminate | intros (? & ? & ? & [=] & _)].
  - destruct (generate_content (intent_prompt query)) as [text|e];
      [destruct (PyStr.contains _ _)|]; split; intros Hx;
      try reflexivity; try discriminate; try (contradiction Hx; reflexivity).
Qed.

End IntentFacts.

(* ===================================================================== *)
(** ** Recommendation generator                                           *)
(* ===================================================================== *)

Section RecommendationFacts.
Context `{PyRuntime}.

(** C9. On an empty list of similar RCAs
    [generate_solution_recommendation] returns the fixed "no similar
      problems" message and calls the model not at all; the model is
    called (once) exactly when the list is not empty. *)
Theorem generate_solution_recommendation_empty
    (generate_content : string -> result string) (current_problem : string) :
  generate_solution_recommendation generate_content current_problem []
  = (Ok "No similar problems were found in the knowledge base. The knowledge base may need to be synced or expanded.", [])
  /\ (forall similar_rcas,
        snd (generate_solution_recommendation generate_content
               current_problem similar_rcas) = []
        <-> similar_rcas = []).
Proof.
  split; [reflexivity|].
  intros [|rca rest]; simpl; split; congruence.
Qed.

End RecommendationFacts.

(* ===================================================================== *)
(** ** The similarity score                                               *)
(* ===================================================================== *)

Section ScoreFacts.
Local Open Scope Q_scope.

Lemma floor_bounds (x : Q) :
inject_Z (Qfloor x) <= x /\ x < inject_Z (Qfloor x) + 1.
Proof.
split; [apply Qfloor_le|].
pose proof (Qlt_floor x) as H. rewrite inject_Z_plus in H. exact H.
Qed.

Lemma round_half_even_near (x : Q) :
(Qfloor x <= round_half_even x <= Qfloor x + 1)%Z.
Proof.
unfold round_half_even.
destruct (x - inject_Z (Qfloor x) ?= 1 # 2); [destruct (Z.even _)| |]; lia.
Qed.

Lemma round_half_even_inject (n : Z) : round_half_even (inject_Z n) = n.
Proof.
unfold round_half_even. rewrite Qfloor_Z.
destruct (Qcompare_spec (inject_Z n - inject_Z n) (1 # 2)) as [Hx|Hx|Hx];
  [exfalso; lra | reflexivity | exfalso; lra].
Qed.

Lemma round_half_even_mono (x y : Q) :
x <= y -> (round_half_even x <= round_half_even y)%Z.
Proof.
intros Hxy.
pose proof (Qfloor_resp_le x y Hxy) as Hf.
destruct (Z.eq_dec (Qfloor x) (Qfloor y)) as [Heq|Hne].
- unfold round_half_even. rewrite <- Heq.
  destruct (Qcompare_spec (x - inject_Z (Qfloor x)) (1 # 2)) as [Hx|Hx|Hx];
    destruct (Qcompare_spec (y - inject_Z (Qfloor x)) (1 # 2)) as [Hy|Hy|Hy];
    try destruct (Z.even (Qfloor x)); try lia; exfalso; lra.
- pose proof (round_half_even_near x). pose proof (round_half_even_near y). lia.
Qed.

Lemma round_half_even_error (x : Q) :
x - (1 # 2) <= inject_Z (round_half_even x) <= x + (1 # 2).
Proof.
destruct (floor_bounds x) as [Hlo Hhi].
unfold round_half_even.
destruct (Qcompare_spec (x - inject_Z (Qfloor x)) (1 # 2)) as [Hx|Hx|Hx];
  try destruct (Z.even (Qfloor x)); rewrite ?inject_Z_plus;
  change (inject_Z 1) with 1; split; lra.
Qed.

Lemma py_max0_spec (x : Q) :
(x <= 0 -> py_max0 x = 0) /\ (0 < x -> py_max0 x = x).
Proof.
unfold py_max0. destruct (Qle_bool x 0) eqn:E.
- apply Qle_bool_iff in E. split; [reflexivity | intros; exfalso; lra].
- split; [|reflexivity]. intros Hle. apply Qle_bool_iff in Hle. congruence.
Qed.

Lemma py_max0_range (x : Q) : 0 <= py_max0 x /\ x <= py_max0 x.
Proof.
destruct (py_max0_spec x) as [H0 H1].
destruct (Qlt_le_dec 0 x) as [Hp|Hn].
- rewrite (H1 Hp). split; lra.
- rewrite (H0 Hn). split; lra.
Qed.

Lemma py_max0_mono (x y : Q) : x <= y -> py_max0 x <= py_max0 y.
Proof.
intros Hxy. destruct (py_max0_spec x) as [Hx0 Hx1].
destruct (Qlt_le_dec 0 x) as [Hp|Hn].
- rewrite (Hx1 Hp). destruct (py_max0_spec y) as [_ Hy1].
  rewrite Hy1; lra.
- rewrite (Hx0 Hn). apply py_max0_range.
Qed.

Lemma round_half_even_comp (x y : Q) :
x == y -> round_half_even x = round_half_even y.
Proof.
intros E. apply Z.le_antisymm; apply round_half_even_mono; lra.
Qed.

(** *** Powers of two *)

Lemma pow2_pos (e : Z) : 0 < PyFloat.pow2 e.
Proof. apply Qpower_0_lt. reflexivity. Qed.

Lemma pow2_plus (a b : Z) :
PyFloat.pow2 (a + b) == PyFloat.pow2 a * PyFloat.pow2 b.
Proof. apply Qpower_plus. discriminate. Qed.

Lemma pow2_le (a b : Z) : (a <= b)%Z -> PyFloat.pow2 a <= PyFloat.pow2 b.
Proof. intros Hab. apply Qpower_le_compat_l; [exact Hab | discriminate]. Qed.

Lemma pow2_lt_inv (a b : Z) : PyFloat.pow2 a < PyFloat.pow2 b -> (a < b)%Z.
Proof. intros Hab. apply (Qpower_lt_compat_l_inv 2); [exact Hab | reflexivity]. Qed.

Lemma pow2_inject (n : Z) : (0 <= n)%Z -> PyFloat.pow2 n == inject_Z (2 ^ n).
Proof. intros Hn. unfold PyFloat.pow2. rewrite (Zpower_Qpower 2 n Hn). reflexivity. Qed.

Lemma pow2_on_grid (e p : Z) :
(p <= e)%Z -> PyFloat.pow2 e == inject_Z (2 ^ (e - p)) * PyFloat.pow2 p.
Proof.
intros Hpe. rewrite <- pow2_inject by lia. rewrite <- pow2_plus.
replace (e - p + p)%Z with e by lia. reflexivity.
Qed.

Lemma log2_bounds (n : Z) :
(0 < n)%Z ->
PyFloat.pow2 (Z.log2 n) <= inject_Z n /\ inject_Z n < PyFloat.pow2 (Z.log2 n + 1).
Proof.
intros Hn. destruct (Z.log2_spec n Hn) as [Hlo Hhi].
pose proof (Z.log2_nonneg n) as H0.
rewrite !pow2_inject by lia. rewrite <- Zle_Qle, <- Zlt_Qlt.
replace (Z.log2 n + 1)%Z with (Z.succ (Z.log2 n)) by lia. split; assumption.
Qed.

(** *** The binary exponent of a positive number *)

Lemma ilog2_spec (q : Q) :
0 < q ->
PyFloat.pow2 (PyFloat.ilog2 q) <= q /\ q < PyFloat.pow2 (PyFloat.ilog2 q + 1).
Proof.
intros Hq. unfold PyFloat.ilog2.
set (a := Z.log2 (Qnum q)). set (b := Z.log2 (Z.pos (Qden q))).
assert (0 < Qnum q)%Z as Hn.
{ unfold Qlt in Hq. simpl in Hq. lia. }
destruct (log2_bounds (Qnum q) Hn) as [Hnlo Hnhi].
destruct (log2_bounds (Z.pos (Qden q)) (Pos2Z.is_pos _)) as [Hdlo Hdhi].
fold a in Hnlo, Hnhi. fold b in Hdlo, Hdhi.
assert (q * inject_Z (Z.pos (Qden q)) == inject_Z (Qnum q)) as Hqd.
{ unfold Qeq, Qmult, inject_Z. simpl. lia. }
pose proof (pow2_pos b) as Hb. pose proof (pow2_pos (a - b - 1)) as Hab1.
assert (PyFloat.pow2 a == PyFloat.pow2 (a - b - 1) * PyFloat.pow2 (b + 1)) as Ea.
{ rewrite <- pow2_plus. replace (a - b - 1 + (b + 1))%Z with a by lia. reflexivity. }
assert (PyFloat.pow2 (a + 1) == PyFloat.pow2 (a - b + 1) * PyFloat.pow2 b) as Ea1.
{ rewrite <- pow2_plus. replace (a - b + 1 + b)%Z with (a + 1)%Z by lia. reflexivity. }
assert (PyFloat.pow2 (a - b - 1) < q) as Hlow.
{ apply Qnot_le_lt. intros Hle.
  assert (q * inject_Z (Z.pos (Qden q))
          < PyFloat.pow2 (a - b - 1) * PyFloat.pow2 (b + 1)) as Hlt.
  { apply Qle_lt_trans with (PyFloat.pow2 (a - b - 1) * inject_Z (Z.pos (Qden q))).
    - apply Qmult_le_compat_r; [exact Hle|]. apply Qle_trans with (PyFloat.pow2 b); lra.
    - apply Qmult_lt_l; assumption. }
  rewrite Hqd, <- Ea in Hlt. lra. }
assert (q < PyFloat.pow2 (a - b + 1)) as Hhigh.
{ apply Qnot_le_lt. intros Hle.
  assert (PyFloat.pow2 (a - b + 1) * PyFloat.pow2 b
          <= q * inject_Z (Z.pos (Qden q))) as Hge.
  { apply Qle_trans with (q * PyFloat.pow2 b).
    - apply Qmult_le_compat_r; [exact Hle | lra].
    - rewrite !(Qmult_comm q). apply Qmult_le_compat_r; lra. }
  rewrite Hqd, <- Ea1 in Hge. lra. }
destruct (Qle_bool (PyFloat.pow2 (a - b)) q) eqn:E.
- apply Qle_bool_iff in E. split; assumption.
- assert (q < PyFloat.pow2 (a - b)) as Hlt.
  { apply Qnot_le_lt. intros Hle. apply Qle_bool_iff in Hle. congruence. }
  replace (a - b - 1 + 1)%Z with (a - b)%Z by lia. split; [lra | exact Hlt].
Qed.

Lemma ilog2_mono (x y : Q) :
0 < x -> x <= y -> (PyFloat.ilog2 x <= PyFloat.ilog2 y)%Z.
Proof.
intros Hx Hxy.
destruct (ilog2_spec x Hx) as [Hxlo _].
destruct (ilog2_spec y) as [_ Hyhi]; [lra|].
assert (PyFloat.pow2 (PyFloat.ilog2 x) < PyFloat.pow2 (PyFloat.ilog2 y + 1)) as Hlt by lra.
apply pow2_lt_inv in Hlt. lia.
Qed.

(** *** Rounding to a grid *)

Lemma round_to_grid_mono (p : Z) (x y : Q) :
x <= y -> PyFloat.round_to_grid p x <= PyFloat.round_to_grid p y.
Proof.
intros Hxy. unfold PyFloat.round_to_grid. pose proof (pow2_pos p) as Hp.
apply Qmult_le_compat_r; [|lra].
rewrite <- Zle_Qle. apply round_half_even_mono.
apply Qmult_le_compat_r; [exact Hxy|].
apply Qlt_le_weak, Qinv_lt_0_compat. exact Hp.
Qed.

Lemma round_to_grid_fix (p k : Z) :
PyFloat.round_to_grid p (inject_Z k * PyFloat.pow2 p) == inject_Z k * PyFloat.pow2 p.
Proof.
unfold PyFloat.round_to_grid. pose proof (pow2_pos p) as Hp.
assert (inject_Z k * PyFloat.pow2 p / PyFloat.pow2 p == inject_Z k) as E.
{ apply Qdiv_mult_l. lra. }
rewrite (round_half_even_comp _ _ E), round_half_even_inject. reflexivity.
Qed.

Lemma round_to_grid_comp (p : Z) (x y : Q) :
x == y -> PyFloat.round_to_grid p x == PyFloat.round_to_grid p y.
Proof.
intros E. apply Qle_antisym; apply round_to_grid_mono; lra.
Qed.

Lemma round_to_grid_pow2 (p e : Z) :
(p <= e)%Z -> PyFloat.round_to_grid p (PyFloat.pow2 e) == PyFloat.pow2 e.
Proof.
intros Hpe. rewrite (round_to_grid_comp p _ _ (pow2_on_grid e p Hpe)).
rewrite round_to_grid_fix. symmetry. apply pow2_on_grid. exact Hpe.
Qed.

(** *** Rounding to the nearest double *)

Lemma nearest_pos_mono (x y : Q) :
0 < x -> x <= y -> PyFloat.nearest_pos x <= PyFloat.nearest_pos y.
Proof.
intros Hx Hxy. unfold PyFloat.nearest_pos, PyFloat.ulp_exponent.
pose proof (ilog2_mono x y Hx Hxy) as He.
destruct (ilog2_spec x Hx) as [_ Hxhi].
destruct (ilog2_spec y) as [Hylo _]; [lra|].
set (ex := PyFloat.ilog2 x) in *. set (ey := PyFloat.ilog2 y) in *.
destruct (Z.eq_dec (Z.max (ex - 52) (-1074)) (Z.max (ey - 52) (-1074))) as [Heq|Hne].
- rewrite Heq. apply round_to_grid_mono. exact Hxy.
- assert (ex + 1 <= ey)%Z as Hstep by lia.
  pose proof (pow2_le (ex + 1) ey Hstep) as Hpow.
  apply Qle_trans with (PyFloat.pow2 ey).
  + rewrite <- (round_to_grid_pow2 (Z.max (ex - 52) (-1074)) ey) by lia.
    apply round_to_grid_mono. lra.
  + rewrite <- (round_to_grid_pow2 (Z.max (ey - 52) (-1074)) ey) at 1 by lia.
    apply round_to_grid_mono. exact Hylo.
Qed.

Lemma nearest_pos_nonneg (x : Q) : 0 <= x -> 0 <= PyFloat.nearest_pos x.
Proof.
intros Hx. unfold PyFloat.nearest_pos.
set (p := PyFloat.ulp_exponent x).
assert (0 == inject_Z 0 * PyFloat.pow2 p) as E0 by (rewrite Qmult_0_l; reflexivity).
apply Qle_trans with (PyFloat.round_to_grid p (inject_Z 0 * PyFloat.pow2 p)).
- rewrite round_to_grid_fix, <- E0. apply Qle_refl.
- apply round_to_grid_mono. rewrite <- E0. exact Hx.
Qed.

Lemma nearest_sign (x : Q) :
(0 <= x -> 0 <= PyFloat.nearest x) /\ (x <= 0 -> PyFloat.nearest x <= 0).
Proof.
unfold PyFloat.nearest.
destruct (Qcompare_spec x 0) as [E|Hlt|Hgt].
- split; intros _; apply Qle_refl.
- split; [intros; exfalso; lra|]. intros _. rewrite Qred_correct.
  pose proof (nearest_pos_nonneg (- x)). lra.
- split; [|intros; exfalso; lra]. intros _. rewrite Qred_correct.
  apply nearest_pos_nonneg. lra.
Qed.

Lemma nearest_mono (x y : Q) : x <= y -> PyFloat.nearest x <= PyFloat.nearest y.
Proof.
intros Hxy.
destruct (Qlt_le_dec 0 x) as [Hx|Hx].
- unfold PyFloat.nearest.
  destruct (Qcompare_spec x 0) as [E|Hlt|Hgt]; [exfalso; lra | exfalso; lra |].
  destruct (Qcompare_spec y 0) as [E|Hlt|Hgt']; [exfalso; lra | exfalso; lra |].
  rewrite !Qred_correct. apply nearest_pos_mono; assumption.
- destruct (Qlt_le_dec y 0) as [Hy|Hy].
  + unfold PyFloat.nearest.
    destruct (Qcompare_spec x 0) as [E|Hlt|Hgt]; [exfalso; lra | | exfalso; lra].
    destruct (Qcompare_spec y 0) as [E|Hlt'|Hgt]; [exfalso; lra | | exfalso; lra].
    rewrite !Qred_correct.
    assert (PyFloat.nearest_pos (- y) <= PyFloat.nearest_pos (- x)) as Hle
      by (apply nearest_pos_mono; lra).
    lra.
  + apply Qle_trans with 0; [apply nearest_sign; exact Hx | apply nearest_sign; exact Hy].
Qed.

Lemma nearest_comp (x y : Q) : x == y -> PyFloat.nearest x == PyFloat.nearest y.
Proof. intros E. apply Qle_antisym; apply nearest_mono; lra. Qed.

Lemma py_round2_mono (x y : Q) : x <= y -> py_round2 x <= py_round2 y.
Proof.
intros Hxy. unfold py_round2. apply nearest_mono.
assert (round_half_even (x * 100) <= round_half_even (y * 100))%Z as Hz
  by (apply round_half_even_mono; lra).
rewrite Zle_Qle in Hz.
apply Qmult_le_compat_r; [exact Hz | discriminate].
Qed.

Lemma score_product_mono (x y : Q) :
x <= y -> PyFloat.mul (py_max0 x) 100 <= PyFloat.mul (py_max0 y) 100.
Proof.
intros Hxy. unfold PyFloat.mul. apply nearest_mono.
pose proof (py_max0_mono x y Hxy). lra.
Qed.

Lemma py_round2_fixed :
py_round2 (PyFloat.nearest 0) == 0 /\ py_round2 (PyFloat.nearest 100) <= 100.
Proof. split; vm_compute; [reflexivity | discriminate]. Qed.

(** C4. For a distance [d >= 0], as the index reports them, the score
  is what the code computes in binary64: the double nearest to the
  two-decimal number [k/100] that is nearest to the product
  [max(0, 1 - d) * 100] as computed. It lies in [0, 100], it does not
  increase when the distance does, and it is exactly 0 from distance 1
  on. *)
Theorem similarity_score_properties (d d' : Q) (Hd : 0 <= d) (Hdd' : d <= d') :
(exists k : Z,
   similarity_score_of d = PyFloat.nearest (inject_Z k / 100)
   /\ PyFloat.mul (py_max0 (PyFloat.sub 1 d)) 100 - (1 # 200) <= inject_Z k / 100
   /\ inject_Z k / 100 <= PyFloat.mul (py_max0 (PyFloat.sub 1 d)) 100 + (1 # 200))
/\ 0 <= similarity_score_of d <= 100
/\ similarity_score_of d' <= similarity_score_of d
/\ (1 <= d -> similarity_score_of d = 0).
Proof.
destruct py_round2_fixed as [Hfix0 Hfix100].
split; [|split; [split|split]].
- eexists. split; [reflexivity|].
  pose proof (round_half_even_error
                (PyFloat.mul (py_max0 (PyFloat.sub 1 d)) 100 * 100)) as [Hlo Hhi].
  set (k := inject_Z (round_half_even _)) in *.
  assert (k / 100 == k * (1 # 100)) as -> by field.
  split; lra.
- unfold similarity_score_of.
  apply Qle_trans with (py_round2 (PyFloat.nearest 0)); [lra|].
  apply py_round2_mono. unfold PyFloat.mul. apply nearest_mono.
  pose proof (py_max0_range (PyFloat.sub 1 d)) as [Hm0 _]. lra.
- unfold similarity_score_of.
  apply Qle_trans with (py_round2 (PyFloat.nearest 100)); [|exact Hfix100].
  apply py_round2_mono. unfold PyFloat.mul. apply nearest_mono.
  assert (py_max0 (PyFloat.sub 1 d) <= py_max0 (PyFloat.nearest 1)) as Hle.
  { apply py_max0_mono. unfold PyFloat.sub. apply nearest_mono. lra. }
  change (py_max0 (PyFloat.nearest 1)) with 1 in Hle. lra.
- unfold similarity_score_of. apply py_round2_mono, score_product_mono.
  unfold PyFloat.sub. apply nearest_mono. lra.
- intros Hd1. unfold similarity_score_of.
  destruct (py_max0_spec (PyFloat.sub 1 d)) as [Hz _].
  rewrite Hz; [reflexivity|].
  unfold PyFloat.sub. apply nearest_sign. lra.
Qed.

(** At distance 1/4 and 3/2: 75 and 0. *)
Lemma similarity_score_properties_witness :
(0 <= 1 # 4) /\ (1 # 4 <= 3 # 2)
/\ similarity_score_of (1 # 4) = 75
/\ 0 <= similarity_score_of (1 # 4) <= 100
/\ similarity_score_of (3 # 2) <= similarity_score_of (1 # 4)
/\ similarity_score_of (3 # 2) = 0.
Proof.
assert (0 <= 1 # 4) as Hd by (vm_compute; discriminate).
assert (1 # 4 <= 3 # 2) as Hle by (vm_compute; discriminate).
destruct (similarity_score_properties (1 # 4) (3 # 2) Hd Hle)
  as (_ & Hrange & Hmono & _).
destruct (similarity_score_properties (3 # 2) (3 # 2)) as (_ & _ & _ & Hzero);
  [vm_compute; discriminate | vm_compute; discriminate |].
split; [exact Hd|]. split; [exact Hle|]. split; [vm_compute; reflexivity|].
split; [exact Hrange|]. split; [exact Hmono|].
apply Hzero. vm_compute; discriminate.
Defined.

(** The score on two doubles where binary64 and exact arithmetic part:
  at the double nearest to 0.12345 the product is a double just above
  87.655 and the score is 87.66, where exact arithmetic gives 87.65; at
  0.95965 the score is 4.04, where exact arithmetic gives 4.03. *)
Lemma similarity_score_binary64 :
similarity_score_of (PyFloat.nearest (12345 # 100000)) = PyFloat.nearest (8766 # 100)
/\ round_half_even
     (py_max0 (1 - PyFloat.nearest (12345 # 100000)) * 100 * 100) = 8765%Z
/\ similarity_score_of (PyFloat.nearest (95965 # 100000)) = PyFloat.nearest (404 # 100)
/\ round_half_even
     (py_max0 (1 - PyFloat.nearest (95965 # 100000)) * 100 * 100) = 403%Z.
Proof. repeat split; vm_compute; reflexivity. Qed.

(** The lower clamp is the only one the code applies: a distance below
  0, which the collection's squared-L2 metric does not report, would
  give a score above 100. *)
Lemma similarity_score_below_zero : similarity_score_of (- (1 # 2)) = 150.
Proof. vm_compute. reflexivity. Qed.

End ScoreFacts.

(* ===================================================================== *)
(** ** Chat sessions and messages: facts                                  *)
(* ===================================================================== *)

Lemma find_map_same_key {A : Type} (p : A -> bool) (g : A -> A) (l : list A) :
  (forall a, p (g a) = p a) ->
  List.find p (map (fun a => if p a then g a else a) l)
  = option_map g (List.find p l).
Proof.
  intros Hg. induction l as [|a l IH]; simpl; [reflexivity|].
  destruct (p a) eqn:Ea.
  - rewrite Hg, Ea. reflexivity.
  - rewrite Ea. exact IH.
Qed.

Lemma find_map_other_key {A : Type} (p q : A -> bool) (g : A -> A) (l : list A) :
  (forall a, q (g a) = q a) ->
  (forall a, p a = true -> q a = true -> False) ->
  List.find q (map (fun a => if p a then g a else a) l) = List.find q l.
Proof.
  intros Hg Hpq. induction l as [|a l IH]; simpl; [reflexivity|].
  destruct (p a) eqn:Ea.
  - rewrite Hg. destruct (q a) eqn:Eq; [destruct (Hpq a Ea Eq)|exact IH].
  - destruct (q a); [reflexivity | exact IH].
Qed.

Lemma existsb_app_true {A : Type} (p : A -> bool) (l l' : list A) :
  existsb p l = true -> existsb p (l ++ l') = true.
Proof. intros E. rewrite existsb_app, E. reflexivity. Qed.

Section ChatFacts.
Context `{PyRuntime}.

(** Outcome of [add_chat_message]: it succeeds exactly when the CHECK
    constraint holds and the engine fails none of the three statements. *)
Lemma add_chat_message_outcome (w : ChatWorld.t)
    (sid message_type content : string) (matched : option (list Sim.t))
    (db : Db) :
  (Sqlite.check_message_type message_type = true
   /\ ChatWorld.fault w 0%nat = false /\ ChatWorld.fault w 1%nat = false
   /\ ChatWorld.fault w 2%nat = false
   /\ add_chat_message w sid message_type content matched db
      = (Ok tt,
         Sqlite.update_session_updated_at (ChatWorld.now_isoformat w) sid
           (mkDb (rca_documents db) (rca_documents_seq db) (chat_sessions db)
              (chat_messages db ++
                 [Message.mk (chat_messages_seq db + 1) sid message_type content
                    (rcas_json_of matched) (ChatWorld.current_timestamp w)])
              (chat_messages_seq db + 1))))
  \/ (~ (Sqlite.check_message_type message_type = true
         /\ ChatWorld.fault w 0%nat = false /\ ChatWorld.fault w 1%nat = false
         /\ ChatWorld.fault w 2%nat = false)
      /\ exists e, add_chat_message w sid message_type content matched db
                   = (Raise e, db)).
Proof.
  unfold add_chat_message, Sqlite.transaction, Sqlite.insert_message,
    Sqlite.faulty, Sqlite.connect.
  destruct (ChatWorld.fault w 0%nat) eqn:F0; simpl;
    [right; split; [intros (_ & [=] & _)|eauto]|].
  destruct (Sqlite.check_message_type message_type) eqn:Ec; simpl;
    [|right; split; [intros ([=] & _)|eauto]].
  destruct (ChatWorld.fault w 1%nat) eqn:F1; simpl;
    [right; split; [intros (_ & _ & [=] & _)|eauto]|].
  destruct (ChatWorld.fault w 2%nat) eqn:F2; simpl;
    [right; split; [intros (_ & _ & _ & [=])|eauto]|].
  left. repeat split.
Qed.


End ChatFacts.



Section OrphanFacts.
Context `{PyRuntime}.

(** [delete_chat_session] never touches [chat_messages]: the connection
    it opens does not enforce the foreign key, so the cascade of the
    schema does not run. *)
Lemma delete_chat_session_keeps_messages (w : ChatWorld.t) (sid : string)
    (db : Db) :
  chat_messages (snd (delete_chat_session w sid db)) = chat_messages db.
Proof.
  unfold delete_chat_session, Sqlite.transaction, Sqlite.faulty.
  destruct (ChatWorld.fault w 0%nat); simpl; [reflexivity|].
  destruct (ChatWorld.fault w 1%nat); reflexivity.
Qed.

(** On a connection that does enforce foreign keys the two statements
    keep every message attached to a session. *)
Lemma enforced_insert_keeps_integrity (now : timestamp)
    (sid message_type content : string) (rcas_json : option string)
    (db db' : Db) :
  no_orphans db ->
  Sqlite.insert_message (Sqlite.mkConn true) now sid message_type content
    rcas_json db = Ok db' ->
  no_orphans db'.
Proof.
  unfold Sqlite.insert_message, no_orphans. simpl.
  destruct (Sqlite.check_message_type message_type); simpl; [|discriminate].
  destruct (Sqlite.has_session db sid) eqn:Es; simpl; [|discriminate].
  intros Hdb [= <-] m. simpl. rewrite in_app_iff. simpl.
  intros [Hm|[<-|[]]]; [exact (Hdb m Hm) | exact Es].
Qed.

Lemma enforced_delete_keeps_integrity (sid : string) (db : Db) :
  no_orphans db -> no_orphans (Sqlite.delete_session (Sqlite.mkConn true) sid db).
Proof.
  unfold no_orphans, Sqlite.delete_session, Sqlite.has_session. simpl.
  intros Hdb m Hm. apply filter_In in Hm as [Hm Hne].
  specialize (Hdb m Hm). apply existsb_exists in Hdb as (s & Hs & Heq).
  apply existsb_exists. exists s. split; [|exact Heq].
  apply filter_In. split; [exact Hs|].
  apply String.eqb_eq in Heq. rewrite Heq. exact Hne.
Qed.

End OrphanFacts.

(** C1, evaluated on the code. After a session is created, a message
    posted to it and the session deleted, all three calls succeeding, the
    session is gone and its message is still in [chat_messages]: a
    reachable state with an orphan. A message posted to an id that was
    never a session is stored as well. *)
Theorem delete_chat_session_leaves_orphan :
  reachable (H := plain_runtime) after_delete
  /\ fst (delete_chat_session
           (calm_chat "" "2024-03-05 10:15:09" "2024-03-05T10:15:09.000001")
           "s1" after_message) = Ok tt
  /\ chat_sessions after_delete = []
  /\ chat_messages after_delete
     = [Message.mk 1 "s1" "user" "checkout returns 500" None
          "2024-03-05 10:15:02"]
  /\ ~ no_orphans after_delete
  /\ reachable (H := plain_runtime) after_stray_message
  /\ ~ no_orphans after_stray_message.
Proof.
  split; [|split; [|split; [|split; [|split; [|split]]]]].
  - unfold after_delete, after_message, after_create.
    apply reach_delete, reach_add, reach_create, reach_init.
  - reflexivity.
  - reflexivity.
  - reflexivity.
  - intros Hno.
    specialize (Hno (Message.mk 1 "s1" "user" "checkout returns 500" None
                       "2024-03-05 10:15:02")).
    vm_compute in Hno. discriminate Hno. left. reflexivity.
  - unfold after_stray_message. apply reach_add, reach_init.
  - intros Hno.
    specialize (Hno (Message.mk 1 "no-such-session" "user" "hello" None
                       "2024-03-05 10:20:00")).
    vm_compute in Hno. discriminate Hno. left. reflexivity.
Qed.

(* ===================================================================== *)
(** ** The document table                                                 *)
(* ===================================================================== *)

Lemma find_snoc_miss {A : Type} (q : A -> bool) (l : list A) (x : A) :
  q x = false -> List.find q (l ++ [x]) = List.find q l.
Proof.
  intros Hx. induction l as [|a l IH]; simpl.
  - rewrite Hx. reflexivity.
  - destruct (q a); [reflexivity | exact IH].
Qed.

Lemma find_existsb {A : Type} (q : A -> bool) (l : list A) (a : A) :
  List.find q l = Some a -> existsb q l = true.
Proof.
  intros Hf. apply find_some in Hf as [Hin Hq].
  apply existsb_exists. exists a. split; assumption.
Qed.

Lemma find_none_existsb {A : Type} (q : A -> bool) (l : list A) :
  List.find q l = None -> existsb q l = false.
Proof.
  intros Hf. destruct (existsb q l) eqn:E; [|reflexivity].
  apply existsb_exists in E as (a & Hin & Hq).
  rewrite (find_none _ _ Hf a Hin) in Hq. discriminate.
Qed.

Section UpsertFacts.
Variables (filename gcs_path : string).
Variables (project_name problems solutions root_causes lessons_learned
             full_content file_hash : option string).
Variables (created_at updated_at : timestamp).

Let upsert : Db -> Db :=
  Sqlite.upsert_document filename gcs_path project_name problems solutions
    root_causes lessons_learned full_content file_hash created_at updated_at.

Let overwrite (d : Doc.t) : Doc.t :=
  Doc.mk (Doc.id d) (Doc.filename d) gcs_path project_name problems solutions
    root_causes lessons_learned full_content file_hash (Doc.created_at d)
    updated_at.

Lemma upsert_conflict (db : Db) :
  Sqlite.has_document db filename = true ->
  upsert db
  = mkDb (map (fun d => if String.eqb (Doc.filename d) filename
                        then overwrite d else d) (rca_documents db))
      (rca_documents_seq db + 1) (chat_sessions db) (chat_messages db)
      (chat_messages_seq db).
Proof.
  intros Hc. unfold upsert, Sqlite.upsert_document. rewrite Hc. reflexivity.
Qed.

Lemma upsert_fresh (db : Db) :
  Sqlite.has_document db filename = false ->
  upsert db
  = mkDb (rca_documents db ++
            [Doc.mk (rca_documents_seq db + 1) filename gcs_path project_name
               problems solutions root_causes lessons_learned full_content
               file_hash created_at updated_at])
      (rca_documents_seq db + 1) (chat_sessions db) (chat_messages db)
      (chat_messages_seq db).
Proof.
  intros Hc. unfold upsert, Sqlite.upsert_document. rewrite Hc. reflexivity.
Qed.

Lemma upsert_filenames_conflict (db : Db) :
  Sqlite.has_document db filename = true ->
  map Doc.filename (rca_documents (upsert db))
  = map Doc.filename (rca_documents db).
Proof.
  intros Hc. rewrite (upsert_conflict db Hc). simpl.
  rewrite map_map. apply map_ext. intros d.
  destruct (String.eqb (Doc.filename d) filename); reflexivity.
Qed.

Lemma upsert_unique (db : Db) :
  unique_filenames db -> unique_filenames (upsert db).
Proof.
  unfold unique_filenames. intros Hu.
  destruct (Sqlite.has_document db filename) eqn:Hc.
  - rewrite (upsert_filenames_conflict db Hc). exact Hu.
  - rewrite (upsert_fresh db Hc). simpl. rewrite map_app. simpl.
    apply NoDup_app. split; [exact Hu|]. split.
    + intros f Hf Hf'. apply list_elem_of_In in Hf'.
      destruct Hf' as [Hf'|[]].
      apply list_elem_of_In, in_map_iff in Hf as (d & Hd & Hin).
      assert (Sqlite.has_document db filename = true) as Hc'.
      { apply existsb_exists. exists d. split; [exact Hin|].
        apply String.eqb_eq. congruence. }
      congruence.
    + apply NoDup_singleton.
Qed.

Lemma upsert_select_same (db : Db) (old : Doc.t) :
  Sqlite.select_document db filename = Some old ->
  Sqlite.select_document (upsert db) filename
  = Some (Doc.mk (Doc.id old) filename gcs_path project_name problems solutions
            root_causes lessons_learned full_content file_hash
            (Doc.created_at old) updated_at).
Proof.
  intros Hold. unfold Sqlite.select_document in *.
  rewrite (upsert_conflict db (find_existsb _ _ _ Hold)). simpl.
  rewrite (find_map_same_key (fun d => String.eqb (Doc.filename d) filename))
    by reflexivity.
  rewrite Hold. simpl. unfold overwrite.
  apply find_some in Hold as [_ Hf]. apply String.eqb_eq in Hf.
  rewrite Hf. reflexivity.
Qed.

Lemma upsert_select_other (db : Db) (other : string) :
  other <> filename ->
  Sqlite.select_document (upsert db) other = Sqlite.select_document db other.
Proof.
  intros Hne. unfold Sqlite.select_document.
  destruct (Sqlite.has_document db filename) eqn:Hc.
  - rewrite (upsert_conflict db Hc). simpl.
    apply (find_map_other_key (fun d => String.eqb (Doc.filename d) filename)
             (fun d => String.eqb (Doc.filename d) other)); [reflexivity|].
    intros d Hd Hd'. apply String.eqb_eq in Hd, Hd'. congruence.
  - rewrite (upsert_fresh db Hc). simpl. apply find_snoc_miss. simpl.
    apply String.eqb_neq. congruence.
Qed.

Lemma upsert_select_fresh (db : Db) :
  Sqlite.select_document db filename = None ->
  Sqlite.select_document (upsert db) filename
  = Some (Doc.mk (rca_documents_seq db + 1) filename gcs_path project_name
            problems solutions root_causes lessons_learned full_content
            file_hash created_at updated_at).
Proof.
  intros Hnone. unfold Sqlite.select_document in *.
  rewrite (upsert_fresh db (find_none_existsb _ _ Hnone)). simpl.
  induction (rca_documents db) as [|d l IH]; simpl in *.
  - rewrite String.eqb_refl. reflexivity.
  - destruct (String.eqb (Doc.filename d) filename); [discriminate|].
    exact (IH Hnone).
Qed.

(** C10. When the filename is already in the table, the upsert that
    sync issues changes no row's [id], [filename] or [created_at]; the
    rows of other filenames are untouched; on the row of the filename
    the nine columns of the [DO UPDATE SET] list take the new values. No
    row is added or removed, and the chat tables stay as they were. (The
    id counter of the table does move: the insert attempt draws an id
    that no row takes.) *)
Theorem upsert_conflict_frame (db : Db)
    (Hconflict : Sqlite.has_document db filename = true) :
  Forall2 (conflict_update filename gcs_path project_name problems solutions
             root_causes lessons_learned full_content file_hash updated_at)
    (rca_documents db) (rca_documents (upsert db))
  /\ rca_documents_seq (upsert db) = rca_documents_seq db + 1
  /\ chat_sessions (upsert db) = chat_sessions db
  /\ chat_messages (upsert db) = chat_messages db
  /\ chat_messages_seq (upsert db) = chat_messages_seq db.
Proof.
  rewrite (upsert_conflict db Hconflict). simpl.
  split; [|repeat split].
  clear Hconflict. induction (rca_documents db) as [|d l IH]; simpl.
  - constructor.
  - constructor; [|exact IH].
    unfold conflict_update.
    destruct (String.eqb_spec (Doc.filename d) filename) as [Heq|Hne]; simpl.
    + split; [|split; [|split; [|split]]]; try reflexivity.
      * intros Hne. contradiction.
      * intros _. repeat split.
    + split; [|split; [|split; [|split]]]; try reflexivity.
      intros Heq. contradiction.
Qed.

End UpsertFacts.

(** C10 on the stored document, re-synced from another path with a new
    hash: the row keeps id 1 and its creation stamp, and the counter of
    the table goes from 1 to 2. *)
Lemma upsert_conflict_frame_witness :
  Sqlite.has_document one_doc_db "db-timeout.md" = true
  /\ rca_documents_seq
       (Sqlite.upsert_document "db-timeout.md" "archive/db-timeout.md"
          (Some "payments") (Some "p") (Some "s") (Some "c") (Some "l")
          (Some "new text") (Some "hash-2")
          "2024-02-01T09:00:00.000000" "2024-02-01T09:00:00.000000" one_doc_db)
     = 2
  /\ exists d',
      rca_documents
        (Sqlite.upsert_document "db-timeout.md" "archive/db-timeout.md"
           (Some "payments") (Some "p") (Some "s") (Some "c") (Some "l")
           (Some "new text") (Some "hash-2")
           "2024-02-01T09:00:00.000000" "2024-02-01T09:00:00.000000" one_doc_db)
      = [d']
      /\ Doc.id d' = 1
      /\ Doc.created_at d' = "2024-01-10T08:00:00.000000"
      /\ Doc.file_hash d' = Some "hash-2"
      /\ Doc.updated_at d' = "2024-02-01T09:00:00.000000".
Proof.
  assert (Sqlite.has_document one_doc_db "db-timeout.md" = true) as Hc
    by reflexivity.
  split; [exact Hc|].
  destruct (upsert_conflict_frame "db-timeout.md" "archive/db-timeout.md"
              (Some "payments") (Some "p") (Some "s") (Some "c") (Some "l")
              (Some "new text") (Some "hash-2")
              "2024-02-01T09:00:00.000000" "2024-02-01T09:00:00.000000"
              one_doc_db Hc) as (Hrows & Hseq & _).
  split; [rewrite Hseq; reflexivity|].
  change (rca_documents one_doc_db) with [stored_doc] in Hrows.
  apply Forall2_cons_inv_l in Hrows as (d' & rest & Hupd & Hrest & Heq).
  apply Forall2_nil_inv_l in Hrest. subst rest.
  exists d'. split; [exact Heq|].
  destruct Hupd as (Hid & _ & Hca & _ & Hset).
  destruct (Hset eq_refl) as (_ & _ & _ & _ & _ & _ & _ & Hhash & Hua).
  repeat split; assumption.
Defined.

(* ===================================================================== *)
(** ** The sync run                                                       *)
(* ===================================================================== *)

Lemma existing_files_miss (l : list Doc.t) (m : gmap string (option string))
    (f : string) :
  ~ In f (map Doc.filename l) ->
  foldl (fun m d => <[Doc.filename d := Doc.file_hash d]> m) m l !! f = m !! f.
Proof.
  revert m. induction l as [|d l IH]; intros m Hf; simpl; [reflexivity|].
  simpl in Hf. rewrite IH by tauto.
  apply lookup_insert_ne. tauto.
Qed.

Lemma existing_files_hit (l : list Doc.t) (m : gmap string (option string))
    (d : Doc.t) :
  NoDup (map Doc.filename l) -> In d l ->
  foldl (fun m d => <[Doc.filename d := Doc.file_hash d]> m) m l
    !! Doc.filename d = Some (Doc.file_hash d).
Proof.
  revert m. induction l as [|x l IH]; intros m Hu Hin; [destruct Hin|].
  simpl in *. apply NoDup_cons in Hu as [Hx Hu].
  destruct Hin as [->|Hin].
  - rewrite existing_files_miss.
    + apply lookup_insert_eq.
    + intros Hd. apply Hx, list_elem_of_In. exact Hd.
  - apply IH; assumption.
Qed.

Lemma existing_files_stored (db : Db) (f : string) (d : Doc.t) :
  unique_filenames db ->
  Sqlite.select_document db f = Some d ->
  Sqlite.select_existing_files db !! f = Some (Doc.file_hash d).
Proof.
  intros Hu Hd. apply find_some in Hd as [Hin Hf].
  apply String.eqb_eq in Hf. subst f.
  apply existing_files_hit; assumption.
Qed.

Ltac run_simpl :=
  cbn [fst snd Run.pending Run.committed Run.collection Run.stats Run.trace
       Run.set_pending Run.commit Run.log Run.logs Run.map_stats
       Run.set_collection].

(** Case analysis along one loop iteration, in program order. *)
Ltac oracle_case :=
  match goal with
  | |- context [match DocWorld.download_as_bytes ?w with _ => _ end] =>
      destruct (DocWorld.download_as_bytes w) eqn:?
  | |- context [extract_rca_content_from_bytes ?w ?c ?f] =>
      destruct (extract_rca_content_from_bytes w c f) as [[?|] ?] eqn:?
  | |- context [if DocWorld.fault ?w ?k then _ else _] =>
      destruct (DocWorld.fault w k) eqn:?
  | |- context [match Sqlite.select_document ?d ?f with _ => _ end] =>
      destruct (Sqlite.select_document d f) eqn:?
  | |- context [match DocWorld.embed_content ?w ?x with _ => _ end] =>
      destruct (DocWorld.embed_content w x) eqn:?
  | |- context [match DocWorld.collection_upsert ?w with _ => _ end] =>
      destruct (DocWorld.collection_upsert w) eqn:?
  | |- context [if bool_decide ?P then _ else _] =>
      destruct (bool_decide P) eqn:?
  end; run_simpl.

Ltac blob_cases :=
  unfold process_blob, mbind, mlift, mmodify, mget, mret, Sqlite.faulty;
  run_simpl; repeat oracle_case.

Lemma add_skipped_zero (r : Run.t) : Run.map_stats (add_skipped 0) r = r.
Proof.
  destruct r as [p c i [a b s e] t]. unfold Run.map_stats, add_skipped. simpl.
  rewrite Z.add_0_r. reflexivity.
Qed.

Lemma add_skipped_add (a b : Z) (r : Run.t) :
  Run.map_stats (add_skipped a) (Run.map_stats (add_skipped b) r)
  = Run.map_stats (add_skipped (b + a)) r.
Proof.
  destruct r as [p c i [x y s e] t]. unfold Run.map_stats, add_skipped. simpl.
  rewrite Z.add_assoc. reflexivity.
Qed.

Lemma incr_skipped_add (r : Run.t) :
  Run.map_stats Stats.incr_skipped r = Run.map_stats (add_skipped 1) r.
Proof. reflexivity. Qed.

Section SyncFacts.
Context `{PyRuntime}.

(** The database an iteration leaves pending is the one it found or the
    result of its one upsert. *)
Lemma process_blob_pending (ef : gmap string (option string)) (blob : Blob.t)
    (w : DocWorld.t) (filename : string) (file_hash : option string)
    (r : Run.t) :
  let r' := snd (process_blob ef blob w filename file_hash r) in
  Run.pending r' = Run.pending r
  \/ exists gp pn pr so rc ll fc fh ca ua,
      Run.pending r'
      = Sqlite.upsert_document filename gp pn pr so rc ll fc fh ca ua
          (Run.pending r).
Proof.
  blob_cases; try (left; reflexivity); right; do 10 eexists; reflexivity.
Qed.

Lemma process_blob_skipped (ef : gmap string (option string)) (blob : Blob.t)
    (w : DocWorld.t) (filename : string) (file_hash : option string)
    (r : Run.t) (n : Z) :
  process_blob ef blob w filename file_hash (Run.map_stats (add_skipped n) r)
  = (fst (process_blob ef blob w filename file_hash r),
     Run.map_stats (add_skipped n)
       (snd (process_blob ef blob w filename file_hash r))).
Proof. blob_cases; reflexivity. Qed.

Lemma sync_blob_unchanged (ef : gmap string (option string)) (r : Run.t)
    (blob : Blob.t) (w : DocWorld.t) :
  unchanged ef blob = true ->
  sync_blob ef r (blob, w) = Run.map_stats Stats.incr_skipped r.
Proof. intros Hu. unfold sync_blob. simpl. rewrite Hu. reflexivity. Qed.

Lemma sync_blob_skipped (ef : gmap string (option string)) (r : Run.t)
    (bw : Blob.t * DocWorld.t) (n : Z) :
  sync_blob ef (Run.map_stats (add_skipped n) r) bw
  = Run.map_stats (add_skipped n) (sync_blob ef r bw).
Proof.
  unfold sync_blob. destruct (unchanged ef (fst bw)).
  - destruct r as [p c i [x y s e] t].
    unfold Run.map_stats, Stats.incr_skipped, add_skipped. simpl.
    rewrite <- !Z.add_assoc, (Z.add_comm n 1). reflexivity.
  - rewrite process_blob_skipped.
    destruct (process_blob ef (fst bw) (snd bw) _ _ r) as [[?|?] r']; simpl;
      [reflexivity|].
    destruct r' as [p c i [x y s k] t]. reflexivity.
Qed.

Lemma foldl_sync_blob_skipped (ef : gmap string (option string))
    (l : list (Blob.t * DocWorld.t)) (r : Run.t) (n : Z) :
  foldl (sync_blob ef) (Run.map_stats (add_skipped n) r) l
  = Run.map_stats (add_skipped n) (foldl (sync_blob ef) r l).
Proof.
  revert r. induction l as [|bw l IH]; intros r; simpl; [reflexivity|].
  rewrite sync_blob_skipped. apply IH.
Qed.

Lemma foldl_sync_blob_filter (ef : gmap string (option string))
    (l : list (Blob.t * DocWorld.t)) (r : Run.t) :
  foldl (sync_blob ef) r l
  = Run.map_stats
      (add_skipped (Z.of_nat (length (List.filter (is_unchanged ef) l))))
      (foldl (sync_blob ef) r
         (List.filter (fun bw => negb (is_unchanged ef bw)) l)).
Proof.
  revert r. induction l as [|[blob w] l IH]; intros r.
  - simpl. symmetry. apply add_skipped_zero.
  - cbn [foldl List.filter].
    change (is_unchanged ef (blob, w)) with (unchanged ef blob).
    destruct (unchanged ef blob) eqn:Hu; cbn [negb length foldl].
    + rewrite (sync_blob_unchanged ef r blob w Hu), incr_skipped_add.
      rewrite foldl_sync_blob_skipped, IH, add_skipped_add.
      rewrite Nat2Z.inj_succ, <- Z.add_1_r. reflexivity.
    + apply IH.
Qed.

(** The loop's test is the comparison with the stored hash. *)
Lemma unchanged_stored (db : Db) (blob : Blob.t) (row : Doc.t) :
  unique_filenames db ->
  Sqlite.select_document db (PyStr.basename (Blob.name blob)) = Some row ->
  unchanged (Sqlite.select_existing_files db) blob
  = bool_decide (Doc.file_hash row = Blob.md5_hash blob).
Proof.
  intros Hu Hrow. unfold unchanged, dict_get.
  rewrite (existing_files_stored db _ row Hu Hrow). reflexivity.
Qed.

(** C3. A blob whose hash equals the hash stored for its filename is
    skipped: its iteration raises [skipped] by one and does nothing else,
    so no download, no extraction, no model call, no embedding call and
    no write happens for it. The whole run is the run over the other
    blobs, with [skipped] raised by the number of unchanged ones. *)
Theorem sync_skips_unchanged (sw : SyncWorld) (db : Db)
    (collection : gmap string Entry.t)
    (Hunique : unique_filenames db) (Hload : load_fault sw = false) :
  let ef := Sqlite.select_existing_files db in
  (forall blob row,
      Sqlite.select_document db (PyStr.basename (Blob.name blob)) = Some row ->
      Doc.file_hash row = Blob.md5_hash blob ->
      unchanged ef blob = true)
  /\ (forall r blob w,
        unchanged ef blob = true ->
        sync_blob ef r (blob, w) = Run.map_stats Stats.incr_skipped r
        /\ Run.trace (sync_blob ef r (blob, w)) = Run.trace r
        /\ Run.pending (sync_blob ef r (blob, w)) = Run.pending r
        /\ Run.committed (sync_blob ef r (blob, w)) = Run.committed r
        /\ Run.collection (sync_blob ef r (blob, w)) = Run.collection r)
  /\ snd (sync_gcs_files sw db collection)
     = Run.map_stats
         (add_skipped
            (Z.of_nat (length (List.filter (is_unchanged ef) (list_blobs sw)))))
         (snd (sync_gcs_files
                 (with_blobs sw
                    (List.filter (fun bw => negb (is_unchanged ef bw))
                       (list_blobs sw)))
                 db collection)).
Proof.
  intros ef. split; [|split].
  - intros blob row Hrow Hhash. subst ef.
    rewrite (unchanged_stored db blob row Hunique Hrow).
    apply bool_decide_eq_true. exact Hhash.
  - intros r blob w Hu. rewrite (sync_blob_unchanged ef r blob w Hu).
    repeat split.
  - unfold sync_gcs_files, with_blobs. simpl. rewrite Hload. simpl.
    fold ef. rewrite (foldl_sync_blob_filter ef (list_blobs sw)).
    destruct (list_blobs_failure sw); reflexivity.
Qed.

End SyncFacts.

(** C3 on a bucket holding the stored document unchanged next to a new
    one: the unchanged blob is skipped, and the run makes one model call
    and one embedding call, both for the new document. *)
Lemma sync_skips_unchanged_witness :
  unique_filenames one_doc_db
  /\ load_fault quiet_bucket = false
  /\ unchanged (Sqlite.select_existing_files one_doc_db) same_blob = true
  /\ fst (sync_gcs_files (H := plain_runtime) quiet_bucket one_doc_db ∅)
     = Ok (Stats.mk 1 0 1 0)
  /\ Run.trace (sync_blob (H := plain_runtime)
                  (Sqlite.select_existing_files one_doc_db)
                  (start one_doc_db ∅)
                  (same_blob, text_world "2024-02-01T09:00:00.000000" no_fault))
     = [].
Proof.
  assert (unique_filenames one_doc_db) as Hu.
  { unfold unique_filenames. simpl. apply NoDup_singleton. }
  assert (load_fault quiet_bucket = false) as Hl by reflexivity.
  destruct (sync_skips_unchanged (H := plain_runtime) quiet_bucket one_doc_db ∅
              Hu Hl) as (Htest & Hstep & _).
  assert (unchanged (Sqlite.select_existing_files one_doc_db) same_blob = true)
    as Hsame by (apply (Htest same_blob stored_doc); reflexivity).
  split; [exact Hu|]. split; [exact Hl|]. split; [exact Hsame|].
  split; [vm_compute; reflexivity|].
  destruct (Hstep (start one_doc_db ∅) same_blob
              (text_world "2024-02-01T09:00:00.000000" no_fault) Hsame)
    as (_ & Htrace & _).
  rewrite Htrace. reflexivity.
Defined.

Section SyncErrorFacts.
Context `{PyRuntime}.

(** Every iteration raises exactly one of the four counters. *)
Lemma sync_blob_counts_one (ef : gmap string (option string)) (r : Run.t)
    (bw : Blob.t * DocWorld.t) :
  counted (Run.stats (sync_blob ef r bw)) = counted (Run.stats r) + 1.
Proof.
  unfold sync_blob. destruct (unchanged ef (fst bw)).
  - destruct r as [p c i [x y s k] t]. unfold counted. simpl. lia.
  - destruct r as [p c i [x y s k] t]. blob_cases; unfold counted; simpl; lia.
Qed.

Lemma foldl_sync_blob_counts (ef : gmap string (option string))
    (l : list (Blob.t * DocWorld.t)) (r : Run.t) :
  counted (Run.stats (foldl (sync_blob ef) r l))
  = counted (Run.stats r) + Z.of_nat (length l).
Proof.
  revert r. induction l as [|bw l IH]; intros r.
  - simpl. lia.
  - cbn [foldl length]. rewrite IH, sync_blob_counts_one. lia.
Qed.

(** An iteration whose download and extraction succeed and whose store
    statement fails ends in the [except] branch. *)
Lemma sync_blob_store_fault (ef : gmap string (option string)) (r : Run.t)
    (blob : Blob.t) (w : DocWorld.t) (content : string) (rca : RcaData.t)
    (evs : list event) :
  unchanged ef blob = false ->
  DocWorld.download_as_bytes w = Ok content ->
  extract_rca_content_from_bytes w content (PyStr.basename (Blob.name blob))
  = (Some rca, evs) ->
  DocWorld.fault w 0%nat = true \/ DocWorld.fault w 1%nat = true
  \/ DocWorld.fault w 2%nat = true ->
  let r' := sync_blob ef r (blob, w) in
  Run.stats r' = Stats.incr_errors (Run.stats r)
  /\ Run.collection r' = Run.collection r
  /\ Run.trace r'
     = (Run.trace r ++ [EvDownload blob]
          ++ [EvExtract (PyStr.basename (Blob.name blob))] ++ evs)%list.
Proof.
  intros Hu Hdl Hex Hfault. unfold sync_blob. cbn [fst snd]. rewrite Hu.
  unfold process_blob, mbind, mlift, mmodify, mget, mret, Sqlite.faulty.
  run_simpl. rewrite Hdl. run_simpl. rewrite Hex. run_simpl.
  destruct (DocWorld.fault w 0%nat) eqn:F0; run_simpl.
  { repeat split. rewrite <- !app_assoc. reflexivity. }
  destruct (DocWorld.fault w 1%nat) eqn:F1; run_simpl.
  { repeat split. rewrite <- !app_assoc. reflexivity. }
  destruct (DocWorld.fault w 2%nat) eqn:F2; run_simpl.
  { repeat split. rewrite <- !app_assoc. reflexivity. }
  destruct Hfault as [?|[?|?]]; discriminate.
Qed.

(** C2, as the code has it. A store error raised while a document is
    persisted is caught by the [except] of its iteration: it is counted
    under [errors], nothing is embedded or indexed for the document, and
    the loop goes on, so that a run whose first query and whose listing
    succeed returns its counters, every listed blob counted once. Only
    the error of the first query, before the loop, reaches the caller. *)
Theorem sync_store_errors_are_counted (sw : SyncWorld) (db : Db)
    (collection : gmap string Entry.t) :
  (load_fault sw = true ->
   sync_gcs_files sw db collection
   = (Raise OperationalError, start db collection))
  /\ (load_fault sw = false -> list_blobs_failure sw = None ->
      exists stats,
        fst (sync_gcs_files sw db collection) = Ok stats
        /\ counted stats = Z.of_nat (length (list_blobs sw)))
  /\ (forall ef r blob w content rca evs,
        unchanged ef blob = false ->
        DocWorld.download_as_bytes w = Ok content ->
        extract_rca_content_from_bytes w content
          (PyStr.basename (Blob.name blob)) = (Some rca, evs) ->
        DocWorld.fault w 0%nat = true \/ DocWorld.fault w 1%nat = true
        \/ DocWorld.fault w 2%nat = true ->
        Run.stats (sync_blob ef r (blob, w)) = Stats.incr_errors (Run.stats r)
        /\ Run.collection (sync_blob ef r (blob, w)) = Run.collection r
        /\ Run.trace (sync_blob ef r (blob, w))
           = (Run.trace r ++ [EvDownload blob]
                ++ [EvExtract (PyStr.basename (Blob.name blob))] ++ evs)%list).
Proof.
  split; [|split].
  - intros Hl. unfold sync_gcs_files. rewrite Hl. reflexivity.
  - intros Hl Hnone. unfold sync_gcs_files. rewrite Hl, Hnone. simpl.
    eexists. split; [reflexivity|].
    rewrite foldl_sync_blob_counts. reflexivity.
  - intros ef r blob w content rca evs Hu Hdl Hex Hfault.
    exact (sync_blob_store_fault ef r blob w content rca evs Hu Hdl Hex Hfault).
Qed.

End SyncErrorFacts.

(** C2 on the bucket whose first upsert the store fails: the run returns,
    with that document under [errors] and the next one processed. *)
Lemma sync_store_errors_are_counted_witness :
  load_fault outage_bucket = false
  /\ list_blobs_failure outage_bucket = None
  /\ exists stats,
      fst (sync_gcs_files (H := plain_runtime) outage_bucket one_doc_db ∅)
      = Ok stats
      /\ counted stats = 2.
Proof.
  destruct (sync_store_errors_are_counted (H := plain_runtime) outage_bucket
              one_doc_db ∅) as (_ & Hreturns & _).
  split; [reflexivity|]. split; [reflexivity|].
  exact (Hreturns eq_refl eq_refl).
Defined.

(** C2 as stated fails: the store raises on the upsert of the first
    document of [outage_bucket], and the run neither raises nor stops;
    it returns with one error counted and the second document
    processed, embedded and indexed. *)
Lemma sync_survives_store_error :
  DocWorld.fault (text_world "2024-02-01T09:00:00.000000" fault_on_upsert)
    0%nat = true
  /\ fst (sync_gcs_files (H := plain_runtime) outage_bucket one_doc_db ∅)
     = Ok (Stats.mk 1 0 0 1)
  /\ ~ (exists e,
          fst (sync_gcs_files (H := plain_runtime) outage_bucket
                 one_doc_db ∅) = Raise e)
  /\ Sqlite.has_document
       (Run.committed
          (snd (sync_gcs_files (H := plain_runtime) outage_bucket
                  one_doc_db ∅))) "cache.md" = true.
Proof.
  split; [reflexivity|]. split; [vm_compute; reflexivity|].
  split; [|vm_compute; reflexivity].
  intros [e He]. vm_compute in He. discriminate He.
Qed.

Section SyncUpdateFacts.
Context `{PyRuntime}.

Lemma sync_blob_pending (ef : gmap string (option string)) (r : Run.t)
    (bw : Blob.t * DocWorld.t) :
  Run.pending (sync_blob ef r bw) = Run.pending r
  \/ exists gp pn pr so rc ll fc fh ca ua,
      Run.pending (sync_blob ef r bw)
      = Sqlite.upsert_document (PyStr.basename (Blob.name (fst bw)))
          gp pn pr so rc ll fc fh ca ua (Run.pending r).
Proof.
  unfold sync_blob. destruct (unchanged ef (fst bw)); [left; reflexivity|].
  pose proof (process_blob_pending ef (fst bw) (snd bw)
                (PyStr.basename (Blob.name (fst bw))) (Blob.md5_hash (fst bw)) r)
    as Hp.
  destruct (process_blob ef (fst bw) (snd bw) _ _ r) as [[?|?] r']; exact Hp.
Qed.

(** Across an iteration every stored row stays, with its [id] and
    [created_at], and filenames stay unique. *)
Lemma sync_blob_keeps_rows (ef : gmap string (option string)) (r : Run.t)
    (bw : Blob.t * DocWorld.t) :
  unique_filenames (Run.pending r) ->
  unique_filenames (Run.pending (sync_blob ef r bw))
  /\ forall f d,
      Sqlite.select_document (Run.pending r) f = Some d ->
      exists d',
        Sqlite.select_document (Run.pending (sync_blob ef r bw)) f = Some d'
        /\ Doc.id d' = Doc.id d /\ Doc.created_at d' = Doc.created_at d.
Proof.
  intros Hu.
  destruct (sync_blob_pending ef r bw)
    as [->|(gp & pn & pr & so & rc & ll & fc & fh & ca & ua & ->)].
  - split; [exact Hu|]. intros f d Hd. exists d. repeat split. exact Hd.
  - split; [apply upsert_unique; exact Hu|].
    intros f d Hd.
    destruct (String.eqb_spec f (PyStr.basename (Blob.name (fst bw))))
      as [->|Hne].
    + eexists. split; [apply upsert_select_same; exact Hd|].
      split; reflexivity.
    + exists d. split; [|split; reflexivity].
      rewrite upsert_select_other by exact Hne. exact Hd.
Qed.

Lemma foldl_sync_blob_keeps_rows (ef : gmap string (option string))
    (l : list (Blob.t * DocWorld.t)) (r : Run.t) :
  unique_filenames (Run.pending r) ->
  unique_filenames (Run.pending (foldl (sync_blob ef) r l))
  /\ forall f d,
      Sqlite.select_document (Run.pending r) f = Some d ->
      exists d',
        Sqlite.select_document (Run.pending (foldl (sync_blob ef) r l)) f
        = Some d'
        /\ Doc.id d' = Doc.id d /\ Doc.created_at d' = Doc.created_at d.
Proof.
  revert r. induction l as [|bw l IH]; intros r Hu.
  - split; [exact Hu|]. intros f d Hd. exists d. repeat split. exact Hd.
  - cbn [foldl].
    destruct (sync_blob_keeps_rows ef r bw Hu) as [Hu1 Hrows1].
    destruct (IH _ Hu1) as [Hu2 Hrows2].
    split; [exact Hu2|]. intros f d Hd.
    destruct (Hrows1 f d Hd) as (d1 & Hd1 & Hid1 & Hca1).
    destruct (Hrows2 f d1 Hd1) as (d2 & Hd2 & Hid2 & Hca2).
    exists d2. split; [exact Hd2|]. split; congruence.
Qed.

Lemma upsert_conflict_length filename gp pn pr so rc ll fc fh ca ua
    (db : Db) (old : Doc.t) :
  Sqlite.select_document db filename = Some old ->
  length (rca_documents
            (Sqlite.upsert_document filename gp pn pr so rc ll fc fh ca ua db))
  = length (rca_documents db).
Proof.
  intros Hold. unfold Sqlite.select_document in Hold.
  rewrite (upsert_conflict _ _ _ _ _ _ _ _ _ _ _ db (find_existsb _ _ _ Hold)).
  simpl. apply length_map.
Qed.

(** C6. A filename stored at the start of the run with another hash than
    the blob's: when its iteration runs to the end (download, extraction,
    the three store statements, embedding and index write all succeed),
    the row of the filename is rewritten in place, under the id and
    creation stamp it had at the start of the run, with the new path,
    extracted fields, content, hash and update stamp; the write is
    committed; the index entry under that id is the new embedding; the
    document counts as [updated]; and the iteration made exactly one
    extraction and one embedding call. *)
Theorem sync_updates_in_place (db : Db) (collection : gmap string Entry.t)
    (pre : list (Blob.t * DocWorld.t)) (blob : Blob.t) (w : DocWorld.t)
    (old : Doc.t) (content : string) (rca : RcaData.t) (evs : list event)
    (embedding : list Q)
    (Hunique : unique_filenames db)
    (Hstored : Sqlite.select_document db (PyStr.basename (Blob.name blob))
               = Some old)
    (Hchanged : Doc.file_hash old <> Blob.md5_hash blob)
    (Hdownload : DocWorld.download_as_bytes w = Ok content)
    (Hextract : extract_rca_content_from_bytes w content
                  (PyStr.basename (Blob.name blob)) = (Some rca, evs))
    (Hstore : forall k, DocWorld.fault w k = false)
    (Hembed : DocWorld.embed_content w
                (embedding_text_of (RcaData.extracted_data rca)) = Ok embedding)
    (Hindex : DocWorld.collection_upsert w = Ok tt) :
  let filename := PyStr.basename (Blob.name blob) in
  let ef := Sqlite.select_existing_files db in
  let r := foldl (sync_blob ef) (start db collection) pre in
  let r' := sync_blob ef r (blob, w) in
  let x := RcaData.extracted_data rca in
  Sqlite.select_document (Run.pending r') filename
  = Some (Doc.mk (Doc.id old) filename (Blob.name blob)
            (Extracted.project_name x)
            (Some (json_dumps (Extracted.problems x)))
            (Some (json_dumps (Extracted.solutions x)))
            (Some (json_dumps (Extracted.root_causes x)))
            (Some (json_dumps (Extracted.lessons_learned x)))
            (Some (RcaData.full_content rca)) (Blob.md5_hash blob)
            (Doc.created_at old) (DocWorld.now_isoformat w))
  /\ Run.committed r' = Run.pending r'
  /\ length (rca_documents (Run.pending r'))
     = length (rca_documents (Run.pending r))
  /\ Run.collection r'
     = <[py_str (Doc.id old) :=
           Entry.mk embedding filename (Extracted.project_name x)]>
         (Run.collection r)
  /\ Run.stats r' = Stats.incr_updated (Run.stats r)
  /\ Run.trace r'
     = (Run.trace r ++ [EvDownload blob; EvExtract filename] ++ evs
          ++ [EvEmbed (embedding_text_of x);
              EvIndexUpsert (py_str (Doc.id old))])%list.
Proof.
  intros filename ef r r' x. subst x.
  assert (unique_filenames (Run.pending (start db collection))) as Hu0
    by exact Hunique.
  destruct (foldl_sync_blob_keeps_rows ef pre (start db collection) Hu0)
    as [_ Hrows].
  destruct (Hrows filename old Hstored) as (cur & Hcur & Hid & Hca).
  fold r in Hcur.
  assert (unchanged ef blob = false) as Hu.
  { subst ef. rewrite (unchanged_stored db blob old Hunique Hstored).
    apply bool_decide_eq_false. exact Hchanged. }
  assert (bool_decide (is_Some (ef !! filename)) = true) as Hin.
  { apply bool_decide_eq_true. subst ef filename.
    rewrite (existing_files_stored db _ old Hunique Hstored). eauto. }
  subst r'. unfold sync_blob. cbn [fst snd]. rewrite Hu.
  unfold process_blob, mbind, mlift, mmodify, mget, mret, Sqlite.faulty.
  run_simpl. rewrite Hdownload. run_simpl.
  fold filename. fold filename in Hextract. rewrite Hextract. run_simpl.
  rewrite !Hstore. run_simpl.
  rewrite (upsert_select_same _ _ _ _ _ _ _ _ _ _ _ (Run.pending r) cur Hcur).
  run_simpl. rewrite Hembed. run_simpl. rewrite Hindex. run_simpl.
  rewrite Hin. run_simpl. cbn [Doc.id].
  rewrite (upsert_select_same _ _ _ _ _ _ _ _ _ _ _ (Run.pending r) cur Hcur).
  rewrite Hid, Hca.
  split; [reflexivity|]. split; [reflexivity|].
  split; [exact (upsert_conflict_length _ _ _ _ _ _ _ _ _ _ _ _ cur Hcur)|].
  split; [reflexivity|]. split; [reflexivity|].
  rewrite <- !app_assoc. reflexivity.
Qed.

End SyncUpdateFacts.

(** C6 on the stored document, found in the bucket under another path
    and with another hash. *)
Lemma sync_updates_in_place_witness :
  unique_filenames one_doc_db
  /\ Sqlite.select_document one_doc_db "db-timeout.md" = Some stored_doc
  /\ Doc.file_hash stored_doc <> Blob.md5_hash changed_blob
  /\ exists r',
      snd (sync_gcs_files (H := plain_runtime) update_bucket one_doc_db ∅) = r'
      /\ Sqlite.select_document (Run.pending r') "db-timeout.md"
         = Some (Doc.mk 1 "db-timeout.md" "archive/db-timeout.md"
                   (Some "payments") (Some "gateway 502") (Some "restart")
                   (Some "bad deploy") (Some "use canaries") (Some "raw bytes")
                   (Some "hash-2") "2024-01-10T08:00:00.000000"
                   "2024-02-01T09:00:00.000000")
      /\ Run.stats r' = Stats.mk 0 1 0 0.
Proof.
  assert (unique_filenames one_doc_db) as Hu.
  { unfold unique_filenames. simpl. apply NoDup_singleton. }
  assert (Doc.file_hash stored_doc <> Blob.md5_hash changed_blob) as Hne
    by discriminate.
  split; [exact Hu|]. split; [reflexivity|]. split; [exact Hne|].
  eexists. split; [reflexivity|].
  destruct (sync_updates_in_place (H := plain_runtime) one_doc_db ∅ []
              changed_blob
              (text_world "2024-02-01T09:00:00.000000" no_fault) stored_doc
              "raw bytes"
              (RcaData.mk "db-timeout.md" "raw bytes"
                 (Extracted.mk (Some "payments") ["gateway 502"] ["restart"]
                    ["bad deploy"] ["use canaries"]))
              [EvGenerate (extraction_prompt "raw bytes")]
              [1 # 2; 1 # 3]
              Hu eq_refl Hne eq_refl eq_refl (fun _ => eq_refl) eq_refl eq_refl)
    as (Hrow & _ & _ & _ & Hstats & _).
  split; [exact Hrow | exact Hstats].
Defined.

(* ===================================================================== *)
(** ** Similarity search: facts                                           *)
(* ===================================================================== *)

Lemma rca_map_of_snoc (rows : list Doc.t) (row : Doc.t) :
  rca_map_of (rows ++ [row]) = <[Doc.id row := row]> (rca_map_of rows).
Proof. unfold rca_map_of. rewrite foldl_app. reflexivity. Qed.

Lemma rca_map_of_some (rows : list Doc.t) (k : Z) (v : Doc.t) :
  rca_map_of rows !! k = Some v -> Doc.id v = k /\ In v rows.
Proof.
  induction rows as [|row rows IH] using rev_ind.
  - unfold rca_map_of. simpl. rewrite lookup_empty. discriminate.
  - rewrite rca_map_of_snoc. rewrite in_app_iff. simpl.
    destruct (Z.eq_dec (Doc.id row) k) as [<-|Hne].
    + rewrite lookup_insert_eq. intros [= <-]. tauto.
    + rewrite lookup_insert_ne by exact Hne. intros Hv.
      destruct (IH Hv). tauto.
Qed.

Lemma rca_map_of_none (rows : list Doc.t) (k : Z) :
  rca_map_of rows !! k = None -> forall v, In v rows -> Doc.id v <> k.
Proof.
  induction rows as [|row rows IH] using rev_ind.
  - intros _ v [].
  - rewrite rca_map_of_snoc.
    destruct (Z.eq_dec (Doc.id row) k) as [<-|Hne].
    + rewrite lookup_insert_eq. discriminate.
    + rewrite lookup_insert_ne by exact Hne. intros Hn v Hv.
      apply in_app_iff in Hv as [Hv|[<-|[]]]; [exact (IH Hn v Hv) | exact Hne].
Qed.

(** The dictionary of fetched rows answers for an id of the ranking
    exactly when the table has a row with that id. *)
Lemma rca_map_stored (db : Db) (matched_ids : list Z) (k : Z) :
  In k matched_ids ->
  match rca_map_of (Sqlite.select_documents_in matched_ids db) !! k with
  | Some v => Doc.id v = k /\ stored_id db k = true
  | None => stored_id db k = false
  end.
Proof.
  intros Hk. unfold Sqlite.select_documents_in, stored_id.
  destruct (rca_map_of _ !! k) as [v|] eqn:E.
  - apply rca_map_of_some in E as [Hid Hin]. split; [exact Hid|].
    apply filter_In in Hin as [Hin _].
    apply existsb_exists. exists v. split; [exact Hin|].
    apply Z.eqb_eq. exact Hid.
  - destruct (existsb _ (rca_documents db)) eqn:Ex; [|reflexivity].
    apply existsb_exists in Ex as (v & Hin & Hid). apply Z.eqb_eq in Hid.
    exfalso. apply (rca_map_of_none _ _ E v); [|exact Hid].
    apply filter_In. split; [exact Hin|].
    apply existsb_exists. exists k. split; [exact Hk|].
    apply Z.eqb_eq. exact Hid.
Qed.

Section SearchFacts.
Context `{PyRuntime}.

(** The joining loop keeps the ids in ranking order and drops exactly
    those without a row. *)
Lemma join_results_order (db : Db) (matched_ids : list Z) (distances : list Q)
    (ids : list Z) (i : nat) (res : list Sim.t) :
  (forall k, In k ids -> In k matched_ids) ->
  join_results (rca_map_of (Sqlite.select_documents_in matched_ids db))
    distances i ids = Ok res ->
  map Sim.rca_id res = List.filter (stored_id db) ids.
Proof.
  revert i res. induction ids as [|k ids IH]; intros i res Hsub.
  - simpl. intros [= <-]. reflexivity.
  - cbn [join_results List.filter].
    pose proof (rca_map_stored db matched_ids k (Hsub k (or_introl eq_refl)))
      as Hk.
    assert (forall k', In k' ids -> In k' matched_ids) as Hsub'
      by (intros k' Hk'; apply Hsub; right; exact Hk').
    destruct (rca_map_of _ !! k) as [rca|].
    + destruct Hk as [Hid ->].
      destruct (distances !! i) as [d|]; [|discriminate]. cbn [rbind].
      destruct (json_loads (Doc.problems rca)); [|discriminate]. cbn [rbind].
      destruct (json_loads (Doc.solutions rca)); [|discriminate]. cbn [rbind].
      destruct (json_loads (Doc.root_causes rca)); [|discriminate]. cbn [rbind].
      destruct (join_results _ distances (S i) ids) as [tail|] eqn:Et;
        [|discriminate].
      cbn [rbind]. intros [= <-]. cbn [map Sim.rca_id].
      rewrite (IH (S i) tail Hsub' Et), Hid. reflexivity.
    + rewrite Hk. apply IH. exact Hsub'.
Qed.

Lemma filter_length_le {A : Type} (p : A -> bool) (l : list A) :
  (length (List.filter p l) <= length l)%nat.
Proof.
  induction l as [|a l IH]; simpl; [lia|]. destruct (p a); simpl; lia.
Qed.

Lemma rmap_list_length {A B : Type} (f : A -> result B) (l : list A)
    (l' : list B) :
  rmap_list f l = Ok l' -> length l' = length l.
Proof.
  revert l'. induction l as [|a l IH]; intros l'; simpl.
  - intros [= <-]. reflexivity.
  - destruct (f a); [|discriminate]. cbn [rbind].
    destruct (rmap_list f l) as [bs|]; [|discriminate]. cbn [rbind].
    intros [= <-]. simpl. rewrite (IH bs eq_refl). reflexivity.
Qed.

(** C5. Once the query is embedded and the collection has answered with
    at most [top_n] ids: if the answer holds no id the search returns the
    empty list; and whenever the search returns, its results are, in the
    order of the reported ranking, the ranked ids that have a row in the
    store, so they are no more than [top_n]. *)
Theorem search_keeps_index_ranking (w : SearchWorld.t) (db : Db)
    (current_problem : string) (top_n : Z) (query_embedding : list Q)
    (results : option QueryResult.t)
    (Hembed : SearchWorld.embed_content w current_problem = Ok query_embedding)
    (Hquery : SearchWorld.collection_query w query_embedding top_n = Ok results)
    (Hindex : Z.of_nat (length (reported_ids results)) <= top_n) :
  (reported_ids results = [] ->
   search_similar_problems w db current_problem top_n = Ok [])
  /\ (forall similar_rcas,
        search_similar_problems w db current_problem top_n = Ok similar_rcas ->
        Z.of_nat (length similar_rcas) <= top_n
        /\ exists matched_ids,
            rmap_list py_int (reported_ids results) = Ok matched_ids
            /\ map Sim.rca_id similar_rcas
               = List.filter (stored_id db) matched_ids).
Proof.
  unfold search_similar_problems. rewrite Hembed. cbn [rbind].
  rewrite Hquery. cbn [rbind].
  destruct results as [[ids distances]|]; cbn [reported_ids QueryResult.ids] in *.
  2:{ split; [reflexivity|]. intros res [= <-]. simpl in *.
      split; [exact Hindex|]. exists []. split; reflexivity. }
  destruct ids as [[|[|id_str id_strs] rest]|].
  - split; [reflexivity|]. intros res [= <-]. simpl in *.
    split; [exact Hindex|]. exists []. split; reflexivity.
  - split; [reflexivity|]. intros res [= <-]. simpl in *.
    split; [exact Hindex|]. exists []. split; reflexivity.
  - split; [discriminate|]. intros res.
    destruct (rmap_list py_int (id_str :: id_strs)) as [matched_ids|] eqn:Eids;
      [|discriminate].
    cbn [rbind].
    destruct distances as [[|ds more]|]; cbn [rbind];
      [discriminate| |discriminate].
    unfold Sqlite.faulty.
    destruct (SearchWorld.fault w); [discriminate|]. cbn [rbind].
    intros Hjoin.
    pose proof (join_results_order db matched_ids ds matched_ids 0 res
                  (fun k Hk => Hk) Hjoin) as Horder.
    split.
    + pose proof (rmap_list_length _ _ _ Eids) as Hlen.
      pose proof (filter_length_le (stored_id db) matched_ids) as Hle.
      rewrite <- Horder, length_map in Hle. lia.
    + exists matched_ids. split; [reflexivity | exact Horder].
  - split; [reflexivity|]. intros res [= <-]. simpl in *.
    split; [exact Hindex|]. exists []. split; reflexivity.
Qed.

End SearchFacts.

(** C5 on a ranking of three ids of which one is stored. *)
Lemma search_keeps_index_ranking_witness :
  Z.of_nat (length (reported_ids
                      (Some (QueryResult.mk (Some [["7"; "1"; "9"]])
                               (Some [[1 # 10; 1 # 4; 3 # 2]]))))) <= 5
  /\ exists similar_rcas,
      search_similar_problems (H := plain_runtime) ranked_world one_doc_db
        "database is timing out" 5 = Ok similar_rcas
      /\ Z.of_nat (length similar_rcas) <= 5
      /\ map Sim.rca_id similar_rcas = [1].
Proof.
  assert (Z.of_nat (length (reported_ids
                      (Some (QueryResult.mk (Some [["7"; "1"; "9"]])
                               (Some [[1 # 10; 1 # 4; 3 # 2]]))))) <= 5)
    as Hindex by (simpl; lia).
  split; [exact Hindex|].
  destruct (search_keeps_index_ranking (H := plain_runtime) ranked_world
              one_doc_db "database is timing out" 5 [1 # 2; 1 # 3]
              (Some (QueryResult.mk (Some [["7"; "1"; "9"]])
                       (Some [[1 # 10; 1 # 4; 3 # 2]])))
              eq_refl eq_refl Hindex) as [_ Hres].
  eexists. split; [vm_compute; reflexivity|].
  match goal with
  | |- context [length ?l] =>
      destruct (Hres l ltac:(vm_compute; reflexivity))
        as (Hlen & ids & Hids & Horder)
  end.
  split; [exact Hlen|]. reflexivity.
Defined.

(* ===================================================================== *)
(** ** ORDER BY                                                           *)
(* ===================================================================== *)

Section OrderBy.
Context {A : Type} (before : A -> A -> bool).
Hypothesis before_total : forall a b, before a b = true \/ before b a = true.

Lemma insert_by_perm (x : A) (l : list A) :
  Permutation (insert_by before x l) (x :: l).
Proof.
  induction l as [|y l IH]; simpl; [reflexivity|].
  destruct (before x y); [reflexivity|].
  rewrite IH. apply perm_swap.
Qed.

Lemma order_by_perm (l : list A) : Permutation (order_by before l) l.
Proof.
  induction l as [|x l IH]; simpl; [reflexivity|].
  unfold order_by in *. simpl. rewrite insert_by_perm. constructor. exact IH.
Qed.

Lemma insert_by_hd (x y : A) (l : list A) :
  before y x = true -> HdRel (fun a b => before a b = true) y l ->
  HdRel (fun a b => before a b = true) y (insert_by before x l).
Proof.
  intros Hyx Hhd. destruct l as [|z l]; simpl.
  - constructor. exact Hyx.
  - destruct (before x z); constructor; [exact Hyx|].
    inversion Hhd; assumption.
Qed.

Lemma insert_by_sorted (x : A) (l : list A) :
  Sorted (fun a b => before a b = true) l ->
  Sorted (fun a b => before a b = true) (insert_by before x l).
Proof.
  induction l as [|y l IH]; intros Hs; simpl.
  - repeat constructor.
  - destruct (before x y) eqn:Hxy.
    + constructor; [exact Hs | constructor; exact Hxy].
    + inversion Hs as [|? ? Hs' Hhd]; subst.
      constructor; [exact (IH Hs')|].
      apply insert_by_hd; [|exact Hhd].
      destruct (before_total x y) as [Hc|Hc]; [congruence | exact Hc].
Qed.

Lemma order_by_sorted (l : list A) :
  Sorted (fun a b => before a b = true) (order_by before l).
Proof.
  induction l as [|x l IH]; unfold order_by in *; simpl.
  - constructor.
  - apply insert_by_sorted. exact IH.
Qed.

End OrderBy.

Lemma order_by_nil_inv {A : Type} (before : A -> A -> bool) (l : list A) :
  order_by before l = [] -> l = [].
Proof.
  intros Hn. pose proof (order_by_perm before l) as Hp. rewrite Hn in Hp.
  apply Permutation_nil. exact Hp.
Qed.

Lemma rmap_list_in {A B : Type} (f : A -> result B) (l : list A) (l' : list B)
    (a : A) :
  rmap_list f l = Ok l' -> In a l -> exists b, f a = Ok b /\ In b l'.
Proof.
  revert l'. induction l as [|x l IH]; intros l' Hl Ha; [destruct Ha|].
  simpl in Hl. destruct (f x) as [b|] eqn:Ex; [|discriminate].
  cbn [rbind] in Hl. destruct (rmap_list f l) as [bs|]; [|discriminate].
  cbn [rbind] in Hl. injection Hl as <-.
  destruct Ha as [->|Ha].
  - exists b. split; [exact Ex | left; reflexivity].
  - destruct (IH bs eq_refl Ha) as (b' & Hb & Hin).
    exists b'. split; [exact Hb | right; exact Hin].
Qed.

Lemma rmap_list_forall2 {A B : Type} (f : A -> result B) (l : list A)
    (l' : list B) :
  rmap_list f l = Ok l' -> Forall2 (fun a b => f a = Ok b) l l'.
Proof.
  revert l'. induction l as [|x l IH]; intros l' Hl; simpl in Hl.
  - injection Hl as <-. constructor.
  - destruct (f x) as [b|] eqn:Ex; [|discriminate].
    cbn [rbind] in Hl. destruct (rmap_list f l) as [bs|]; [|discriminate].
    cbn [rbind] in Hl. injection Hl as <-.
    constructor; [exact Ex | exact (IH bs eq_refl)].
Qed.

(* ===================================================================== *)
(** ** Chat methods: effects and key invariants                           *)
(* ===================================================================== *)

Lemma sorted_snoc (l : list Z) (x : Z) :
  Sorted Z.lt l -> Forall (fun y => y < x) l -> Sorted Z.lt (l ++ [x]).
Proof.
  induction l as [|y l IH]; intros Hs Hf; simpl.
  - repeat constructor.
  - inversion Hs as [|? ? Hs' Hhd]; subst.
    inversion Hf as [|? ? Hy Hf']; subst.
    constructor; [exact (IH Hs' Hf')|].
    destruct l as [|z l]; simpl; constructor; [exact Hy|].
    inversion Hhd; assumption.
Qed.

Lemma map_if_false {A : Type} (p : A -> bool) (g : A -> A) (l : list A) :
  existsb p l = false -> map (fun a => if p a then g a else a) l = l.
Proof.
  induction l as [|a l IH]; simpl; [reflexivity|].
  intros Hn. apply orb_false_iff in Hn as [Ha Hl].
  rewrite Ha, (IH Hl). reflexivity.
Qed.

Lemma filter_if_false {A : Type} (p : A -> bool) (l : list A) :
  existsb p l = false -> List.filter (fun a => negb (p a)) l = l.
Proof.
  induction l as [|a l IH]; simpl; [reflexivity|].
  intros Hn. apply orb_false_iff in Hn as [Ha Hl].
  rewrite Ha. simpl. rewrite (IH Hl). reflexivity.
Qed.

Lemma find_filter_other {A : Type} (p q : A -> bool) (l : list A) :
  (forall a, q a = true -> p a = true) ->
  List.find q (List.filter p l) = List.find q l.
Proof.
  intros Hqp. induction l as [|a l IH]; simpl; [reflexivity|].
  destruct (p a) eqn:Ep; simpl.
  - destruct (q a); [reflexivity | exact IH].
  - destruct (q a) eqn:Eq; [|exact IH].
    rewrite (Hqp a Eq) in Ep. discriminate.
Qed.

Lemma find_snoc_hit {A : Type} (q : A -> bool) (l : list A) (x : A) :
  existsb q l = false -> q x = true -> List.find q (l ++ [x]) = Some x.
Proof.
  induction l as [|a l IH]; simpl; intros Hn Hx.
  - rewrite Hx. reflexivity.
  - apply orb_false_iff in Hn as [Ha Hl]. rewrite Ha. exact (IH Hl Hx).
Qed.

Lemma db_eta (db : Db) :
  mkDb (rca_documents db) (rca_documents_seq db) (chat_sessions db)
    (chat_messages db) (chat_messages_seq db) = db.
Proof. destruct db; reflexivity. Qed.

Section ChatEffects.
Context `{PyRuntime}.

Lemma create_chat_session_outcome (w : ChatWorld.t) (title : option string)
    (db : Db) :
  (ChatWorld.fault w 0%nat = false /\ ChatWorld.fault w 1%nat = false
   /\ Sqlite.has_session db (ChatWorld.uuid4 w) = false
   /\ create_chat_session w title db
      = (Ok (ChatWorld.uuid4 w),
         mkDb (rca_documents db) (rca_documents_seq db)
           (chat_sessions db ++
              [Session.mk (ChatWorld.uuid4 w) (title_or_default w title)
                 (ChatWorld.current_timestamp w) (ChatWorld.current_timestamp w)])
           (chat_messages db) (chat_messages_seq db)))
  \/ (~ (ChatWorld.fault w 0%nat = false /\ ChatWorld.fault w 1%nat = false
         /\ Sqlite.has_session db (ChatWorld.uuid4 w) = false)
      /\ exists e, create_chat_session w title db = (Raise e, db)).
Proof.
  unfold create_chat_session, Sqlite.transaction, Sqlite.insert_session,
    Sqlite.faulty, title_or_default.
  destruct (ChatWorld.fault w 0%nat) eqn:F0; simpl;
    [right; split; [intros ([=] & _)|eauto]|].
  destruct (Sqlite.has_session db (ChatWorld.uuid4 w)) eqn:Hs; simpl;
    [right; split; [intros (_ & _ & [=])|eauto]|].
  destruct (ChatWorld.fault w 1%nat) eqn:F1; simpl;
    [right; split; [intros (_ & [=] & _)|eauto]|].
  left. repeat split.
Qed.

Lemma update_session_title_outcome (w : ChatWorld.t) (sid new_title : string)
    (db : Db) :
  (ChatWorld.fault w 0%nat = false /\ ChatWorld.fault w 1%nat = false
   /\ update_session_title w sid new_title db
      = (Ok tt, Sqlite.update_session_title new_title
                  (ChatWorld.now_isoformat w) sid db))
  \/ (~ (ChatWorld.fault w 0%nat = false /\ ChatWorld.fault w 1%nat = false)
      /\ exists e, update_session_title w sid new_title db = (Raise e, db)).
Proof.
  unfold update_session_title, Sqlite.transaction, Sqlite.faulty.
  destruct (ChatWorld.fault w 0%nat) eqn:F0; simpl;
    [right; split; [intros ([=] & _)|eauto]|].
  destruct (ChatWorld.fault w 1%nat) eqn:F1; simpl;
    [right; split; [intros (_ & [=])|eauto]|].
  left. repeat split.
Qed.

Lemma delete_chat_session_outcome (w : ChatWorld.t) (sid : string) (db : Db) :
  (ChatWorld.fault w 0%nat = false /\ ChatWorld.fault w 1%nat = false
   /\ delete_chat_session w sid db
      = (Ok tt, Sqlite.delete_session Sqlite.connect sid db))
  \/ (~ (ChatWorld.fault w 0%nat = false /\ ChatWorld.fault w 1%nat = false)
      /\ exists e, delete_chat_session w sid db = (Raise e, db)).
Proof.
  unfold delete_chat_session, Sqlite.transaction, Sqlite.faulty.
  destruct (ChatWorld.fault w 0%nat) eqn:F0; simpl;
    [right; split; [intros ([=] & _)|eauto]|].
  destruct (ChatWorld.fault w 1%nat) eqn:F1; simpl;
    [right; split; [intros (_ & [=])|eauto]|].
  left. repeat split.
Qed.

Lemma session_ids_update (f : Session.t -> Session.t) (sid : string)
    (l : list Session.t) :
  (forall s, Session.id (f s) = Session.id s) ->
  map Session.id
    (map (fun s => if String.eqb (Session.id s) sid then f s else s) l)
  = map Session.id l.
Proof.
  intros Hf. rewrite map_map. apply map_ext. intros s.
  destruct (String.eqb (Session.id s) sid); [apply Hf | reflexivity].
Qed.

Lemma nodup_map_filter {A B : Type} (f : A -> B) (p : A -> bool) (l : list A) :
  NoDup (map f l) -> NoDup (map f (List.filter p l)).
Proof.
  induction l as [|a l IH]; simpl; intros Hn; [constructor|].
  apply NoDup_cons in Hn as [Ha Hn].
  destruct (p a); simpl; [|exact (IH Hn)].
  apply NoDup_cons. split; [|exact (IH Hn)].
  intros Hin. apply Ha. apply list_elem_of_In in Hin. apply list_elem_of_In.
  apply in_map_iff in Hin as (x & Hx & Hxin).
  apply in_map_iff. exists x. split; [exact Hx|].
  apply filter_In in Hxin as [Hxin _]. exact Hxin.
Qed.

(** X1. In every state the chat methods reach from an empty database,
    session ids are pairwise distinct, message ids increase strictly
    along the table (so are distinct) and are positive and at most the
    AUTOINCREMENT counter. *)
Theorem reachable_chat_keys (db : Db) (Hreach : reachable db) : chat_keys_ok db.
Proof.
  induction Hreach as [|w title db Hr IH|w sid new_title db Hr IH
                       |w sid mt content matched db Hr IH|w sid db Hr IH].
  - repeat split; simpl; try constructor. lia.
  - destruct (create_chat_session_outcome w title db)
      as [(_ & _ & Hfresh & ->)|(_ & e & ->)]; [|exact IH].
    destruct IH as (Hs & Hm & Hb & Hq). simpl.
    repeat split; simpl; try assumption.
    rewrite map_app. simpl. apply NoDup_app. split; [exact Hs|].
    split; [|apply NoDup_singleton].
    intros x Hx Hx'. apply list_elem_of_In in Hx'. destruct Hx' as [<-|[]].
    apply list_elem_of_In, in_map_iff in Hx as (s & Hsid & Hin).
    assert (Sqlite.has_session db (ChatWorld.uuid4 w) = true) as Hhas.
    { apply existsb_exists. exists s. split; [exact Hin|].
      apply String.eqb_eq. exact Hsid. }
    congruence.
  - destruct (update_session_title_outcome w sid new_title db)
      as [(_ & _ & ->)|(_ & e & ->)]; [|exact IH].
    destruct IH as (Hs & Hm & Hb & Hq). repeat split; simpl; try assumption.
    rewrite session_ids_update by reflexivity. exact Hs.
  - destruct (add_chat_message_outcome w sid mt content matched db)
      as [(_ & _ & _ & _ & ->)|(_ & e & ->)]; [|exact IH].
    destruct IH as (Hs & Hm & Hb & Hq).
    split; [|split; [|split]]; simpl.
    + rewrite session_ids_update by reflexivity. exact Hs.
    + rewrite map_app. simpl. apply sorted_snoc; [exact Hm|].
      apply List.Forall_forall. intros y Hy.
      apply in_map_iff in Hy as (m & <- & Hin).
      rewrite List.Forall_forall in Hb. specialize (Hb m Hin). lia.
    + apply Forall_app. split.
      * eapply Forall_impl; [exact Hb|]. simpl. intros m Hm'. lia.
      * constructor; [|constructor]. simpl. lia.
    + lia.
  - destruct (delete_chat_session_outcome w sid db)
      as [(_ & _ & ->)|(_ & e & ->)]; [|exact IH].
    destruct IH as (Hs & Hm & Hb & Hq). repeat split; simpl; try assumption.
    apply nodup_map_filter. exact Hs.
Qed.

End ChatEffects.

Section ChatMethodFacts.
Context `{PyRuntime}.

(** X2. [create_chat_session] with the engine failing nothing: if the
    generated id is new, the call returns it and the session can be found
    under it, with the given title, or the default title built from the
    clock when the title is absent or empty, and with equal creation
    and update stamps; every other session and all messages are as
    before. If the id is already a session the call raises
    [IntegrityError] and changes nothing. *)
Theorem create_chat_session_effect (w : ChatWorld.t) (title : option string)
    (db : Db) (Hcalm : calm w) :
  (Sqlite.has_session db (ChatWorld.uuid4 w) = true ->
   create_chat_session w title db = (Raise IntegrityError, db))
  /\ (Sqlite.has_session db (ChatWorld.uuid4 w) = false ->
      fst (create_chat_session w title db) = Ok (ChatWorld.uuid4 w)
      /\ find_session (snd (create_chat_session w title db)) (ChatWorld.uuid4 w)
         = Some (Session.mk (ChatWorld.uuid4 w) (title_or_default w title)
                   (ChatWorld.current_timestamp w) (ChatWorld.current_timestamp w))
      /\ (forall sid, sid <> ChatWorld.uuid4 w ->
            find_session (snd (create_chat_session w title db)) sid
            = find_session db sid)
      /\ chat_messages (snd (create_chat_session w title db)) = chat_messages db)
  /\ create_chat_session w (Some "") db = create_chat_session w None db.
Proof.
  split; [|split; [|reflexivity]].
  - intros Hdup. unfold create_chat_session, Sqlite.transaction,
      Sqlite.insert_session, Sqlite.faulty.
    rewrite (Hcalm 0%nat), Hdup. reflexivity.
  - intros Hfresh.
    destruct (create_chat_session_outcome w title db)
      as [(_ & _ & _ & ->)|(Hbad & _)];
      [|exfalso; apply Hbad; repeat split; [apply Hcalm..|exact Hfresh]].
    simpl. split; [reflexivity|]. unfold find_session. simpl.
    split; [|split; [|reflexivity]].
    + apply find_snoc_hit; [exact Hfresh|]. simpl. apply String.eqb_refl.
    + intros sid Hne. apply find_snoc_miss. simpl.
      apply String.eqb_neq. congruence.
Qed.

(** X3. [update_session_title] with the engine failing nothing always
    succeeds. For an id that is no session it changes nothing at all;
    for a session it sets the title and the update stamp and keeps the
    id and the creation stamp. Other sessions and all messages are
    untouched. *)
Theorem update_session_title_effect (w : ChatWorld.t) (sid new_title : string)
    (db : Db) (Hcalm : calm w) :
  fst (update_session_title w sid new_title db) = Ok tt
  /\ (Sqlite.has_session db sid = false ->
      snd (update_session_title w sid new_title db) = db)
  /\ (forall s, find_session db sid = Some s ->
        find_session (snd (update_session_title w sid new_title db)) sid
        = Some (Session.mk (Session.id s) new_title (Session.created_at s)
                  (ChatWorld.now_isoformat w)))
  /\ (forall other, other <> sid ->
        find_session (snd (update_session_title w sid new_title db)) other
        = find_session db other)
  /\ chat_messages (snd (update_session_title w sid new_title db))
     = chat_messages db.
Proof.
  destruct (update_session_title_outcome w sid new_title db)
    as [(_ & _ & ->)|(Hbad & _)];
    [|exfalso; apply Hbad; split; apply Hcalm].
  simpl. split; [reflexivity|]. split; [|split; [|split; [|reflexivity]]].
  - intros Hno. unfold Sqlite.update_session_title, Sqlite.has_session in *.
    rewrite (map_if_false (fun s => String.eqb (Session.id s) sid)) by exact Hno.
    apply db_eta.
  - intros s Hs. unfold find_session, Sqlite.update_session_title in *. simpl.
    rewrite (find_map_same_key (fun s => String.eqb (Session.id s) sid))
      by reflexivity.
    rewrite Hs. reflexivity.
  - intros other Hne. unfold find_session, Sqlite.update_session_title. simpl.
    apply (find_map_other_key (fun s => String.eqb (Session.id s) sid)
             (fun s => String.eqb (Session.id s) other)); [reflexivity|].
    intros a Ha Ha'. apply String.eqb_eq in Ha, Ha'. congruence.
Qed.

(** X4. [delete_chat_session] with the engine failing nothing always
    succeeds; afterwards no session has the id, every other session is
    as before, and deleting an id that is no session changes nothing. *)
Theorem delete_chat_session_effect (w : ChatWorld.t) (sid : string) (db : Db)
    (Hcalm : calm w) :
  fst (delete_chat_session w sid db) = Ok tt
  /\ Sqlite.has_session (snd (delete_chat_session w sid db)) sid = false
  /\ (forall other, other <> sid ->
        find_session (snd (delete_chat_session w sid db)) other
        = find_session db other)
  /\ (Sqlite.has_session db sid = false ->
      snd (delete_chat_session w sid db) = db).
Proof.
  destruct (delete_chat_session_outcome w sid db)
    as [(_ & _ & ->)|(Hbad & _)];
    [|exfalso; apply Hbad; split; apply Hcalm].
  simpl. split; [reflexivity|]. split; [|split].
  - unfold Sqlite.has_session, Sqlite.delete_session. simpl.
    induction (chat_sessions db) as [|s l IH]; simpl; [reflexivity|].
    destruct (String.eqb (Session.id s) sid) eqn:E; simpl; [exact IH|].
    rewrite E, IH. reflexivity.
  - intros other Hne. unfold find_session, Sqlite.delete_session. simpl.
    apply find_filter_other. intros a Ha.
    apply String.eqb_eq in Ha. apply negb_true_iff, String.eqb_neq. congruence.
  - intros Hno. unfold Sqlite.delete_session, Sqlite.has_session in *. simpl.
    rewrite (filter_if_false (fun s => String.eqb (Session.id s) sid))
      by exact Hno.
    apply db_eta.
Qed.

(** X5. [get_chat_sessions], when its query succeeds, returns every
    session exactly once, most recently updated first. *)
Theorem get_chat_sessions_sorted (db : Db) :
  exists l,
    get_chat_sessions false db = Ok l
    /\ Permutation l (chat_sessions db)
    /\ Sorted (fun a b => String.leb (Session.updated_at b) (Session.updated_at a)
                          = true) l.
Proof.
  eexists. split; [reflexivity|]. split.
  - apply order_by_perm.
  - apply (order_by_sorted session_newer).
    intros a b. unfold session_newer. apply String.leb_total.
Qed.

End ChatMethodFacts.

(** X2 on the fresh database, the title absent. *)
Lemma create_chat_session_effect_witness :
  calm (calm_chat "s1" "2024-03-05 10:15:00" "2024-03-05T10:15:00.000001")
  /\ find_session after_create "s1"
     = Some (Session.mk "s1" "Chat Session 2024-03-05 10:15"
               "2024-03-05 10:15:00" "2024-03-05 10:15:00").
Proof.
  assert (calm (calm_chat "s1" "2024-03-05 10:15:00" "2024-03-05T10:15:00.000001"))
    as Hcalm by (intros k; reflexivity).
  split; [exact Hcalm|].
  destruct (create_chat_session_effect
              (calm_chat "s1" "2024-03-05 10:15:00" "2024-03-05T10:15:00.000001")
              None empty_db Hcalm) as (_ & Hnew & _).
  destruct (Hnew eq_refl) as (_ & Hfind & _). exact Hfind.
Defined.

(** X3 on a session that exists and on one that does not. *)
Lemma update_session_title_effect_witness :
  calm (calm_chat "" "2024-03-05 11:00:00" "2024-03-05T11:00:00.000001")
  /\ snd (update_session_title
            (calm_chat "" "2024-03-05 11:00:00" "2024-03-05T11:00:00.000001")
            "ghost" "renamed" after_create) = after_create
  /\ find_session
       (snd (update_session_title
               (calm_chat "" "2024-03-05 11:00:00" "2024-03-05T11:00:00.000001")
               "s1" "renamed" after_create)) "s1"
     = Some (Session.mk "s1" "renamed" "2024-03-05 10:15:00"
               "2024-03-05T11:00:00.000001").
Proof.
  assert (calm (calm_chat "" "2024-03-05 11:00:00" "2024-03-05T11:00:00.000001"))
    as Hcalm by (intros k; reflexivity).
  split; [exact Hcalm|]. split.
  - destruct (update_session_title_effect
                (calm_chat "" "2024-03-05 11:00:00" "2024-03-05T11:00:00.000001")
                "ghost" "renamed" after_create Hcalm) as (_ & Hnone & _).
    apply Hnone. reflexivity.
  - destruct (update_session_title_effect
                (calm_chat "" "2024-03-05 11:00:00" "2024-03-05T11:00:00.000001")
                "s1" "renamed" after_create Hcalm) as (_ & _ & Hsome & _).
    exact (Hsome (Session.mk "s1" "Chat Session 2024-03-05 10:15"
                    "2024-03-05 10:15:00" "2024-03-05 10:15:00") eq_refl).
Defined.

(** X4 on the session of [after_message]. *)
Lemma delete_chat_session_effect_witness :
  calm (calm_chat "" "2024-03-05 10:15:09" "2024-03-05T10:15:09.000001")
  /\ Sqlite.has_session after_delete "s1" = false.
Proof.
  assert (calm (calm_chat "" "2024-03-05 10:15:09" "2024-03-05T10:15:09.000001"))
    as Hcalm by (intros k; reflexivity).
  split; [exact Hcalm|].
  destruct (delete_chat_session_effect
              (calm_chat "" "2024-03-05 10:15:09" "2024-03-05T10:15:09.000001")
              "s1" after_message Hcalm) as (_ & Hgone & _).
  exact Hgone.
Defined.

(** X1 on the state reached by a create and a post. *)
Lemma reachable_chat_keys_witness :
  reachable (H := plain_runtime) after_message /\ chat_keys_ok after_message.
Proof.
  assert (reachable (H := plain_runtime) after_message) as Hr.
  { unfold after_message, after_create. apply reach_add, reach_create, reach_init. }
  split; [exact Hr | exact (reachable_chat_keys after_message Hr)].
Defined.

Lemma sorted_map {A B : Type} (R : B -> B -> Prop) (f : A -> B) (l : list A) :
  Sorted (fun a b => R (f a) (f b)) l <-> Sorted R (map f l).
Proof.
  induction l as [|a l IH]; simpl.
  - split; constructor.
  - split; intros Hs; inversion Hs as [|? ? Hs' Hhd]; subst;
      (constructor; [apply IH; exact Hs'|]);
      destruct l; simpl in *; constructor; inversion Hhd; assumption.
Qed.

Section ChatReadFacts.
Context `{PyRuntime}.
Variable json_loads_rcas : option string -> result (list Sim.t).

Let view (row : Message.t) : result MessageView.t :=
  let! matched := load_if_truthy json_loads_rcas (Message.matched_rcas row) in
  Ok (MessageView.mk (Message.id row) (Message.session_id row)
        (Message.message_type row) (Message.content row) matched
        (Message.timestamp_ row)).

Lemma view_fields (row : Message.t) (v : MessageView.t) :
  view row = Ok v ->
  MessageView.id v = Message.id row
  /\ MessageView.session_id v = Message.session_id row
  /\ MessageView.message_type v = Message.message_type row
  /\ MessageView.content v = Message.content row
  /\ MessageView.timestamp_ v = Message.timestamp_ row.
Proof.
  unfold view.
  destruct (load_if_truthy json_loads_rcas (Message.matched_rcas row));
    [|discriminate].
  cbn [rbind]. intros [= <-]. repeat split.
Qed.

Lemma views_fields (rows : list Message.t) (l : list MessageView.t) :
  rmap_list view rows = Ok l ->
  map MessageView.id l = map Message.id rows
  /\ map MessageView.session_id l = map Message.session_id rows
  /\ map MessageView.timestamp_ l = map Message.timestamp_ rows.
Proof.
  intros Hl. apply rmap_list_forall2 in Hl.
  induction Hl as [|row v rows l Hv _ IH]; [repeat split|].
  destruct (view_fields row v Hv) as (Hid & Hsid & _ & _ & Hts).
  destruct IH as (IH1 & IH2 & IH3). simpl.
  rewrite Hid, Hsid, Hts, IH1, IH2, IH3. repeat split.
Qed.

(** X6. [get_chat_messages], when its query succeeds: for an id under
    which no message is stored (an unknown session, or one without
    messages) the answer is the empty list, not an error; and whenever
    it returns, the answer holds exactly the messages of that session,
    each once, oldest first. *)
Theorem get_chat_messages_of_session (sid : string) (db : Db) :
  ((forall m, In m (chat_messages db) -> Message.session_id m <> sid) ->
   get_chat_messages json_loads_rcas false sid db = Ok [])
  /\ (forall l,
        get_chat_messages json_loads_rcas false sid db = Ok l ->
        Forall (fun v => MessageView.session_id v = sid) l
        /\ Sorted (fun a b => String.leb (MessageView.timestamp_ a)
                                (MessageView.timestamp_ b) = true) l
        /\ Permutation (map MessageView.id l)
             (map Message.id
                (List.filter (fun m => String.eqb (Message.session_id m) sid)
                   (chat_messages db)))).
Proof.
  unfold get_chat_messages. cbn [Sqlite.faulty rbind]. fold view. split.
  - intros Hnone. unfold select_messages.
    assert (List.filter (fun m => String.eqb (Message.session_id m) sid)
              (chat_messages db) = []) as ->; [|reflexivity].
    induction (chat_messages db) as [|m ms IH]; simpl; [reflexivity|].
    destruct (String.eqb_spec (Message.session_id m) sid) as [Heq|_].
    + destruct (Hnone m (or_introl eq_refl) Heq).
    + apply IH. intros m' Hm'. apply Hnone. right. exact Hm'.
  - intros l Hl. destruct (views_fields _ _ Hl) as (Hids & Hsids & Hts).
    split; [|split].
    + apply List.Forall_forall. intros v Hv.
      assert (In (MessageView.session_id v) (map MessageView.session_id l))
        as Hin by (apply in_map; exact Hv).
      rewrite Hsids in Hin. apply in_map_iff in Hin as (m & Hm & Hmin).
      unfold select_messages in Hmin.
      apply (Permutation_in _ (order_by_perm message_older _)) in Hmin.
      apply filter_In in Hmin as [_ Heq]. apply String.eqb_eq in Heq.
      congruence.
    + apply (proj2 (sorted_map (fun a b => String.leb a b = true)
                      MessageView.timestamp_ l)).
      refine (eq_ind_r (Sorted (fun a b => String.leb a b = true)) _ Hts).
      apply (proj1 (sorted_map (fun a b => String.leb a b = true)
                      Message.timestamp_ _)).
      apply (order_by_sorted message_older).
      intros a b. unfold message_older. apply String.leb_total.
    + rewrite Hids. apply Permutation_map. unfold select_messages.
      apply order_by_perm.
Qed.

(** X7. What [add_chat_message] stores, [get_chat_messages] gives back:
    after a successful post, a successful read of the session holds the
    new message under the next id, with the posted type and content; a
    non-empty list of matched RCAs comes back decoded (given that
    [json.loads] inverts [json.dumps] on it), an absent or empty one
    comes back as [None]. *)
Theorem add_then_get_chat_messages (w : ChatWorld.t)
    (sid message_type content : string) (matched : option (list Sim.t))
    (db : Db) (l : list MessageView.t)
    (Hadd : fst (add_chat_message w sid message_type content matched db) = Ok tt)
    (Hjson : forall r rs, matched = Some (r :: rs) ->
               json_dumps_rcas (r :: rs) <> ""
               /\ json_loads_rcas (Some (json_dumps_rcas (r :: rs)))
                  = Ok (r :: rs))
    (Hget : get_chat_messages json_loads_rcas false sid
              (snd (add_chat_message w sid message_type content matched db))
            = Ok l) :
  In (MessageView.mk (chat_messages_seq db + 1) sid message_type content
        (matched_view matched) (ChatWorld.current_timestamp w)) l.
Proof.
  destruct (add_chat_message_outcome w sid message_type content matched db)
    as [(_ & _ & _ & _ & E)|(_ & e & E)]; rewrite E in *; [|discriminate].
  cbn [snd] in Hget. unfold get_chat_messages in Hget.
  cbn [Sqlite.faulty rbind] in Hget. fold view in Hget.
  set (row := Message.mk (chat_messages_seq db + 1) sid message_type content
                (rcas_json_of matched) (ChatWorld.current_timestamp w)) in *.
  assert (In row (select_messages sid
                    (Sqlite.update_session_updated_at
                       (ChatWorld.now_isoformat w) sid
                       (mkDb (rca_documents db) (rca_documents_seq db)
                          (chat_sessions db) (chat_messages db ++ [row])
                          (chat_messages_seq db + 1))))) as Hrow.
  { unfold select_messages. simpl.
    apply (Permutation_in _ (Permutation_sym (order_by_perm message_older _))).
    apply filter_In. split; [|apply String.eqb_refl].
    apply in_app_iff. right. left. reflexivity. }
  destruct (rmap_list_in view _ _ row Hget Hrow) as (v & Hv & Hin).
  assert (v = MessageView.mk (chat_messages_seq db + 1) sid message_type content
                (matched_view matched) (ChatWorld.current_timestamp w)) as <-;
    [|exact Hin].
  revert Hv. unfold view, load_if_truthy, row. cbn [Message.matched_rcas].
  destruct matched as [[|r rs]|]; cbn [rcas_json_of truthy matched_view rbind];
    try (intros [= <-]; reflexivity).
  destruct (Hjson r rs eq_refl) as [Hne Hload].
  destruct (json_dumps_rcas (r :: rs)) as [|c s] eqn:Ed; [contradiction|].
  cbn [truthy]. rewrite Hload. cbn [rbind]. intros [= <-]. reflexivity.
Qed.

End ChatReadFacts.

(** X7 on the assistant's answer with one matched incident. *)
Lemma add_then_get_chat_messages_witness :
  exists l,
    get_chat_messages (fun _ => Ok [timeout_incident]) false "s1" after_answer
    = Ok l
    /\ In (MessageView.mk 2 "s1" "assistant" "raise the pool size"
             (Loaded [timeout_incident]) "2024-03-05 10:15:05") l.
Proof.
  eexists. split; [vm_compute; reflexivity|].
  refine (add_then_get_chat_messages (H := plain_runtime)
            (fun _ => Ok [timeout_incident])
            (calm_chat "" "2024-03-05 10:15:05" "2024-03-05T10:15:05.000001")
            "s1" "assistant" "raise the pool size" (Some [timeout_incident])
            after_message _ eq_refl _ _).
  - intros r rs [= <- <-]. split; [discriminate | reflexivity].
  - vm_compute. reflexivity.
Defined.

(* ===================================================================== *)
(** ** The sync run: what it keeps and what it leaves behind              *)
(* ===================================================================== *)

Lemma keeps_store_refl (db : Db) : keeps_store db db.
Proof.
  repeat split; try reflexivity; try lia.
  intros f d Hd. exists d. repeat split. exact Hd.
Qed.

Lemma keeps_store_upsert filename gp pn pr so rc ll fc fh ca ua (db0 db : Db) :
  keeps_store db0 db ->
  keeps_store db0
    (Sqlite.upsert_document filename gp pn pr so rc ll fc fh ca ua db).
Proof.
  intros (Hs & Hm & Hq & Hrows & Hlen & Hseq).
  unfold Sqlite.upsert_document.
  destruct (Sqlite.has_document db filename) eqn:Hc; simpl.
  - repeat split; simpl; try assumption.
    + intros f d Hd. destruct (Hrows f d Hd) as (d1 & Hd1 & Hid & Hca).
      destruct (String.eqb_spec f filename) as [->|Hne].
      * pose proof (upsert_select_same filename gp pn pr so rc ll fc fh ca ua
                      db d1 Hd1) as Hsel.
        unfold Sqlite.upsert_document in Hsel. rewrite Hc in Hsel.
        eexists. split; [exact Hsel|]. split; assumption.
      * pose proof (upsert_select_other filename gp pn pr so rc ll fc fh ca ua
                      db f Hne) as Hsel.
        unfold Sqlite.upsert_document in Hsel. rewrite Hc in Hsel.
        exists d1. rewrite Hsel. repeat split; assumption.
    + rewrite length_map. exact Hlen.
    + lia.
  - repeat split; simpl; try assumption.
    + intros f d Hd. destruct (Hrows f d Hd) as (d1 & Hd1 & Hid & Hca).
      assert (f <> filename) as Hne.
      { intros ->. unfold Sqlite.select_document in Hd1.
        pose proof (find_existsb _ _ _ Hd1) as Hex.
        unfold Sqlite.has_document in Hc. congruence. }
      pose proof (upsert_select_other filename gp pn pr so rc ll fc fh ca ua
                    db f Hne) as Hsel.
      unfold Sqlite.upsert_document in Hsel. rewrite Hc in Hsel.
      exists d1. rewrite Hsel. repeat split; assumption.
    + rewrite length_app. simpl. lia.
    + lia.
Qed.

Lemma upsert_select_hash filename gp pn pr so rc ll fc fh ca ua (db : Db) :
  exists d,
    Sqlite.select_document
      (Sqlite.upsert_document filename gp pn pr so rc ll fc fh ca ua db) filename
    = Some d
    /\ Doc.file_hash d = fh.
Proof.
  destruct (Sqlite.select_document db filename) as [old|] eqn:E.
  - eexists. split; [apply upsert_select_same; exact E | reflexivity].
  - eexists. split; [apply upsert_select_fresh; exact E | reflexivity].
Qed.

Lemma existing_files_absent (db : Db) (f : string) :
  Sqlite.select_document db f = None ->
  Sqlite.select_existing_files db !! f = None.
Proof.
  intros Hn. unfold Sqlite.select_existing_files.
  rewrite existing_files_miss; [apply lookup_empty|].
  intros Hin. apply in_map_iff in Hin as (d & Hd & Hdin).
  unfold Sqlite.select_document in Hn.
  pose proof (find_none _ _ Hn d Hdin) as Hf. simpl in Hf.
  apply String.eqb_neq in Hf. congruence.
Qed.

Section SyncKeepsFacts.
Context `{PyRuntime}.

(** After an iteration the committed database is the one committed
    before or the one now pending. *)
Lemma sync_blob_committed (ef : gmap string (option string)) (r : Run.t)
    (bw : Blob.t * DocWorld.t) :
  Run.committed (sync_blob ef r bw) = Run.committed r
  \/ Run.committed (sync_blob ef r bw) = Run.pending (sync_blob ef r bw).
Proof.
  unfold sync_blob. destruct (unchanged ef (fst bw)); [left; reflexivity|].
  blob_cases; try (left; reflexivity); right; reflexivity.
Qed.

Lemma sync_blob_keeps_store (db0 : Db) (ef : gmap string (option string))
    (r : Run.t) (bw : Blob.t * DocWorld.t) :
  keeps_store db0 (Run.pending r) /\ keeps_store db0 (Run.committed r) ->
  keeps_store db0 (Run.pending (sync_blob ef r bw))
  /\ keeps_store db0 (Run.committed (sync_blob ef r bw)).
Proof.
  intros [Hp Hc].
  assert (keeps_store db0 (Run.pending (sync_blob ef r bw))) as Hp'.
  { destruct (sync_blob_pending ef r bw)
      as [->|(gp & pn & pr & so & rc & ll & fc & fh & ca & ua & ->)];
      [exact Hp | apply keeps_store_upsert; exact Hp]. }
  split; [exact Hp'|].
  destruct (sync_blob_committed ef r bw) as [->| ->]; assumption.
Qed.

Lemma foldl_sync_blob_keeps_store (db0 : Db) (ef : gmap string (option string))
    (l : list (Blob.t * DocWorld.t)) (r : Run.t) :
  keeps_store db0 (Run.pending r) /\ keeps_store db0 (Run.committed r) ->
  keeps_store db0 (Run.pending (foldl (sync_blob ef) r l))
  /\ keeps_store db0 (Run.committed (foldl (sync_blob ef) r l)).
Proof.
  revert r. induction l as [|bw l IH]; intros r Hr; [exact Hr|].
  cbn [foldl]. apply IH, sync_blob_keeps_store. exact Hr.
Qed.

(** X8. Whatever the bucket holds and whatever fails, a sync run deletes
    nothing and touches no chat data: in the database it leaves
    committed, the chat tables are as before, every document stored at
    the start is still found under its filename with its id and creation
    stamp, and [get_rca_count] has not gone down. *)
Theorem sync_keeps_store (sw : SyncWorld) (db : Db)
    (collection : gmap string Entry.t) :
  keeps_store db (Run.committed (snd (sync_gcs_files sw db collection)))
  /\ exists n n',
      get_rca_count false db = Ok n
      /\ get_rca_count false
           (Run.committed (snd (sync_gcs_files sw db collection))) = Ok n'
      /\ n <= n'.
Proof.
  assert (keeps_store db (Run.committed (snd (sync_gcs_files sw db collection))))
    as Hk.
  { unfold sync_gcs_files. destruct (Sqlite.faulty (load_fault sw)); simpl;
      [|apply keeps_store_refl].
    destruct (foldl_sync_blob_keeps_store db (Sqlite.select_existing_files db)
                (list_blobs sw) (start db collection)) as [_ Hc].
    { split; apply keeps_store_refl. }
    destruct (list_blobs_failure sw); exact Hc. }
  split; [exact Hk|].
  eexists. eexists. split; [reflexivity|]. split; [reflexivity|].
  destruct Hk as (_ & _ & _ & _ & Hlen & _). lia.
Qed.

(** X9. A blob without an MD5 hash whose filename has no row is taken
    for unchanged: [None == None]. Its iteration only raises [skipped],
    so the document is never downloaded or stored. *)
Theorem sync_skips_blob_without_hash (db : Db) (r : Run.t) (blob : Blob.t)
    (w : DocWorld.t)
    (Hhash : Blob.md5_hash blob = None)
    (Hnew : Sqlite.select_document db (PyStr.basename (Blob.name blob)) = None) :
  sync_blob (Sqlite.select_existing_files db) r (blob, w)
  = Run.map_stats Stats.incr_skipped r.
Proof.
  apply sync_blob_unchanged. unfold unchanged, dict_get.
  rewrite (existing_files_absent db _ Hnew), Hhash.
  apply bool_decide_eq_true. reflexivity.
Qed.

(** X10. An iteration whose download raises, or whose extraction gives
    no record, counts one error and leaves the pending and committed
    database and the collection as they were; it makes no embedding
    call and at most the model call of the extraction. *)
Theorem sync_failed_document_leaves_store (ef : gmap string (option string))
    (r : Run.t) (blob : Blob.t) (w : DocWorld.t)
    (Hchanged : unchanged ef blob = false)
    (Hfailed : (exists e, DocWorld.download_as_bytes w = Raise e)
               \/ (exists content,
                     DocWorld.download_as_bytes w = Ok content
                     /\ fst (extract_rca_content_from_bytes w content
                               (PyStr.basename (Blob.name blob))) = None)) :
  let r' := sync_blob ef r (blob, w) in
  Run.stats r' = Stats.incr_errors (Run.stats r)
  /\ Run.pending r' = Run.pending r
  /\ Run.committed r' = Run.committed r
  /\ Run.collection r' = Run.collection r
  /\ exists evs,
      Run.trace r' = (Run.trace r ++ EvDownload blob :: evs)%list
      /\ (length evs <= 2)%nat
      /\ forall text, ~ In (EvEmbed text) evs.
Proof.
  unfold sync_blob. cbn [fst snd]. rewrite Hchanged.
  unfold process_blob, mbind, mlift, mmodify, mget, mret. run_simpl.
  destruct Hfailed as [[e He]|(content & Hc & Hnone)].
  - rewrite He. run_simpl. repeat split. exists []. simpl.
    split; [reflexivity|]. split; [lia | intros text []].
  - rewrite Hc. run_simpl.
    destruct (extract_rca_content_from_bytes w content
                (PyStr.basename (Blob.name blob))) as [o evs] eqn:Ex.
    cbn [fst] in Hnone. subst o. run_simpl. repeat split.
    exists (EvExtract (PyStr.basename (Blob.name blob)) :: evs).
    split; [rewrite <- !app_assoc; reflexivity|].
    revert Ex. unfold extract_rca_content_from_bytes.
    destruct (decode_by_extension w content _) as [[c|?]|];
      [|intros [= <-]; simpl; split; [lia|intros t [[=]|[]]]..].
    destruct (DocWorld.generate_content w _) as [t|?];
      [destruct (DocWorld.parse_json_object w t)|];
      intros [= <-]; simpl; (split; [lia|]); intros t' [[=]|[[=]|[]]].
Qed.

(** X11. Once an iteration has committed its upsert, the blob counts as
    unchanged for every later run, whatever happens afterwards in the
    iteration. In particular, when the embedding call then raises, the
    document is counted under [errors], the collection keeps its old
    entry, and later runs skip the blob: the index is not brought up to
    date until the blob's hash changes again. *)
Theorem sync_commit_then_skipped (ef : gmap string (option string)) (r : Run.t)
    (blob : Blob.t) (w : DocWorld.t) (content : string) (rca : RcaData.t)
    (evs : list event)
    (Hunique : unique_filenames (Run.pending r))
    (Hchanged : unchanged ef blob = false)
    (Hdownload : DocWorld.download_as_bytes w = Ok content)
    (Hextract : extract_rca_content_from_bytes w content
                  (PyStr.basename (Blob.name blob)) = (Some rca, evs))
    (Hstore : forall k, DocWorld.fault w k = false) :
  let r' := sync_blob ef r (blob, w) in
  Run.committed r' = Run.pending r'
  /\ unchanged (Sqlite.select_existing_files (Run.committed r')) blob = true
  /\ (forall r2 w2,
        sync_blob (Sqlite.select_existing_files (Run.committed r')) r2 (blob, w2)
        = Run.map_stats Stats.incr_skipped r2)
  /\ (forall e,
        DocWorld.embed_content w
          (embedding_text_of (RcaData.extracted_data rca)) = Raise e ->
        Run.stats r' = Stats.incr_errors (Run.stats r)
        /\ Run.collection r' = Run.collection r).
Proof.
  intros r'.
  set (db' := Sqlite.upsert_document (PyStr.basename (Blob.name blob))
                (Blob.name blob)
                (Extracted.project_name (RcaData.extracted_data rca))
                (Some (json_dumps (Extracted.problems (RcaData.extracted_data rca))))
                (Some (json_dumps (Extracted.solutions (RcaData.extracted_data rca))))
                (Some (json_dumps (Extracted.root_causes (RcaData.extracted_data rca))))
                (Some (json_dumps (Extracted.lessons_learned (RcaData.extracted_data rca))))
                (Some (RcaData.full_content rca)) (Blob.md5_hash blob)
                (DocWorld.now_isoformat w) (DocWorld.now_isoformat w)
                (Run.pending r)).
  assert (Run.committed r' = db' /\ Run.pending r' = db'
          /\ (forall e,
                DocWorld.embed_content w
                  (embedding_text_of (RcaData.extracted_data rca)) = Raise e ->
                Run.stats r' = Stats.incr_errors (Run.stats r)
                /\ Run.collection r' = Run.collection r)) as (Hc & Hp & Hembed).
  { subst r'. unfold sync_blob. cbn [fst snd]. rewrite Hchanged.
    unfold process_blob, mbind, mlift, mmodify, mget, mret, Sqlite.faulty.
    run_simpl. rewrite Hdownload. run_simpl. rewrite Hextract. run_simpl.
    rewrite !Hstore. run_simpl. fold db'.
    destruct (upsert_select_hash (PyStr.basename (Blob.name blob))
                (Blob.name blob)
                (Extracted.project_name (RcaData.extracted_data rca))
                (Some (json_dumps (Extracted.problems (RcaData.extracted_data rca))))
                (Some (json_dumps (Extracted.solutions (RcaData.extracted_data rca))))
                (Some (json_dumps (Extracted.root_causes (RcaData.extracted_data rca))))
                (Some (json_dumps (Extracted.lessons_learned (RcaData.extracted_data rca))))
                (Some (RcaData.full_content rca)) (Blob.md5_hash blob)
                (DocWorld.now_isoformat w) (DocWorld.now_isoformat w)
                (Run.pending r)) as (d & Hd & _).
    fold db' in Hd. rewrite Hd. run_simpl.
    destruct (DocWorld.embed_content w _) as [emb|e0] eqn:Ee; run_simpl.
    - destruct (DocWorld.collection_upsert w); run_simpl;
        [destruct (bool_decide _); run_simpl|];
        (split; [reflexivity|]); (split; [reflexivity|]); intros ? [=].
    - split; [reflexivity|]. split; [reflexivity|]. intros ? _.
      split; reflexivity. }
  assert (unchanged (Sqlite.select_existing_files (Run.committed r')) blob = true)
    as Hskip.
  { rewrite Hc. subst db'.
    match goal with
    | |- unchanged (Sqlite.select_existing_files ?u) _ = _ => set (db' := u)
    end.
    destruct (upsert_select_hash (PyStr.basename (Blob.name blob))
                (Blob.name blob)
                (Extracted.project_name (RcaData.extracted_data rca))
                (Some (json_dumps (Extracted.problems (RcaData.extracted_data rca))))
                (Some (json_dumps (Extracted.solutions (RcaData.extracted_data rca))))
                (Some (json_dumps (Extracted.root_causes (RcaData.extracted_data rca))))
                (Some (json_dumps (Extracted.lessons_learned (RcaData.extracted_data rca))))
                (Some (RcaData.full_content rca)) (Blob.md5_hash blob)
                (DocWorld.now_isoformat w) (DocWorld.now_isoformat w)
                (Run.pending r)) as (d & Hd & Hh).
    fold db' in Hd.
    rewrite (unchanged_stored db' blob d); [|apply upsert_unique; exact Hunique
                                            |exact Hd].
    apply bool_decide_eq_true. exact Hh. }
  split; [rewrite Hc, Hp; reflexivity|]. split; [exact Hskip|].
  split; [|exact Hembed].
  intros r2 w2. apply sync_blob_unchanged. exact Hskip.
Qed.

End SyncKeepsFacts.

Section SyncInsertFacts.
Context `{PyRuntime}.

(** X12. A blob with a hash whose filename is neither in the dictionary
    loaded at the start of the run nor in the table: when its iteration
    runs to the end, a row is added under the next id of the counter,
    with creation and update stamp both the clock reading of the
    iteration, the write is committed, the collection gets the
    embedding under that id, and the document counts as [processed]. *)
Theorem sync_inserts_new_document (ef : gmap string (option string))
    (r : Run.t) (blob : Blob.t) (w : DocWorld.t) (content : string)
    (rca : RcaData.t) (evs : list event) (embedding : list Q)
    (Hhash : Blob.md5_hash blob <> None)
    (Hunlisted : ef !! PyStr.basename (Blob.name blob) = None)
    (Hnew : Sqlite.select_document (Run.pending r)
              (PyStr.basename (Blob.name blob)) = None)
    (Hdownload : DocWorld.download_as_bytes w = Ok content)
    (Hextract : extract_rca_content_from_bytes w content
                  (PyStr.basename (Blob.name blob)) = (Some rca, evs))
    (Hstore : forall k, DocWorld.fault w k = false)
    (Hembed : DocWorld.embed_content w
                (embedding_text_of (RcaData.extracted_data rca)) = Ok embedding)
    (Hindex : DocWorld.collection_upsert w = Ok tt) :
  let filename := PyStr.basename (Blob.name blob) in
  let new_id := rca_documents_seq (Run.pending r) + 1 in
  let r' := sync_blob ef r (blob, w) in
  let x := RcaData.extracted_data rca in
  Sqlite.select_document (Run.pending r') filename
  = Some (Doc.mk new_id filename (Blob.name blob)
            (Extracted.project_name x)
            (Some (json_dumps (Extracted.problems x)))
            (Some (json_dumps (Extracted.solutions x)))
            (Some (json_dumps (Extracted.root_causes x)))
            (Some (json_dumps (Extracted.lessons_learned x)))
            (Some (RcaData.full_content rca)) (Blob.md5_hash blob)
            (DocWorld.now_isoformat w) (DocWorld.now_isoformat w))
  /\ Run.committed r' = Run.pending r'
  /\ length (rca_documents (Run.pending r'))
     = S (length (rca_documents (Run.pending r)))
  /\ rca_documents_seq (Run.pending r') = new_id
  /\ Run.collection r'
     = <[py_str new_id :=
           Entry.mk embedding filename (Extracted.project_name x)]>
         (Run.collection r)
  /\ Run.stats r' = Stats.incr_processed (Run.stats r).
Proof.
  intros filename new_id r' x. subst x r' filename new_id.
  assert (unchanged ef blob = false) as Hu.
  { unfold unchanged, dict_get. rewrite Hunlisted.
    apply bool_decide_eq_false. congruence. }
  assert (bool_decide (is_Some (ef !! PyStr.basename (Blob.name blob))) = false)
    as Hin.
  { apply bool_decide_eq_false. rewrite Hunlisted. intros [? [=]]. }
  unfold sync_blob. cbn [fst snd]. rewrite Hu.
  unfold process_blob, mbind, mlift, mmodify, mget, mret, Sqlite.faulty.
  run_simpl. rewrite Hdownload. run_simpl.
  rewrite Hextract. run_simpl.
  rewrite !Hstore. run_simpl.
  rewrite (upsert_select_fresh _ _ _ _ _ _ _ _ _ _ _ (Run.pending r) Hnew).
  run_simpl. rewrite Hembed. run_simpl. rewrite Hindex. run_simpl.
  rewrite Hin. run_simpl. cbn [Doc.id].
  rewrite (upsert_select_fresh _ _ _ _ _ _ _ _ _ _ _ (Run.pending r) Hnew).
  unfold Sqlite.select_document in Hnew.
  rewrite (upsert_fresh _ _ _ _ _ _ _ _ _ _ _ (Run.pending r)
             (find_none_existsb _ _ Hnew)).
  cbn [rca_documents rca_documents_seq]. rewrite length_app. cbn [length].
  repeat split; try reflexivity. lia.
Qed.

End SyncInsertFacts.

(** X9 on a composite object, against the store of one document. *)
Lemma sync_skips_blob_without_hash_witness :
  Blob.md5_hash composite_blob = None
  /\ Sqlite.select_document one_doc_db "merged.md" = None
  /\ Run.stats
       (sync_blob (H := plain_runtime) (Sqlite.select_existing_files one_doc_db)
          (start one_doc_db ∅)
          (composite_blob, text_world "2024-02-01T09:00:00.000000" no_fault))
     = Stats.mk 0 0 1 0.
Proof.
  split; [reflexivity|]. split; [reflexivity|].
  rewrite (sync_skips_blob_without_hash (H := plain_runtime) one_doc_db
             (start one_doc_db ∅) composite_blob
             (text_world "2024-02-01T09:00:00.000000" no_fault)
             eq_refl eq_refl).
  reflexivity.
Defined.

(** X10 on a blob whose download fails. *)
Lemma sync_failed_document_leaves_store_witness :
  unchanged (Sqlite.select_existing_files one_doc_db) gateway_blob = false
  /\ Run.stats
       (sync_blob (H := plain_runtime) (Sqlite.select_existing_files one_doc_db)
          (start one_doc_db ∅)
          (gateway_blob, no_download_world "2024-02-01T09:00:00.000000"))
     = Stats.mk 0 0 0 1
  /\ Run.committed
       (sync_blob (H := plain_runtime) (Sqlite.select_existing_files one_doc_db)
          (start one_doc_db ∅)
          (gateway_blob, no_download_world "2024-02-01T09:00:00.000000"))
     = one_doc_db.
Proof.
  assert (unchanged (Sqlite.select_existing_files one_doc_db) gateway_blob
          = false) as Hu by (vm_compute; reflexivity).
  split; [exact Hu|].
  destruct (sync_failed_document_leaves_store (H := plain_runtime)
              (Sqlite.select_existing_files one_doc_db) (start one_doc_db ∅)
              gateway_blob (no_download_world "2024-02-01T09:00:00.000000") Hu
              (or_introl (ex_intro _ ServiceError eq_refl)))
    as (Hstats & _ & Hcommitted & _).
  split; [exact Hstats | exact Hcommitted].
Defined.

(** X11 on the changed document with the embedding service down: the
    new hash is committed and the blob is skipped from then on. *)
Lemma sync_commit_then_skipped_witness :
  unique_filenames one_doc_db
  /\ unchanged (Sqlite.select_existing_files one_doc_db) changed_blob = false
  /\ exists r',
      sync_blob (H := plain_runtime) (Sqlite.select_existing_files one_doc_db)
        (start one_doc_db ∅)
        (changed_blob, no_embedding_world "2024-02-01T09:00:00.000000") = r'
      /\ Run.stats r' = Stats.mk 0 0 0 1
      /\ Run.collection r' = ∅
      /\ unchanged (Sqlite.select_existing_files (Run.committed r')) changed_blob
         = true.
Proof.
  assert (unique_filenames one_doc_db) as Hq.
  { unfold unique_filenames. simpl. apply NoDup_singleton. }
  assert (unchanged (Sqlite.select_existing_files one_doc_db) changed_blob
          = false) as Hu by (vm_compute; reflexivity).
  split; [exact Hq|]. split; [exact Hu|].
  eexists. split; [reflexivity|].
  destruct (sync_commit_then_skipped (H := plain_runtime)
              (Sqlite.select_existing_files one_doc_db) (start one_doc_db ∅)
              changed_blob (no_embedding_world "2024-02-01T09:00:00.000000")
              "raw bytes"
              (RcaData.mk "db-timeout.md" "raw bytes"
                 (Extracted.mk (Some "payments") ["gateway 502"] ["restart"]
                    ["bad deploy"] ["use canaries"]))
              [EvGenerate (extraction_prompt "raw bytes")]
              Hq Hu eq_refl eq_refl (fun _ => eq_refl))
    as (_ & Hskip & _ & Hembed).
  destruct (Hembed ServiceError eq_refl) as [Hstats Hcoll].
  split; [exact Hstats|]. split; [exact Hcoll | exact Hskip].
Defined.

(** X12 on a new text document. *)
Lemma sync_inserts_new_document_witness :
  Blob.md5_hash gateway_blob <> None
  /\ Sqlite.select_document one_doc_db "gateway.txt" = None
  /\ exists r',
      sync_blob (H := plain_runtime) (Sqlite.select_existing_files one_doc_db)
        (start one_doc_db ∅)
        (gateway_blob, text_world "2024-02-01T09:00:01.000000" no_fault) = r'
      /\ rca_documents_seq (Run.pending r') = 2
      /\ Run.stats r' = Stats.mk 1 0 0 0.
Proof.
  assert (Blob.md5_hash gateway_blob <> None) as Hh by discriminate.
  split; [exact Hh|]. split; [reflexivity|].
  eexists. split; [reflexivity|].
  destruct (sync_inserts_new_document (H := plain_runtime)
              (Sqlite.select_existing_files one_doc_db) (start one_doc_db ∅)
              gateway_blob (text_world "2024-02-01T09:00:01.000000" no_fault)
              "raw bytes"
              (RcaData.mk "gateway.txt" "raw bytes"
                 (Extracted.mk (Some "payments") ["gateway 502"] ["restart"]
                    ["bad deploy"] ["use canaries"]))
              [EvGenerate (extraction_prompt "raw bytes")]
              [1 # 2; 1 # 3]
              Hh ltac:(vm_compute; reflexivity) eq_refl eq_refl eq_refl
              (fun _ => eq_refl) eq_refl eq_refl)
    as (_ & _ & _ & Hseq & _ & Hstats).
  split; [exact Hseq | exact Hstats].
Defined.

(* ===================================================================== *)
(** ** Document extraction                                                *)
(* ===================================================================== *)

Lemma take_take (n : nat) (s : string) :
  PyStr.take n (PyStr.take n s) = PyStr.take n s.
Proof.
  revert s. induction n as [|n IH]; intros s; simpl; [reflexivity|].
  destruct s as [|c s]; simpl; [reflexivity|]. rewrite IH. reflexivity.
Qed.

Section ExtractFacts.
Context `{PyRuntime}.

(** X13. A file whose extension, lower-cased, is not one of .txt, .md,
    .docx, .pdf (in particular a file without extension) gives no record,
    and the model is not called for it. *)
Theorem extract_unsupported_extension (w : DocWorld.t)
    (file_content filename : string)
    (Hext : ~ In (PyStr.lower (PyStr.path_suffix filename)) supported_extensions) :
  extract_rca_content_from_bytes w file_content filename = (None, []).
Proof.
  unfold extract_rca_content_from_bytes, decode_by_extension.
  unfold supported_extensions in Hext. simpl in Hext.
  destruct (String.eqb_spec (PyStr.lower (PyStr.path_suffix filename)) ".txt")
    as [E|_]; [exfalso; apply Hext; auto|].
  destruct (String.eqb_spec (PyStr.lower (PyStr.path_suffix filename)) ".md")
    as [E|_]; [exfalso; apply Hext; auto|].
  destruct (String.eqb_spec (PyStr.lower (PyStr.path_suffix filename)) ".docx")
    as [E|_]; [exfalso; apply Hext; auto|].
  destruct (String.eqb_spec (PyStr.lower (PyStr.path_suffix filename)) ".pdf")
    as [E|_]; [exfalso; apply Hext; auto 6|].
  reflexivity.
Qed.

(** X14. An extraction calls the model at most once. When it gives a
    record, the record carries the filename it was given and the whole
    decoded text, while the one prompt sent to the model was built from
    the first 8000 characters of that text only: texts that agree on
    their first 8000 characters get the same prompt. *)
Theorem extract_sends_prefix_keeps_text (w : DocWorld.t)
    (file_content filename : string) :
  (length (snd (extract_rca_content_from_bytes w file_content filename)) <= 1)%nat
  /\ (forall rca,
        fst (extract_rca_content_from_bytes w file_content filename) = Some rca ->
        RcaData.filename rca = filename
        /\ decode_by_extension w file_content
             (PyStr.lower (PyStr.path_suffix filename))
           = Some (Ok (RcaData.full_content rca))
        /\ snd (extract_rca_content_from_bytes w file_content filename)
           = [EvGenerate
                (extraction_prompt
                   (PyStr.take (Z.to_nat 8000) (RcaData.full_content rca)))])
  /\ (forall content content',
        PyStr.take (Z.to_nat 8000) content = PyStr.take (Z.to_nat 8000) content' ->
        extraction_prompt content = extraction_prompt content').
Proof.
  assert (forall content,
            extraction_prompt (PyStr.take (Z.to_nat 8000) content)
            = extraction_prompt content) as Hprefix.
  { intros content. unfold extraction_prompt. rewrite take_take. reflexivity. }
  split; [|split].
  - unfold extract_rca_content_from_bytes.
    destruct (decode_by_extension w file_content _) as [[c|?]|]; simpl; try lia.
    destruct (DocWorld.generate_content w _) as [t|?]; simpl; try lia.
    destruct (DocWorld.parse_json_object w t); simpl; lia.
  - intros rca. unfold extract_rca_content_from_bytes.
    destruct (decode_by_extension w file_content _) as [[c|?]|];
      cbn [fst snd]; try discriminate.
    destruct (DocWorld.generate_content w _) as [t|?]; cbn [fst snd];
      try discriminate.
    destruct (DocWorld.parse_json_object w t); cbn [fst snd]; try discriminate.
    intros [= <-]. cbn [RcaData.filename RcaData.full_content].
    rewrite Hprefix. repeat split.
  - intros content content' Heq.
    rewrite <- (Hprefix content), <- (Hprefix content'), Heq. reflexivity.
Qed.

End ExtractFacts.

(** X13 on a spreadsheet and on a file without extension. *)
Lemma extract_unsupported_extension_witness :
  ~ In (PyStr.lower (PyStr.path_suffix "incidents.CSV")) supported_extensions
  /\ extract_rca_content_from_bytes silent_world "a;b" "incidents.CSV" = (None, [])
  /\ extract_rca_content_from_bytes silent_world "text" "README" = (None, []).
Proof.
  assert (~ In (PyStr.lower (PyStr.path_suffix "incidents.CSV"))
            supported_extensions) as Hcsv.
  { vm_compute. intros [[=]|[[=]|[[=]|[[=]|[]]]]]. }
  assert (~ In (PyStr.lower (PyStr.path_suffix "README")) supported_extensions)
    as Hnone.
  { vm_compute. intros [[=]|[[=]|[[=]|[[=]|[]]]]]. }
  split; [exact Hcsv|]. split.
  - exact (extract_unsupported_extension silent_world "a;b" "incidents.CSV" Hcsv).
  - exact (extract_unsupported_extension silent_world "text" "README" Hnone).
Defined.

(* ===================================================================== *)
(** ** Similarity search: where the results come from                     *)
(* ===================================================================== *)

Section SearchSourceFacts.
Context `{PyRuntime}.

Lemma join_results_built (db : Db) (matched_ids : list Z) (distances : list Q)
    (ids : list Z) (i : nat) (res : list Sim.t) :
  (forall j k, ids !! j = Some k -> matched_ids !! (i + j)%nat = Some k) ->
  join_results (rca_map_of (Sqlite.select_documents_in matched_ids db))
    distances i ids = Ok res ->
  Forall (built_from db matched_ids distances) res.
Proof.
  revert i res. induction ids as [|k ids IH]; intros i res Hpos.
  - simpl. intros [= <-]. constructor.
  - cbn [join_results].
    assert (forall j k', ids !! j = Some k' ->
              matched_ids !! (S i + j)%nat = Some k') as Hpos'.
    { intros j k' Hj. specialize (Hpos (S j) k' Hj).
      rewrite Nat.add_succ_r in Hpos. exact Hpos. }
    destruct (rca_map_of _ !! k) as [rca|] eqn:Ek; [|apply IH; exact Hpos'].
    apply rca_map_of_some in Ek as [Hid Hin].
    apply filter_In in Hin as [Hin _].
    destruct (distances !! i) as [d|] eqn:Ed; [|discriminate]. cbn [rbind].
    destruct (json_loads (Doc.problems rca)) as [ps|] eqn:Ep; [|discriminate].
    cbn [rbind].
    destruct (json_loads (Doc.solutions rca)) as [ss|] eqn:Es; [|discriminate].
    cbn [rbind].
    destruct (json_loads (Doc.root_causes rca)) as [cs|] eqn:Ec; [|discriminate].
    cbn [rbind].
    destruct (join_results _ distances (S i) ids) as [tail|] eqn:Et;
      [|discriminate].
    cbn [rbind]. intros [= <-]. constructor; [|exact (IH (S i) tail Hpos' Et)].
    exists rca, i, d. cbn [Sim.rca_id Sim.filename Sim.project_name Sim.problems
                           Sim.solutions Sim.root_causes Sim.similarity_score].
    repeat split; try assumption; try reflexivity.
    specialize (Hpos 0%nat k eq_refl). rewrite Nat.add_0_r in Hpos.
    rewrite Hid. exact Hpos.
Qed.

(** X15. Every result the search returns is built from a row that is in
    the document table: it carries that row's id, filename and project,
    its three list fields are the row's columns decoded, and its score
    is computed from the distance the collection reported at the rank
    of that id. Ids of the ranking that have no row give no result. *)
Theorem search_results_from_store (w : SearchWorld.t) (db : Db)
    (current_problem : string) (top_n : Z) (query_embedding : list Q)
    (results : option QueryResult.t) (similar_rcas : list Sim.t)
    (Hembed : SearchWorld.embed_content w current_problem = Ok query_embedding)
    (Hquery : SearchWorld.collection_query w query_embedding top_n = Ok results)
    (Hreturn : search_similar_problems w db current_problem top_n
               = Ok similar_rcas) :
  exists matched_ids,
    rmap_list py_int (reported_ids results) = Ok matched_ids
    /\ Forall (built_from db matched_ids (reported_distances results))
         similar_rcas.
Proof.
  revert Hreturn. unfold search_similar_problems.
  rewrite Hembed. cbn [rbind]. rewrite Hquery. cbn [rbind].
  destruct results as [[ids distances]|];
    cbn [reported_ids reported_distances QueryResult.ids QueryResult.distances].
  2:{ intros [= <-]. exists []. split; [reflexivity | constructor]. }
  destruct ids as [[|[|id_str id_strs] rest]|];
    try (intros [= <-]; exists []; split; [reflexivity | constructor]).
  destruct (rmap_list py_int (id_str :: id_strs)) as [matched_ids|] eqn:Eids;
    [|discriminate].
  cbn [rbind].
  destruct distances as [[|ds more]|]; cbn [rbind]; try discriminate.
  unfold Sqlite.faulty. destruct (SearchWorld.fault w); [discriminate|].
  cbn [rbind]. intros Hjoin. exists matched_ids. split; [reflexivity|].
  apply (join_results_built db matched_ids ds matched_ids 0 similar_rcas);
    [|exact Hjoin].
  intros j k Hj. exact Hj.
Qed.

End SearchSourceFacts.

(** X15 on the ranking 7, 1, 9 over the store of one document: the one
    result is document 1, scored from the distance at its rank, 1/4. *)
Lemma search_results_from_store_witness :
  exists s,
    search_similar_problems (H := plain_runtime) ranked_world one_doc_db
      "database is timing out" 5 = Ok [s]
    /\ built_from (H := plain_runtime) one_doc_db [7; 1; 9]
         [1 # 10; 1 # 4; 3 # 2] s.
Proof.
  eexists. split; [vm_compute; reflexivity|].
  destruct (search_results_from_store (H := plain_runtime) ranked_world
              one_doc_db "database is timing out" 5 [1 # 2; 1 # 3]
              (Some (QueryResult.mk (Some [["7"; "1"; "9"]])
                       (Some [[1 # 10; 1 # 4; 3 # 2]])))
              _ eq_refl eq_refl ltac:(vm_compute; reflexivity))
    as (ids & Hids & Hall).
  vm_compute in Hids. injection Hids as <-.
  apply Forall_cons in Hall as [Hs _]. exact Hs.
Defined.

(* ===================================================================== *)
(** ** Intent router: case and padding                                    *)
(* ===================================================================== *)

Lemma append_assoc_s (a b c : string) : (a +:+ b) +:+ c = a +:+ (b +:+ c).
Proof.
  induction a as [|x a IH]; [reflexivity|].
  rewrite !append_cons, IH. reflexivity.
Qed.

Lemma append_empty_r (a : string) : a +:+ "" = a.
Proof.
  induction a as [|x a IH]; [reflexivity|]. rewrite append_cons, IH. reflexivity.
Qed.

Lemma lower_app (a b : string) :
  PyStr.lower (a +:+ b) = PyStr.lower a +:+ PyStr.lower b.
Proof.
  induction a as [|x a IH]; [reflexivity|].
  rewrite append_cons. cbn [PyStr.lower]. rewrite append_cons, IH. reflexivity.
Qed.

Lemma lstrip_split (s : string) : exists a, s = a +:+ PyStr.lstrip s.
Proof.
  induction s as [|c s [a IH]]; [exists ""; reflexivity|].
  cbn [PyStr.lstrip]. destruct (PyStr.isspace c).
  - exists (String c a). rewrite append_cons, <- IH. reflexivity.
  - exists "". reflexivity.
Qed.

Lemma rstrip_split (s : string) : exists b, s = PyStr.rstrip s +:+ b.
Proof.
  induction s as [|c s [b IH]]; [exists ""; reflexivity|].
  cbn [PyStr.rstrip]. destruct (PyStr.rstrip s) as [|d t] eqn:E.
  - destruct (PyStr.isspace c).
    + exists (String c s). reflexivity.
    + exists b. rewrite append_cons, <- IH. reflexivity.
  - exists b. rewrite append_cons, <- IH. reflexivity.
Qed.

Lemma lstrip_app_nonspace (pre rest : string) (c : ascii) :
  PyStr.isspace c = false ->
  PyStr.lstrip (pre +:+ String c rest) = PyStr.lstrip pre +:+ String c rest.
Proof.
  intros Hc. induction pre as [|d pre IH].
  - rewrite append_nil. cbn [PyStr.lstrip]. rewrite Hc. reflexivity.
  - rewrite append_cons. cbn [PyStr.lstrip]. destruct (PyStr.isspace d).
    + exact IH.
    + rewrite append_cons. reflexivity.
Qed.

Lemma rstrip_cons_nonspace (c : ascii) (s : string) :
  PyStr.isspace c = false -> PyStr.rstrip (String c s) = String c (PyStr.rstrip s).
Proof.
  intros Hc. cbn [PyStr.rstrip]. destruct (PyStr.rstrip s); [rewrite Hc|];
    reflexivity.
Qed.

Lemma rstrip_app (a b : string) :
  PyStr.rstrip b <> "" -> PyStr.rstrip (a +:+ b) = a +:+ PyStr.rstrip b.
Proof.
  intros Hb. induction a as [|c a IH]; [reflexivity|].
  rewrite !append_cons. cbn [PyStr.rstrip]. rewrite IH.
  destruct (a +:+ PyStr.rstrip b) as [|d t] eqn:E; [|reflexivity].
  exfalso. destruct a; [|discriminate E].
  rewrite append_nil in E. contradiction.
Qed.

(** Stripping neither removes nor creates an occurrence of a text that
    begins and ends with a character that is no white space. *)
Lemma contains_strip (first last : ascii) (body1 body2 s : string) :
  PyStr.isspace first = false -> PyStr.isspace last = false ->
  String first body1 = body2 +:+ String last "" ->
  PyStr.contains (String first body1) (PyStr.strip s)
  = PyStr.contains (String first body1) s.
Proof.
  intros Hf Hl Hshape.
  destruct (PyStr.contains (String first body1) s) eqn:Es.
  - apply contains_iff in Es as (pre & post & ->). apply contains_iff.
    exists (PyStr.lstrip pre), (PyStr.rstrip post).
    unfold PyStr.strip. rewrite append_cons.
    rewrite (lstrip_app_nonspace pre (body1 +:+ post) first Hf).
    rewrite <- append_cons, Hshape.
    rewrite (append_assoc_s body2 (String last "") post).
    rewrite append_cons, append_nil.
    rewrite <- (append_assoc_s (PyStr.lstrip pre) body2 (String last post)).
    rewrite rstrip_app.
    + rewrite (rstrip_cons_nonspace last post Hl).
      rewrite (append_assoc_s (PyStr.lstrip pre) body2).
      rewrite (append_assoc_s body2 (String last "") (PyStr.rstrip post)).
      rewrite append_cons, append_nil. reflexivity.
    + rewrite (rstrip_cons_nonspace last post Hl). discriminate.
  - destruct (PyStr.contains (String first body1) (PyStr.strip s)) eqn:Et;
      [|reflexivity].
    apply contains_iff in Et as (pre & post & Hst).
    destruct (lstrip_split s) as [a Ha].
    destruct (rstrip_split (PyStr.lstrip s)) as [b Hb].
    assert (PyStr.contains (String first body1) s = true) as Es'.
    { apply contains_iff. exists (a +:+ pre), (post +:+ b).
      rewrite Ha at 1. rewrite Hb at 1. unfold PyStr.strip in Hst. rewrite Hst.
      rewrite !append_assoc_s. reflexivity. }
    congruence.
Qed.

Section IntentCaseFacts.
Context `{PyRuntime}.

(** X16. The router looks at the lower-cased response only, and the
    [strip] changes nothing: the answer is the technical label exactly
    when the response, lower-cased, contains it. So a response that
    holds the label in any mix of upper and lower case, with anything
    around it, is routed to the technical path. *)
Theorem get_query_intent_ignores_case_and_padding
    (generate_content : string -> result string) (query : string) :
  (get_query_intent generate_content query = technical_problem_solving <->
     exists text,
       generate_content (intent_prompt query) = Ok text
       /\ PyStr.contains technical_problem_solving (PyStr.lower text) = true)
  /\ (forall text pre label post,
        generate_content (intent_prompt query) = Ok text ->
        text = pre +:+ label +:+ post ->
        PyStr.lower label = technical_problem_solving ->
        get_query_intent generate_content query = technical_problem_solving).
Proof.
  assert (forall s,
            PyStr.contains technical_problem_solving (PyStr.strip s)
            = PyStr.contains technical_problem_solving s) as Hstrip.
  { intros s.
    exact (contains_strip "t" "g" "echnical_problem_solving"
             "technical_problem_solvin" s eq_refl eq_refl eq_refl). }
  assert (get_query_intent generate_content query = technical_problem_solving <->
            exists text,
              generate_content (intent_prompt query) = Ok text
              /\ PyStr.contains technical_problem_solving (PyStr.lower text)
                 = true) as Hiff.
  { unfold get_query_intent.
    destruct (generate_content (intent_prompt query)) as [text|e].
    - rewrite Hstrip.
      destruct (PyStr.contains technical_problem_solving (PyStr.lower text))
        eqn:E.
      + split; [intros _; exists text; split; [reflexivity | exact E]
               |reflexivity].
      + split; [discriminate|]. intros (text' & [= <-] & E'). congruence.
    - split; [discriminate | intros (text' & [=] & _)]. }
  split; [exact Hiff|].
  intros text pre label post Hgen -> Hlabel. apply Hiff.
  exists (pre +:+ label +:+ post). split; [exact Hgen|].
  apply contains_iff. exists (PyStr.lower pre), (PyStr.lower post).
  rewrite !lower_app, Hlabel. reflexivity.
Qed.

End IntentCaseFacts.

(* ===================================================================== *)
(** ** Reading the documents and answering general questions              *)
(* ===================================================================== *)

Lemma length_append_s (a b : string) :
  String.length (a +:+ b) = (String.length a + String.length b)%nat.
Proof.
  induction a as [|c a IH]; [reflexivity|].
  rewrite append_cons. simpl. rewrite IH. reflexivity.
Qed.

Lemma length_take_s (n : nat) (s : string) :
  String.length (PyStr.take n s) = Nat.min n (String.length s).
Proof.
  revert s. induction n as [|n IH]; intros s; [reflexivity|].
  destruct s as [|c s]; [reflexivity|]. simpl. rewrite IH. reflexivity.
Qed.

Section ReadDocumentFacts.
Context `{PyRuntime}.

Lemma rca_view_fields (row : Doc.t) (v : RcaView.t) :
  rca_view row = Ok v ->
  RcaView.id v = Doc.id row
  /\ RcaView.updated_at v = Doc.updated_at row
  /\ (Doc.problems row = None -> RcaView.problems v = Kept None)
  /\ (Doc.solutions row = None -> RcaView.solutions v = Kept None).
Proof.
  unfold rca_view.
  destruct (load_if_truthy json_loads (Doc.problems row)) as [p|] eqn:Ep;
    [|discriminate].
  cbn [rbind].
  destruct (load_if_truthy json_loads (Doc.solutions row)) as [s|] eqn:Es;
    [|discriminate].
  cbn [rbind].
  destruct (load_if_truthy json_loads (Doc.root_causes row)); [|discriminate].
  cbn [rbind].
  destruct (load_if_truthy json_loads (Doc.lessons_learned row));
    [|discriminate].
  cbn [rbind]. intros [= <-]. cbn [RcaView.id RcaView.updated_at
                                   RcaView.problems RcaView.solutions].
  split; [reflexivity|]. split; [reflexivity|]. split.
  - intros Hn. rewrite Hn in Ep. injection Ep as <-. reflexivity.
  - intros Hn. rewrite Hn in Es. injection Es as <-. reflexivity.
Qed.

Lemma rca_views_fields (rows : list Doc.t) (l : list RcaView.t) :
  rmap_list rca_view rows = Ok l ->
  map RcaView.id l = map Doc.id rows
  /\ map RcaView.updated_at l = map Doc.updated_at rows.
Proof.
  intros Hl. apply rmap_list_forall2 in Hl.
  induction Hl as [|row v rows l Hv _ IH]; [split; reflexivity|].
  destruct (rca_view_fields row v Hv) as (Hid & Hua & _).
  destruct IH as [IH1 IH2]. simpl. rewrite Hid, Hua, IH1, IH2.
  split; reflexivity.
Qed.

(** X17. [get_all_rcas], whenever it returns, returns every document of
    the table exactly once, most recently updated first; their number is
    what [get_rca_count] reports. *)
Theorem get_all_rcas_sorted (db : Db) (l : list RcaView.t)
    (Hreturn : get_all_rcas false db = Ok l) :
  Permutation (map RcaView.id l) (map Doc.id (rca_documents db))
  /\ Sorted (fun a b => String.leb (RcaView.updated_at b) (RcaView.updated_at a)
                        = true) l
  /\ get_rca_count false db = Ok (Z.of_nat (length l)).
Proof.
  unfold get_all_rcas in Hreturn. cbn [Sqlite.faulty rbind] in Hreturn.
  destruct (rca_views_fields _ _ Hreturn) as [Hids Hua].
  split; [|split].
  - rewrite Hids. apply Permutation_map, order_by_perm.
  - apply (proj2 (sorted_map (fun a b => String.leb b a = true)
                    RcaView.updated_at l)).
    refine (eq_ind_r (Sorted (fun a b => String.leb b a = true)) _ Hua).
    apply (proj1 (sorted_map (fun a b => String.leb b a = true)
                    Doc.updated_at _)).
    apply (order_by_sorted doc_newer).
    intros a b. unfold doc_newer. apply String.leb_total.
  - unfold get_rca_count. cbn [Sqlite.faulty rbind].
    rewrite (rmap_list_length _ _ _ Hreturn).
    rewrite (Permutation_length (order_by_perm doc_newer (rca_documents db))).
    reflexivity.
Qed.

(** X18. With an empty document table [generate_general_response]
    returns the fixed "knowledge base is empty" text, streaming or not,
    and calls the model not at all; and whenever it returns, it has
    called the model (once) exactly when the table is not empty. *)
Theorem generate_general_response_empty_store (m : Model.t) (db : Db)
    (query : string) (stream : bool) :
  (rca_documents db = [] ->
   generate_general_response m false db query stream
   = (Ok (TextResponse empty_knowledge_base), []))
  /\ (forall response,
        fst (generate_general_response m false db query stream) = Ok response ->
        (snd (generate_general_response m false db query stream) = []
         <-> rca_documents db = []))
  /\ (length (snd (generate_general_response m false db query stream)) <= 1)%nat.
Proof.
  unfold generate_general_response.
  destruct (get_all_rcas false db) as [[|rca rest]|e] eqn:Eall.
  - assert (rca_documents db = []) as Hnil.
    { unfold get_all_rcas in Eall. cbn [Sqlite.faulty rbind] in Eall.
      apply rmap_list_length in Eall. simpl in Eall.
      apply order_by_nil_inv with (before := doc_newer).
      destruct (order_by doc_newer (rca_documents db)); [reflexivity|].
      discriminate Eall. }
    split; [intros _; reflexivity|]. split; [|simpl; lia].
    intros response _. simpl. split; [intros _; exact Hnil | reflexivity].
  - assert (rca_documents db <> []) as Hne.
    { intros Hnil. unfold get_all_rcas in Eall. rewrite Hnil in Eall.
      discriminate Eall. }
    split; [intros Hnil; contradiction|].
    destruct (general_context_from general_context_header (rca :: rest));
      cbn [fst snd]; split; try discriminate; simpl; try lia.
    intros response _. split; [discriminate | intros Hnil; contradiction].
  - split.
    + intros Hnil. unfold get_all_rcas in Eall. rewrite Hnil in Eall.
      discriminate Eall.
    + split; [discriminate | simpl; lia].
Qed.

(** X19. A failure of the model does not make
    [generate_general_response] raise: once the documents are read and
    the context is built, the call returns, and when the model call
    raised, what it returns is the apology text that quotes the error;
    without streaming the result is always a text. *)
Theorem generate_general_response_survives_model (m : Model.t) (fault : bool)
    (db : Db) (query : string) (stream : bool) (rca : RcaView.t)
    (rest : list RcaView.t) (context : string)
    (Hread : get_all_rcas fault db = Ok (rca :: rest))
    (Hcontext : general_context_from general_context_header (rca :: rest)
                = Ok context) :
  snd (generate_general_response m fault db query stream)
  = [EvGenerate (general_prompt context query)]
  /\ (exists response,
        fst (generate_general_response m fault db query stream) = Ok response
        /\ (stream = false -> exists text, response = TextResponse text))
  /\ (forall e,
        (if stream
         then Model.generate_stream m (general_prompt context query) = Raise e
         else Model.generate_text m (general_prompt context query) = Raise e) ->
        fst (generate_general_response m fault db query stream)
        = Ok (TextResponse (general_apology m e))).
Proof.
  unfold generate_general_response. rewrite Hread, Hcontext. cbn [fst snd].
  split; [reflexivity|]. split.
  - eexists. split; [reflexivity|]. intros ->.
    destruct (Model.generate_text m _); eexists; reflexivity.
  - intros e He. destruct stream; rewrite He; reflexivity.
Qed.

Lemma general_entry_raises (rca : RcaView.t) :
  RcaView.problems rca = Kept None \/ RcaView.solutions rca = Kept None ->
  general_entry rca = Raise TypeError.
Proof.
  unfold general_entry. intros [Hp|Hs].
  - rewrite Hp. reflexivity.
  - rewrite Hs. destruct (join_column (RcaView.problems rca)) as [p|e] eqn:Ej;
      cbn [rbind join_column]; [reflexivity|].
    unfold join_column in Ej.
    destruct (RcaView.problems rca) as [[?|]|?]; congruence.
Qed.

Lemma general_entry_exn (rca : RcaView.t) (e : exn) :
  general_entry rca = Raise e -> e = TypeError.
Proof.
  unfold general_entry, join_column.
  destruct (RcaView.problems rca) as [[?|]|?]; cbn [rbind];
    destruct (RcaView.solutions rca) as [[?|]|?]; cbn [rbind]; congruence.
Qed.

Lemma general_context_raises (rcas : list RcaView.t) (context : string) :
  (exists rca, In rca rcas
               /\ (RcaView.problems rca = Kept None
                   \/ RcaView.solutions rca = Kept None)) ->
  general_context_from context rcas = Raise TypeError.
Proof.
  revert context. induction rcas as [|x rcas IH]; intros context (rca & Hin & Hbad);
    [destruct Hin|].
  cbn [general_context_from].
  destruct (general_entry x) as [entry|e] eqn:Ex; cbn [rbind].
  - destruct Hin as [->|Hin].
    + rewrite (general_entry_raises rca Hbad) in Ex. discriminate.
    + apply IH. exists rca. split; assumption.
  - rewrite (general_entry_exn x e Ex). reflexivity.
Qed.

(** X20. If a document has no value in its [problems] or [solutions]
    column and the documents can be read, [generate_general_response]
    raises [TypeError] before it reaches the model: the join over that
    column is outside the [try] that guards the model call. *)
Theorem generate_general_response_null_column (m : Model.t) (db : Db)
    (query : string) (stream : bool) (row : Doc.t) (rcas : list RcaView.t)
    (Hrow : In row (rca_documents db))
    (Hnull : Doc.problems row = None \/ Doc.solutions row = None)
    (Hread : get_all_rcas false db = Ok rcas) :
  generate_general_response m false db query stream = (Raise TypeError, []).
Proof.
  assert (exists rca, In rca rcas
                      /\ (RcaView.problems rca = Kept None
                          \/ RcaView.solutions rca = Kept None)) as Hbad.
  { unfold get_all_rcas in Hread. cbn [Sqlite.faulty rbind] in Hread.
    assert (In row (order_by doc_newer (rca_documents db))) as Hin.
    { apply (Permutation_in _ (Permutation_sym (order_by_perm doc_newer _))).
      exact Hrow. }
    destruct (rmap_list_in rca_view _ _ row Hread Hin) as (v & Hv & Hvin).
    exists v. split; [exact Hvin|].
    destruct (rca_view_fields row v Hv) as (_ & _ & Hp & Hs).
    destruct Hnull as [Hn|Hn]; [left; exact (Hp Hn) | right; exact (Hs Hn)]. }
  unfold generate_general_response. rewrite Hread.
  destruct rcas as [|rca rest]; [destruct Hbad as (? & [] & _)|].
  rewrite (general_context_raises (rca :: rest) general_context_header Hbad).
  reflexivity.
Qed.

End ReadDocumentFacts.

(** X21. The prompt of a general answer holds at most the first 25000
    characters of the context: its length is the fixed text plus the
    question plus at most 25000, and contexts that agree on their first
    25000 characters give the same prompt. *)
Theorem general_prompt_bounded (context query : string) :
  String.length (general_prompt context query)
  = (general_prompt_overhead + String.length query
     + Nat.min (Z.to_nat 25000) (String.length context))%nat
  /\ (String.length (general_prompt context query)
      <= general_prompt_overhead + String.length query + Z.to_nat 25000)%nat
  /\ (forall context',
        PyStr.take (Z.to_nat 25000) context = PyStr.take (Z.to_nat 25000) context' ->
        general_prompt context query = general_prompt context' query).
Proof.
  assert (String.length (general_prompt context query)
          = (general_prompt_overhead + String.length query
             + Nat.min (Z.to_nat 25000) (String.length context))%nat) as Hlen.
  { unfold general_prompt, general_prompt_overhead.
    rewrite !length_append_s, length_take_s. lia. }
  split; [exact Hlen|]. split.
  - rewrite Hlen. apply Nat.add_le_mono_l. apply Nat.le_min_l.
  - intros context' Heq. unfold general_prompt. rewrite Heq. reflexivity.
Qed.

(** X17 on the store of one document. *)
Lemma get_all_rcas_sorted_witness :
  exists l,
    get_all_rcas (H := plain_runtime) false one_doc_db = Ok l
    /\ get_rca_count false one_doc_db = Ok (Z.of_nat (length l)).
Proof.
  eexists. split; [vm_compute; reflexivity|].
  match goal with
  | |- context [length ?l] =>
      destruct (get_all_rcas_sorted (H := plain_runtime) one_doc_db l
                  ltac:(vm_compute; reflexivity)) as (_ & _ & Hcount)
  end.
  exact Hcount.
Defined.

(** X19 on the store of one document with the model down. *)
Lemma generate_general_response_survives_model_witness :
  exists rca context,
    get_all_rcas (H := plain_runtime) false one_doc_db = Ok [rca]
    /\ general_context_from general_context_header [rca] = Ok context
    /\ fst (generate_general_response (H := plain_runtime) dead_model false
              one_doc_db "how many RCAs are there?" false)
       = Ok (TextResponse
               "I encountered an issue while generating a response. The error was: 503 unavailable").
Proof.
  eexists. eexists.
  split; [vm_compute; reflexivity|]. split; [vm_compute; reflexivity|].
  match goal with
  | |- context [generate_general_response ?m ?f ?db ?q ?s] =>
      destruct (generate_general_response_survives_model (H := plain_runtime)
                  m f db q s _ [] _
                  ltac:(vm_compute; reflexivity) ltac:(vm_compute; reflexivity))
        as (_ & _ & Hfail)
  end.
  exact (Hfail ServiceError eq_refl).
Defined.

(** X20 on a document without [problems]. *)
Lemma generate_general_response_null_column_witness :
  exists row rcas,
    In row (rca_documents null_column_db)
    /\ Doc.problems row = None
    /\ get_all_rcas (H := plain_runtime) false null_column_db = Ok rcas
    /\ generate_general_response (H := plain_runtime) dead_model false
         null_column_db "anything" false = (Raise TypeError, []).
Proof.
  eexists. eexists.
  split; [left; reflexivity|]. split; [reflexivity|].
  split; [vm_compute; reflexivity|].
  refine (generate_general_response_null_column (H := plain_runtime) dead_model
            null_column_db "anything" false _ _ (or_introl eq_refl)
            (or_introl eq_refl) _).
  vm_compute. reflexivity.
Defined.

(* ===================================================================== *)
(** ** The recommendation prompt                                          *)
(* ===================================================================== *)

Section PromptFacts.
Context `{PyRuntime}.

Lemma recommendation_incidents_split (l : list Sim.t) (rank : nat)
    (rca : Sim.t) (i : Z) :
  l !! rank = Some rca ->
  recommendation_incidents i l
  = recommendation_incidents i (take rank l)
    +:+ recommendation_incident (i + Z.of_nat rank) rca
    +:+ recommendation_incidents (i + Z.of_nat rank + 1) (drop (S rank) l).
Proof.
  revert rank i. induction l as [|x l IH]; intros rank i Hrank;
    [discriminate Hrank|].
  destruct rank as [|rank].
  - injection Hrank as ->. cbn [take drop recommendation_incidents].
    rewrite append_nil, Z.add_0_r. reflexivity.
  - cbn [take drop recommendation_incidents].
    rewrite (IH rank (i + 1) Hrank), append_assoc_s.
    replace (i + 1 + Z.of_nat rank) with (i + Z.of_nat (S rank)) by lia.
    reflexivity.
Qed.

(** X22. For a non-empty list of similar RCAs the model is called once,
    with a prompt that quotes the problem and holds, for the incident at
    each rank, the block of that incident numbered with its rank counted
    from 1; the answer or the exception of that call is the result. *)
Theorem recommendation_prompt_lists_incidents
    (generate_content : string -> result string) (current_problem : string)
    (similar_rcas : list Sim.t) (Hsome : similar_rcas <> []) :
  let prompt := recommendation_prompt current_problem similar_rcas in
  generate_solution_recommendation generate_content current_problem similar_rcas
  = (generate_content prompt, [EvGenerate prompt])
  /\ PyStr.contains (PyStr.dq +:+ current_problem +:+ PyStr.dq) prompt = true
  /\ (forall rank rca,
        similar_rcas !! rank = Some rca ->
        PyStr.contains (recommendation_incident (Z.of_nat rank + 1) rca) prompt
        = true).
Proof.
  intros prompt. split; [|split].
  - destruct similar_rcas; [contradiction | reflexivity].
  - apply contains_iff. subst prompt.
    unfold recommendation_prompt, recommendation_header.
    match goal with
    | |- exists pre post,
           (?l +:+ (_ +:+ (_ +:+ (_ +:+ ?m)))) +:+ ?rest = _ =>
        exists l, (m +:+ rest)
    end.
    rewrite !append_assoc_s. reflexivity.
  - intros rank rca Hrank. apply contains_iff. subst prompt.
    unfold recommendation_prompt.
    rewrite (recommendation_incidents_split similar_rcas rank rca 1 Hrank).
    exists (recommendation_header current_problem
            +:+ recommendation_incidents 1 (take rank similar_rcas)),
      (recommendation_incidents (1 + Z.of_nat rank + 1)
         (drop (S rank) similar_rcas) +:+ recommendation_footer).
    replace (1 + Z.of_nat rank) with (Z.of_nat rank + 1) by lia.
    generalize (recommendation_header current_problem),
      (recommendation_incident (Z.of_nat rank + 1) rca), recommendation_footer.
    intros a b c. rewrite !append_assoc_s. reflexivity.
Qed.

End PromptFacts.

(** X22 on one retrieved incident. *)
Lemma recommendation_prompt_lists_incidents_witness :
  [timeout_incident] <> []
  /\ PyStr.contains "Incident #1"
       (recommendation_prompt (H := plain_runtime) "db is slow"
          [timeout_incident]) = true
  /\ PyStr.contains (recommendation_incident (H := plain_runtime) 1 timeout_incident)
       (recommendation_prompt (H := plain_runtime) "db is slow"
          [timeout_incident]) = true.
Proof.
  assert ([timeout_incident] <> []) as Hne by discriminate.
  split; [exact Hne|]. split; [vm_compute; reflexivity|].
  destruct (recommendation_prompt_lists_incidents (H := plain_runtime)
              (fun _ => Raise ServiceError) "db is slow" [timeout_incident] Hne)
    as (_ & _ & Hblock).
  exact (Hblock 0%nat timeout_incident eq_refl).
Defined.

(* ===================================================================== *)
(** ** The chat endpoints                                                 *)
(* ===================================================================== *)

Section EndpointFacts.
Context `{PyRuntime}.

Lemma add_chat_message_calm (w : ChatWorld.t) (sid message_type content : string)
    (matched : option (list Sim.t)) (db : Db) :
  calm w -> Sqlite.check_message_type message_type = true ->
  add_chat_message w sid message_type content matched db
  = (Ok tt,
     Sqlite.update_session_updated_at (ChatWorld.now_isoformat w) sid
       (mkDb (rca_documents db) (rca_documents_seq db) (chat_sessions db)
          (chat_messages db ++
             [posted (chat_messages_seq db) w sid message_type content
                (rcas_json_of matched)])
          (chat_messages_seq db + 1))).
Proof.
  intros Hcalm Hcheck.
  destruct (add_chat_message_outcome w sid message_type content matched db)
    as [(_ & _ & _ & _ & E)|(Hbad & _)]; [exact E|].
  exfalso. apply Hbad. repeat split; [exact Hcheck | apply Hcalm..].
Qed.

Lemma add_chat_message_ok (w : ChatWorld.t) (sid message_type content : string)
    (matched : option (list Sim.t)) (db db' : Db) :
  add_chat_message w sid message_type content matched db = (Ok tt, db') ->
  chat_messages db'
  = (chat_messages db ++
       [posted (chat_messages_seq db) w sid message_type content
          (rcas_json_of matched)])%list
  /\ chat_messages_seq db' = chat_messages_seq db + 1
  /\ rca_documents db' = rca_documents db.
Proof.
  destruct (add_chat_message_outcome w sid message_type content matched db)
    as [(_ & _ & _ & _ & ->)|(_ & e & ->)]; [|discriminate].
  intros [= <-]. repeat split.
Qed.

(** X23. [POST /chat-simple] stores the user's message before it routes
    the request: when that write succeeds and a later step raises (the
    search, a model call of the specialist, or reading the documents),
    the endpoint answers 500 and the database holds the user's message
    and no answer to it. *)
Theorem handle_chat_simple_failure_keeps_question (w : Request.t)
    (session_id problem_description : string) (db db1 : Db) (e : exn)
    (Hposted : add_chat_message (Request.user_write w) session_id "user"
                 problem_description None db = (Ok tt, db1))
    (Hfails : route_simple w problem_description db1 = Raise e) :
  handle_chat_simple w session_id problem_description db = (Http500 e, db1)
  /\ chat_messages db1
     = (chat_messages db ++
          [posted (chat_messages_seq db) (Request.user_write w) session_id
             "user" problem_description None])%list.
Proof.
  unfold handle_chat_simple. rewrite Hposted, Hfails.
  split; [reflexivity|].
  destruct (add_chat_message_ok _ _ _ _ _ _ _ Hposted) as (Hm & _).
  exact Hm.
Qed.

(** X24. When [POST /chat-simple] answers 200, the database holds, after
    the messages it had, the user's message and then the assistant's
    message with the returned text, under the next two ids; the matched
    RCAs stored with the answer are those returned, present exactly on
    the technical path. *)
Theorem handle_chat_simple_stores_exchange (w : Request.t)
    (session_id problem_description : string) (db : Db)
    (response_text : string) (similar_rcas : option (list Sim.t))
    (Hok : fst (handle_chat_simple w session_id problem_description db)
           = Http200 (response_text, similar_rcas)) :
  chat_messages (snd (handle_chat_simple w session_id problem_description db))
  = (chat_messages db ++
       [posted (chat_messages_seq db) (Request.user_write w) session_id "user"
          problem_description None;
        posted (chat_messages_seq db + 1) (Request.assistant_write w) session_id
          "assistant" response_text (rcas_json_of similar_rcas)])%list
  /\ (is_Some similar_rcas <->
      get_query_intent (Model.generate_text (Request.model w))
        problem_description = technical_problem_solving).
Proof.
  revert Hok. unfold handle_chat_simple.
  destruct (add_chat_message (Request.user_write w) session_id "user"
              problem_description None db) as [[[]|e] db1] eqn:E1;
    [|discriminate].
  destruct (route_simple w problem_description db1) as [[text similar]|e]
    eqn:Er; [|discriminate].
  destruct (add_chat_message (Request.assistant_write w) session_id "assistant"
              text similar db1) as [[[]|e] db2] eqn:E2; [|discriminate].
  cbn [fst snd]. intros [= <- <-].
  destruct (add_chat_message_ok _ _ _ _ _ _ _ E1) as (Hm1 & Hq1 & _).
  destruct (add_chat_message_ok _ _ _ _ _ _ _ E2) as (Hm2 & _ & _).
  split.
  - rewrite Hm2, Hm1, Hq1, <- app_assoc. reflexivity.
  - revert Er. unfold route_simple.
    destruct (String.eqb_spec
                (get_query_intent (Model.generate_text (Request.model w))
                   problem_description) technical_problem_solving) as [Ht|Hg].
    + destruct (search_similar_problems _ _ _ _) as [l|]; [|discriminate].
      cbn [rbind].
      destruct (fst (generate_solution_recommendation _ _ l)); [|discriminate].
      cbn [rbind]. intros [= <- <-]. split; [intros _; exact Ht | eauto].
    + destruct (fst (generate_general_response _ _ _ _ _)) as [[t|c]|];
        cbn [rbind]; try discriminate.
      intros [= <- <-]. split; [intros [? [=]] | intros Ht; contradiction].
Qed.

(** X25. On the technical path, when the search finds nothing,
    [POST /chat-simple] answers with the fixed "no similar problems"
    text and an empty list, whatever the model would have said, and
    stores that text as the assistant's message with no matched RCAs. *)
Theorem handle_chat_simple_no_match (w : Request.t)
    (session_id problem_description : string) (db db1 : Db)
    (Hposted : add_chat_message (Request.user_write w) session_id "user"
                 problem_description None db = (Ok tt, db1))
    (Hintent : get_query_intent (Model.generate_text (Request.model w))
                 problem_description = technical_problem_solving)
    (Hsearch : search_similar_problems (Request.search w) db1
                 problem_description 5 = Ok [])
    (Hcalm : calm (Request.assistant_write w)) :
  fst (handle_chat_simple w session_id problem_description db)
  = Http200 (no_similar_message, Some [])
  /\ chat_messages (snd (handle_chat_simple w session_id problem_description db))
     = (chat_messages db1 ++
          [posted (chat_messages_seq db1) (Request.assistant_write w)
             session_id "assistant" no_similar_message None])%list.
Proof.
  unfold handle_chat_simple, route_simple.
  rewrite Hposted, Hintent, String.eqb_refl, Hsearch. cbn [rbind fst snd
    generate_solution_recommendation].
  rewrite (add_chat_message_calm (Request.assistant_write w) session_id
             "assistant" _ _ _ Hcalm eq_refl).
  split; reflexivity.
Qed.

(** X26. [POST /chat] on the general path, the stream read to its end
    and both writes succeeding: the client receives the fragments of the
    model in order, and the assistant's message that is stored is their
    concatenation. If the stream breaks, the client receives the
    fragments that had arrived and then the apology, and the text
    accumulated so far is stored as the assistant's message, without the
    apology. *)
Theorem handle_chat_stream_general (w : Request.t)
    (session_id problem_description : string) (db db1 : Db) (chunks : Chunks.t)
    (Hposted : add_chat_message (Request.user_write w) session_id "user"
                 problem_description None db = (Ok tt, db1))
    (Hintent : get_query_intent (Model.generate_text (Request.model w))
                 problem_description <> technical_problem_solving)
    (Hstream : fst (generate_general_response (Request.model w)
                      (Request.read_fault w) db1 problem_description true)
               = Ok (StreamResponse chunks))
    (Hcalm : calm (Request.assistant_write w)) :
  fst (handle_chat_stream w session_id problem_description db)
  = Http200 (Streamed.mk (fragments_of chunks) None)
  /\ chat_messages (snd (handle_chat_stream w session_id problem_description db))
     = (chat_messages db1 ++
          [posted (chat_messages_seq db1) (Request.assistant_write w)
             session_id "assistant" (String.concat "" (Chunks.texts chunks))
             None])%list
  /\ (Chunks.failure chunks = None ->
      String.concat "" (fragments_of chunks)
      = String.concat "" (Chunks.texts chunks)).
Proof.
  unfold handle_chat_stream, stream_generator. rewrite Hposted.
  apply String.eqb_neq in Hintent. rewrite Hintent, Hstream.
  unfold drain_general, fragments_of.
  destruct (Chunks.failure chunks); cbn [fst snd];
    rewrite (add_chat_message_calm (Request.assistant_write w) session_id
             "assistant" _ _ _ Hcalm eq_refl); cbn [fst snd];
    repeat split; try reflexivity; discriminate.
Qed.

(** X27. [POST /chat] on the general path with an empty document table:
    [generate_general_response] returns its fixed text, not a stream,
    and the endpoint iterates over it as over a stream. The client
    receives only the apology, and an assistant message with empty
    content is stored; the "knowledge base is empty" text reaches
    neither. *)
Theorem handle_chat_stream_empty_store (w : Request.t)
    (session_id problem_description : string) (db db1 : Db)
    (Hposted : add_chat_message (Request.user_write w) session_id "user"
                 problem_description None db = (Ok tt, db1))
    (Hintent : get_query_intent (Model.generate_text (Request.model w))
                 problem_description <> technical_problem_solving)
    (Hempty : rca_documents db = [])
    (Hread : Request.read_fault w = false)
    (Hcalm : calm (Request.assistant_write w)) :
  fst (handle_chat_stream w session_id problem_description db)
  = Http200 (Streamed.mk [stream_apology] None)
  /\ chat_messages (snd (handle_chat_stream w session_id problem_description db))
     = (chat_messages db1 ++
          [posted (chat_messages_seq db1) (Request.assistant_write w)
             session_id "assistant" "" None])%list.
Proof.
  unfold handle_chat_stream, stream_generator. rewrite Hposted.
  apply String.eqb_neq in Hintent. rewrite Hintent, Hread.
  destruct (add_chat_message_ok _ _ _ _ _ _ _ Hposted) as (_ & _ & Hdocs).
  rewrite Hempty in Hdocs.
  destruct (generate_general_response_empty_store (Request.model w) db1
              problem_description true) as (Hfixed & _).
  rewrite (Hfixed Hdocs). cbn [fst snd drain_general empty_knowledge_base].
  rewrite (add_chat_message_calm (Request.assistant_write w) session_id
             "assistant" _ _ _ Hcalm eq_refl).
  split; reflexivity.
Qed.

End EndpointFacts.

(** X23 on a request whose search raises. *)
Lemma handle_chat_simple_failure_keeps_question_witness :
  exists db1,
    add_chat_message (H := plain_runtime)
      (Request.user_write failing_search_request) "s1" "user" "db is slow"
      None after_create = (Ok tt, db1)
    /\ route_simple (H := plain_runtime) failing_search_request "db is slow" db1
       = Raise ServiceError
    /\ fst (handle_chat_simple (H := plain_runtime) failing_search_request
              "s1" "db is slow" after_create) = Http500 ServiceError
    /\ length (chat_messages db1) = 1%nat.
Proof.
  eexists. split; [vm_compute; reflexivity|].
  split; [vm_compute; reflexivity|].
  match goal with
  | |- context [handle_chat_simple ?w ?sid ?q ?db] =>
      destruct (handle_chat_simple_failure_keeps_question (H := plain_runtime)
                  w sid q db _ ServiceError
                  ltac:(vm_compute; reflexivity) ltac:(vm_compute; reflexivity))
        as [Hanswer Hmessages]
  end.
  split; [rewrite Hanswer; reflexivity|].
  rewrite Hmessages. reflexivity.
Defined.

(** X24 and X25 on a request whose index is empty. *)
Lemma handle_chat_simple_stores_exchange_witness :
  fst (handle_chat_simple (H := plain_runtime) no_match_request "s1"
         "db is slow" after_create)
  = Http200 (no_similar_message, Some [])
  /\ map Message.content
       (chat_messages
          (snd (handle_chat_simple (H := plain_runtime) no_match_request "s1"
                  "db is slow" after_create)))
     = ["db is slow"; no_similar_message].
Proof.
  assert (fst (handle_chat_simple (H := plain_runtime) no_match_request "s1"
                 "db is slow" after_create)
          = Http200 (no_similar_message, Some [])) as Hok
    by (vm_compute; reflexivity).
  split; [exact Hok|].
  destruct (handle_chat_simple_stores_exchange (H := plain_runtime)
              no_match_request "s1" "db is slow" after_create
              no_similar_message (Some []) Hok) as [Hmessages _].
  rewrite Hmessages. reflexivity.
Defined.

Lemma handle_chat_simple_no_match_witness :
  exists db1,
    add_chat_message (H := plain_runtime)
      (Request.user_write no_match_request) "s1" "user" "db is slow" None
      after_create = (Ok tt, db1)
    /\ calm (Request.assistant_write no_match_request)
    /\ fst (handle_chat_simple (H := plain_runtime) no_match_request "s1"
              "db is slow" after_create)
       = Http200 (no_similar_message, Some []).
Proof.
  eexists. split; [vm_compute; reflexivity|].
  assert (calm (Request.assistant_write no_match_request)) as Hcalm
    by (intros k; reflexivity).
  split; [exact Hcalm|].
  match goal with
  | |- context [handle_chat_simple ?w ?sid ?q ?db] =>
      destruct (handle_chat_simple_no_match (H := plain_runtime) w sid q db _
                  ltac:(vm_compute; reflexivity) ltac:(vm_compute; reflexivity)
                  ltac:(vm_compute; reflexivity) Hcalm) as [Hanswer _]
  end.
  exact Hanswer.
Defined.

(** X26 on a stream that breaks after two fragments. *)
Lemma handle_chat_stream_general_witness :
  exists db1,
    add_chat_message (H := plain_runtime)
      (Request.user_write (stream_request broken_stream_model)) "s1" "user"
      "how many RCAs?" None one_doc_db = (Ok tt, db1)
    /\ calm (Request.assistant_write (stream_request broken_stream_model))
    /\ fst (handle_chat_stream (H := plain_runtime)
              (stream_request broken_stream_model) "s1" "how many RCAs?"
              one_doc_db)
       = Http200 (Streamed.mk ["There are "; "3 RCAs"; stream_apology] None)
    /\ map Message.content
         (chat_messages
            (snd (handle_chat_stream (H := plain_runtime)
                    (stream_request broken_stream_model) "s1" "how many RCAs?"
                    one_doc_db)))
       = ["how many RCAs?"; "There are 3 RCAs"].
Proof.
  eexists. split; [vm_compute; reflexivity|].
  assert (calm (Request.assistant_write (stream_request broken_stream_model)))
    as Hcalm by (intros k; reflexivity).
  split; [exact Hcalm|].
  match goal with
  | |- context [handle_chat_stream ?w ?sid ?q ?db] =>
      destruct (handle_chat_stream_general (H := plain_runtime) w sid q db _
                  (Chunks.mk ["There are "; "3 RCAs"] (Some ServiceError))
                  ltac:(vm_compute; reflexivity)
                  ltac:(vm_compute; discriminate)
                  ltac:(vm_compute; reflexivity) Hcalm)
        as (Hanswer & Hmessages & _)
  end.
  split; [exact Hanswer|]. rewrite Hmessages. reflexivity.
Defined.

(** X27 on the database that holds a session and no document. *)
Lemma handle_chat_stream_empty_store_witness :
  exists db1,
    add_chat_message (H := plain_runtime)
      (Request.user_write (stream_request broken_stream_model)) "s1" "user"
      "how many RCAs?" None after_create = (Ok tt, db1)
    /\ rca_documents after_create = []
    /\ fst (handle_chat_stream (H := plain_runtime)
              (stream_request broken_stream_model) "s1" "how many RCAs?"
              after_create)
       = Http200 (Streamed.mk [stream_apology] None)
    /\ map Message.content
         (chat_messages
            (snd (handle_chat_stream (H := plain_runtime)
                    (stream_request broken_stream_model) "s1" "how many RCAs?"
                    after_create)))
       = ["how many RCAs?"; ""].
Proof.
  eexists. split; [vm_compute; reflexivity|]. split; [reflexivity|].
  match goal with
  | |- context [handle_chat_stream ?w ?sid ?q ?db] =>
      destruct (handle_chat_stream_empty_store (H := plain_runtime) w sid q db _
                  ltac:(vm_compute; reflexivity)
                  ltac:(vm_compute; discriminate)
                  eq_refl eq_refl ltac:(intros k; reflexivity))
        as (Hanswer & Hmessages)
  end.
  split; [exact Hanswer|]. rewrite Hmessages. reflexivity.
Defined.
